(** * MELD node firmware: HAL simulation backend and acquisition/dispatch loop

    A shallow embedding of [src/fw/hal.h], [src/sim/hal-wasm.cpp] and
    [src/fw/main.cpp].  The process-wide state of the simulation backend and
    of the browser host it talks to is one record, [world]; the statics of
    [main.cpp] are a second record, [fw_state].  Every HAL function is a
    computation in the state monad [M] over [world].  Calls that leave the
    WebAssembly module ([js_*], [emscripten_*]) are recorded, newest first, in
    the [calls] field, so that display, feedback and storage sequences can be
    stated as facts about that list. *)

From Stdlib Require Import ZArith Lia List String Ascii Bool DecimalString.
From Stdlib Require Import DecimalN DecimalPos.
From stdpp Require Import base gmap strings list.
From coqutil Require Import Z.bitblast.
Import ListNotations.
Open Scope Z_scope.

(** ** Machine integers *)

Definition u8 (v : Z) : Z := v mod 2 ^ 8.
Definition u16 (v : Z) : Z := v mod 2 ^ 16.
Definition u32 (v : Z) : Z := v mod 2 ^ 32.
Definition u64 (v : Z) : Z := v mod 2 ^ 64.

(** ** hal.h: the records exchanged through the HAL *)

Record touch_event_t := mk_touch_event {
  touch_x : Z;
  touch_y : Z;
  touch_type : Z;              (* 0=touch_down, 1=touch_move, 2=touch_up *)
  touch_timestamp : Z
}.

(** [tag_uid] and [tag_ndef] hold the bytes that [memcpy] wrote into the
    fixed arrays [uid[7]] and [ndef[512]]; the lengths are stored beside
    them, as in the C struct. *)
Record nfc_tag_t := mk_nfc_tag {
  tag_uid : list Z;
  tag_uid_length : Z;
  tag_ndef : list Z;
  tag_ndef_length : Z;
  tag_timestamp : Z
}.

Definition DISPLAY_WIDTH : Z := 296.
Definition DISPLAY_HEIGHT : Z := 296.

(** ** The boundary of the WebAssembly module *)

(** Calls from the module into the host runtime, with their arguments. *)
Inductive js_call :=
| js_display_clear
| js_display_draw_text (x y : Z) (text : string) (size : Z)
| js_display_update (partial : bool)
| js_led_set (on : bool)
| js_buzzer_tone (frequency duration : Z)
| js_storage_save (key : string) (data : list Z)
| js_storage_load (key : string) (max_length : Z)
| js_debug_print (message : string)
| emscripten_sleep (ms : Z)
| emscripten_async_call_blink (blink_num delay millis : Z).

(** Calls from the host into the module (the [EMSCRIPTEN_KEEPALIVE]
    callbacks at the end of hal-wasm.cpp). *)
Inductive host_call :=
| call_wasm_touch_event (x y type timestamp : Z)
| call_wasm_nfc_tag (uid : list Z) (uid_length : Z) (ndef : list Z) (ndef_length : Z)
| call_wasm_nfc_tag_removed.

(** The five statics of hal-wasm.cpp, followed by the host side: the clock
    behind [js_system_millis], the key-value store behind [js_storage_*],
    whether that store currently accepts writes, the host calls still to
    come with the clock value at which each one is made, and the record of
    calls made so far. *)
Record world := mk_world {
  touch_queue : list touch_event_t;      (* front of the std::queue first *)
  nfc_queue : list nfc_tag_t;
  display_initialized : bool;
  nfc_initialized : bool;
  touch_initialized : bool;
  clock : Z;
  store : gmap string (list Z);
  store_ok : bool;
  inbox : list (Z * host_call);
  calls : list js_call
}.

Definition set_touch_queue (q : list touch_event_t) (w : world) : world :=
  mk_world q (nfc_queue w) (display_initialized w) (nfc_initialized w)
    (touch_initialized w) (clock w) (store w) (store_ok w) (inbox w) (calls w).

Definition set_nfc_queue (q : list nfc_tag_t) (w : world) : world :=
  mk_world (touch_queue w) q (display_initialized w) (nfc_initialized w)
    (touch_initialized w) (clock w) (store w) (store_ok w) (inbox w) (calls w).

Definition set_display_initialized (b : bool) (w : world) : world :=
  mk_world (touch_queue w) (nfc_queue w) b (nfc_initialized w)
    (touch_initialized w) (clock w) (store w) (store_ok w) (inbox w) (calls w).

Definition set_nfc_initialized (b : bool) (w : world) : world :=
  mk_world (touch_queue w) (nfc_queue w) (display_initialized w) b
    (touch_initialized w) (clock w) (store w) (store_ok w) (inbox w) (calls w).

Definition set_touch_initialized (b : bool) (w : world) : world :=
  mk_world (touch_queue w) (nfc_queue w) (display_initialized w)
    (nfc_initialized w) b (clock w) (store w) (store_ok w) (inbox w) (calls w).

Definition set_clock (t : Z) (w : world) : world :=
  mk_world (touch_queue w) (nfc_queue w) (display_initialized w)
    (nfc_initialized w) (touch_initialized w) t (store w) (store_ok w)
    (inbox w) (calls w).

Definition set_store (m : gmap string (list Z)) (w : world) : world :=
  mk_world (touch_queue w) (nfc_queue w) (display_initialized w)
    (nfc_initialized w) (touch_initialized w) (clock w) m (store_ok w)
    (inbox w) (calls w).

Definition set_store_ok (b : bool) (w : world) : world :=
  mk_world (touch_queue w) (nfc_queue w) (display_initialized w)
    (nfc_initialized w) (touch_initialized w) (clock w) (store w) b
    (inbox w) (calls w).

Definition set_inbox (l : list (Z * host_call)) (w : world) : world :=
  mk_world (touch_queue w) (nfc_queue w) (display_initialized w)
    (nfc_initialized w) (touch_initialized w) (clock w) (store w) (store_ok w)
    l (calls w).

(** Record one outgoing call. *)
Definition js (c : js_call) (w : world) : world :=
  mk_world (touch_queue w) (nfc_queue w) (display_initialized w)
    (nfc_initialized w) (touch_initialized w) (clock w) (store w) (store_ok w)
    (inbox w) (c :: calls w).

(** Record one outgoing call unless an early [return] skipped it. *)
Definition js_unless (skip : bool) (c : js_call) (w : world) : world :=
  mk_world (touch_queue w) (nfc_queue w) (display_initialized w)
    (nfc_initialized w) (touch_initialized w) (clock w) (store w) (store_ok w)
    (inbox w) (if skip then calls w else c :: calls w).

(** ** The state monad of HAL computations *)

Definition M (A : Type) : Type := world -> A * world.

Definition ret {A} (a : A) : M A := fun w => (a, w).

Definition bind {A B} (c : M A) (k : A -> M B) : M B :=
  fun w => let r := c w in k (fst r) (snd r).

Definition exec {A} (c : M A) (w : world) : world := snd (c w).

(** A [void] HAL function is a state transformer. *)
Definition void (f : world -> world) : M unit := fun w => (tt, f w).

Declare Scope hal_scope.
Delimit Scope hal_scope with hal.
Bind Scope hal_scope with M.
Notation "x <- c ;; k" := (bind c (fun x => k))
  (at level 100, c at next level, k at level 200, right associativity) : hal_scope.
Notation "c ;; k" := (bind c (fun _ => k))
  (at level 100, k at level 200, right associativity) : hal_scope.
Open Scope hal_scope.

(** [for (int i = 0; i < n; i++) body(i)] *)
Fixpoint for_from (i : Z) (n : nat) (body : Z -> M unit) : M unit :=
  match n with
  | O => ret tt
  | S n' => body i ;; for_from (i + 1) n' body
  end.

Definition for_upto (n : Z) (body : Z -> M unit) : M unit :=
  for_from 0 (Z.to_nat n) body.

(** ** hal-wasm.cpp: the host's callbacks *)

(** [wasm_touch_event]: the arguments arrive as [uint16_t], [uint16_t],
    [uint8_t] and [uint64_t].  After the push, the queue is cut back to ten
    entries by popping at the front. *)
Fixpoint pop_while_over (cap : nat) (fuel : nat) (q : list touch_event_t) : list touch_event_t :=
  match fuel with
  | O => q
  | S fuel' =>
      if (cap <? length q)%nat then pop_while_over cap fuel' (tail q) else q
  end.

Definition wasm_touch_event (x y type timestamp : Z) (w : world) : world :=
  if negb (touch_initialized w) then w
  else
    let event := mk_touch_event (u16 x) (u16 y) (u8 type) (u64 timestamp) in
    let q := touch_queue w ++ [event] in
    set_touch_queue (pop_while_over 10 (length q) q) w.

(** [while (!nfc_queue.empty()) nfc_queue.pop();] *)
Fixpoint drain (q : list nfc_tag_t) : list nfc_tag_t :=
  match q with
  | [] => []
  | _ :: q' => drain q'
  end.

(** [wasm_nfc_tag]: lengths are clamped to the sizes of the arrays, the
    queue is emptied, then the new tag is pushed. *)
Definition wasm_nfc_tag (uid : list Z) (uid_length : Z) (ndef : list Z) (ndef_length : Z)
    (w : world) : world :=
  if negb (nfc_initialized w) then w
  else
    let uid_length := u8 uid_length in
    let ndef_length := u16 ndef_length in
    let tag_uid_length := if uid_length <? 7 then uid_length else 7 in
    let tag_ndef_length := if ndef_length <? 512 then ndef_length else 512 in
    let tag :=
      mk_nfc_tag (take (Z.to_nat tag_uid_length) uid) tag_uid_length
                 (take (Z.to_nat tag_ndef_length) ndef) tag_ndef_length
                 (u64 (clock w)) in
    set_nfc_queue (drain (nfc_queue w) ++ [tag]) w.

Definition wasm_nfc_tag_removed (w : world) : world :=
  set_nfc_queue (drain (nfc_queue w)) w.

Definition run_host_call (c : host_call) (w : world) : world :=
  match c with
  | call_wasm_touch_event x y type timestamp => wasm_touch_event x y type timestamp w
  | call_wasm_nfc_tag uid uid_length ndef ndef_length =>
      wasm_nfc_tag uid uid_length ndef ndef_length w
  | call_wasm_nfc_tag_removed => wasm_nfc_tag_removed w
  end.

(** ** hal-wasm.cpp: system functions *)

Definition system_millis : M Z := fun w => (u64 (clock w), w).

(** While the module sleeps the host runs: it makes, in order, the calls of
    the inbox that are due by the end of the sleep. *)
Fixpoint deliver (target : Z) (pending : list (Z * host_call)) (w : world) : world :=
  match pending with
  | [] => set_inbox [] w
  | (t, c) :: rest =>
      if t <=? target
      then deliver target rest (run_host_call c (set_clock (Z.max t (clock w)) w))
      else set_inbox pending w
  end.

(** [system_delay ms] is [emscripten_sleep(ms)].  The host's callbacks only
    touch the two queues, so the other fields are taken from [w] itself. *)
Definition system_delay (ms : Z) : M unit :=
  void (fun w =>
    let d := deliver (clock w + ms) (inbox w) w in
    mk_world (touch_queue d) (nfc_queue d) (display_initialized w)
      (nfc_initialized w) (touch_initialized w) (clock w + ms) (store w)
      (store_ok w) (inbox d) (emscripten_sleep ms :: calls w)).

Definition debug_print (message : string) : M unit :=
  void (js (js_debug_print message)).

(** [debug_printf] formats into [char buffer[512]] with [vsnprintf], which
    keeps at most 511 characters.  The argument is the formatted text. *)
Definition debug_printf (formatted : string) : M unit :=
  debug_print (String.substring 0 511 formatted).

(** ** hal-wasm.cpp: display *)

Definition display_init : M unit :=
  void (set_display_initialized true) ;;
  void (js js_display_clear) ;;
  debug_print "Display initialized (WebAssembly)".

(** The three drawing functions start with [if (!display_initialized)
    return;]: their call is made only when the guard lets it through. *)
Definition display_clear : M unit :=
  void (fun w => js_unless (negb (display_initialized w)) js_display_clear w).

Definition display_draw_text (x y : Z) (text : string) (size : Z) : M unit :=
  void (fun w =>
    js_unless (negb (display_initialized w)) (js_display_draw_text x y text size) w).

Definition display_update (partial : bool) : M unit :=
  void (fun w => js_unless (negb (display_initialized w)) (js_display_update partial) w).

(** ** hal-wasm.cpp: NFC *)

Definition nfc_init : M unit :=
  void (set_nfc_initialized true) ;;
  debug_print "NFC initialized (WebAssembly)".

Definition nfc_tag_present : M bool :=
  fun w => (match nfc_queue w with [] => false | _ :: _ => true end, w).

(** [nfc_get_uid] returns the length and the bytes it copied to [out]; the
    front tag stays in the queue. *)
Definition nfc_get_uid : M (Z * list Z) :=
  fun w =>
    if negb (nfc_initialized w) then ((0, []), w)
    else match nfc_queue w with
         | [] => ((0, []), w)
         | tag :: _ =>
             ((tag_uid_length tag, take (Z.to_nat (tag_uid_length tag)) (tag_uid tag)), w)
         end.

Definition nfc_read_ndef : M (Z * list Z) :=
  fun w =>
    if negb (nfc_initialized w) then ((0, []), w)
    else match nfc_queue w with
         | [] => ((0, []), w)
         | tag :: _ =>
             ((tag_ndef_length tag, take (Z.to_nat (tag_ndef_length tag)) (tag_ndef tag)), w)
         end.

(** ** hal-wasm.cpp: touch *)

Definition touch_init : M unit :=
  void (set_touch_initialized true) ;;
  debug_print "Touch initialized (WebAssembly)".

(** [touch_read] returns [None] where the C function returns [false], and
    the event it stored in [*out] where it returns [true]. *)
Definition touch_read : M (option touch_event_t) :=
  fun w =>
    if negb (touch_initialized w) then (None, w)
    else match touch_queue w with
         | [] => (None, w)
         | event :: q => (Some event, set_touch_queue q w)
         end.

(** ** hal-wasm.cpp: LED and buzzer *)

Definition led_set (on : bool) : M unit := void (js (js_led_set on)).

(** [led_blink] only schedules its blinks: one [emscripten_async_call] per
    blink, due after [i * delay_ms * 2] ms, and returns at once. *)
Definition led_blink (times delay_ms : Z) : M unit :=
  for_upto times (fun i =>
    void (js (emscripten_async_call_blink i delay_ms (i * delay_ms * 2)))).

Definition buzzer_tone (frequency duration : Z) : M unit :=
  void (js (js_buzzer_tone (u16 frequency) (u16 duration))).

Definition buzzer_success : M unit :=
  buzzer_tone 1000 100 ;;
  system_delay 120 ;;
  buzzer_tone 1200 100 ;;
  system_delay 120 ;;
  buzzer_tone 1400 150.

(** ** hal-wasm.cpp: storage *)

(** Modelled from the spec: the host functions [js_storage_save] and
    [js_storage_load] are not part of the sources.  The store is a flat
    namespace of keys; a save either succeeds and binds the key to the
    bytes, or fails and changes nothing; a load of an absent key yields
    length 0, and a load right after a save of the same key observes the
    saved bytes (at most [max_length] of them). *)
Definition host_storage_save (key : string) (data : list Z) : M bool :=
  fun w =>
    let w := js (js_storage_save key data) w in
    (store_ok w,
     set_store (if store_ok w then <[key := data]> (store w) else store w) w).

Definition host_storage_load (key : string) (max_length : Z) : M (Z * list Z) :=
  fun w =>
    let w' := js (js_storage_load key max_length) w in
    match store w !! key with
    | None => ((0, []), w')
    | Some data =>
        let loaded := take (Z.to_nat max_length) data in
        ((Z.of_nat (length loaded), loaded), w')
    end.

(** [storage_save(key, data, length)]: [data] carries its [length]. *)
Definition storage_save (key : string) (data : list Z) : M bool :=
  if Z.of_nat (length data) =? 0 then ret false
  else host_storage_save key data.

(** [storage_load] returns the length and the bytes written to the buffer. *)
Definition storage_load (key : string) (max_length : Z) : M (Z * list Z) :=
  if max_length =? 0 then ret (0, [])
  else host_storage_load key max_length.

(** ** main.cpp: text formatting *)

(** [%llu], [%lu] and [%d] of a non-negative value. *)
Definition dec (n : Z) : string := NilZero.string_of_uint (N.to_uint (Z.to_N n)).

Definition hex_digits : list ascii :=
  ["0"; "1"; "2"; "3"; "4"; "5"; "6"; "7"; "8"; "9"; "A"; "B"; "C"; "D"; "E"; "F"]%char.

Definition hex_digit (n : Z) : ascii := nth (Z.to_nat n) hex_digits "F"%char.

(** [%02X] of a byte. *)
Definition hex2 (b : Z) : string :=
  String (hex_digit (b / 16)) (String (hex_digit (b mod 16)) "").

(** [%.2f]: the [float tip_amount] is only ever printed with two decimals,
    so it is carried as the number of hundredths it prints as. *)
Definition fmt_2f (hundredths : Z) : string :=
  let a := Z.abs hundredths in
  (if hundredths <? 0 then "-" else "") +:+ dec (a / 100) +:+ "."
  +:+ (if a mod 100 <? 10 then "0" else "") +:+ dec (a mod 100).

Definition dquote : ascii := "034"%char.

(** A C string literal between escaped double quotes. *)
Definition quoted (s : string) : string := String dquote (s +:+ String dquote "").

(** [(uint8_t* )text] with [strlen(text)]. *)
Definition bytes_of_string (s : string) : list Z :=
  map (fun c => Z.of_N (N_of_ascii c)) (list_ascii_of_string s).

Definition uid_to_string (uid : list Z) (length : Z) : string :=
  fold_right (fun b out => hex2 (u8 b) +:+ out) "" (take (Z.to_nat (u8 length)) uid).

(** ** main.cpp: ritual configuration and global state *)

Definition RITUAL_SAVE_MOMENT : Z := 0.
Definition RITUAL_SEND_TIP : Z := 1.
Definition RITUAL_VOTE_A : Z := 2.
Definition RITUAL_VOTE_B : Z := 3.
Definition RITUAL_UNLOCK_CONTENT : Z := 4.
Definition RITUAL_TRIGGER_LIGHT : Z := 5.
Definition RITUAL_PLAY_SOUND : Z := 6.
Definition RITUAL_INCREMENT_COUNTER : Z := 7.
Definition RITUAL_CUSTOM : Z := 8.

(** [behavior] is the enum's integer: [set_ritual_config] casts any [int]
    to it. *)
Record ritual_config_t := mk_ritual_config {
  node_id : string;
  label : string;
  behavior : Z;
  tip_amount : Z;
  vote_option : string;
  counter_name : string;
  light_pattern : string;
  sound_file : string
}.

Record fw_state := mk_fw_state {
  current_ritual : ritual_config_t;
  ritual_initialized : bool;
  last_nfc_check : Z;
  last_uid : string;
  last_touch_time : Z
}.

Definition set_current_ritual (c : ritual_config_t) (st : fw_state) : fw_state :=
  mk_fw_state c (ritual_initialized st) (last_nfc_check st) (last_uid st) (last_touch_time st).

Definition set_ritual_initialized (b : bool) (st : fw_state) : fw_state :=
  mk_fw_state (current_ritual st) b (last_nfc_check st) (last_uid st) (last_touch_time st).

Definition set_last_nfc_check (t : Z) (st : fw_state) : fw_state :=
  mk_fw_state (current_ritual st) (ritual_initialized st) t (last_uid st) (last_touch_time st).

Definition set_last_uid (u : string) (st : fw_state) : fw_state :=
  mk_fw_state (current_ritual st) (ritual_initialized st) (last_nfc_check st) u (last_touch_time st).

Definition set_last_touch_time (t : Z) (st : fw_state) : fw_state :=
  mk_fw_state (current_ritual st) (ritual_initialized st) (last_nfc_check st) (last_uid st) t.

(** The statics as the loader leaves them: zeroed. *)
Definition fw_boot : fw_state :=
  mk_fw_state (mk_ritual_config "" "" 0 0 "" "" "" "") false 0 "" 0.

(** ** main.cpp: screens *)

Definition show_status_message (cfg : ritual_config_t) (message : string) : M unit :=
  display_clear ;;
  display_draw_text 10 10 "MELD Node" 2 ;;
  display_draw_text 10 50 (label cfg) 1 ;;
  display_draw_text 10 80 "Status:" 1 ;;
  display_draw_text 10 100 message 1 ;;
  display_update true.

Definition show_ready_screen (cfg : ritual_config_t) : M unit :=
  display_clear ;;
  display_draw_text 50 50 "MELD Node" 3 ;;
  display_draw_text 30 120 (label cfg) 2 ;;
  display_draw_text 10 180 "Tap NFC tag to activate" 1 ;;
  display_draw_text 10 200 "Touch screen for menu" 1 ;;
  display_update false.

(** ** main.cpp: ritual behaviours *)

(** The texts that [sprintf] builds.  Their buffers (256, 64 and 64 bytes)
    hold them for every configuration that fits the arrays of
    [ritual_config_t]. *)
Definition moment_data (cfg : ritual_config_t) (uid_str : string) (t : Z) : string :=
  "{" +:+ quoted "uid" +:+ ":" +:+ quoted uid_str +:+ ","
  +:+ quoted "node" +:+ ":" +:+ quoted (node_id cfg) +:+ ","
  +:+ quoted "timestamp" +:+ ":" +:+ dec t +:+ ","
  +:+ quoted "verified" +:+ ":true}".

Definition tip_data (cfg : ritual_config_t) (uid_str : string) (t : Z) : string :=
  "{" +:+ quoted "uid" +:+ ":" +:+ quoted uid_str +:+ ","
  +:+ quoted "amount" +:+ ":" +:+ fmt_2f (tip_amount cfg) +:+ ","
  +:+ quoted "node" +:+ ":" +:+ quoted (node_id cfg) +:+ ","
  +:+ quoted "timestamp" +:+ ":" +:+ dec t +:+ "}".

Definition vote_data (cfg : ritual_config_t) (uid_str opt : string) (t : Z) : string :=
  "{" +:+ quoted "uid" +:+ ":" +:+ quoted uid_str +:+ ","
  +:+ quoted "option" +:+ ":" +:+ quoted opt +:+ ","
  +:+ quoted "vote_option" +:+ ":" +:+ quoted (vote_option cfg) +:+ ","
  +:+ quoted "node" +:+ ":" +:+ quoted (node_id cfg) +:+ ","
  +:+ quoted "timestamp" +:+ ":" +:+ dec t +:+ "}".

Definition unlock_data (cfg : ritual_config_t) (uid_str : string) (t : Z) : string :=
  "{" +:+ quoted "uid" +:+ ":" +:+ quoted uid_str +:+ ","
  +:+ quoted "content_id" +:+ ":" +:+ quoted (node_id cfg) +:+ ","
  +:+ quoted "node" +:+ ":" +:+ quoted (node_id cfg) +:+ ","
  +:+ quoted "timestamp" +:+ ":" +:+ dec t +:+ "}".

Definition execute_save_moment (cfg : ritual_config_t) (uid_str : string) : M unit :=
  debug_printf ("Saving moment for UID: " +:+ uid_str) ;;
  show_status_message cfg "Saving moment..." ;;
  led_blink 3 200 ;;
  buzzer_success ;;
  t_data <- system_millis ;;
  t_key <- system_millis ;;
  storage_save ("moment_" +:+ dec t_key) (bytes_of_string (moment_data cfg uid_str t_data)) ;;
  show_status_message cfg "Moment saved!" ;;
  system_delay 2000 ;;
  show_ready_screen cfg.

Definition execute_send_tip (cfg : ritual_config_t) (uid_str : string) : M unit :=
  debug_printf ("Sending tip: $" +:+ fmt_2f (tip_amount cfg) +:+ " for UID: " +:+ uid_str) ;;
  show_status_message cfg "Sending tip..." ;;
  led_blink 5 100 ;;
  buzzer_tone 800 100 ;;
  system_delay 120 ;;
  buzzer_tone 1000 100 ;;
  system_delay 120 ;;
  buzzer_tone 1200 150 ;;
  t_data <- system_millis ;;
  t_key <- system_millis ;;
  storage_save ("tip_" +:+ dec t_key) (bytes_of_string (tip_data cfg uid_str t_data)) ;;
  show_status_message cfg ("Tip sent: $" +:+ fmt_2f (tip_amount cfg)) ;;
  system_delay 2000 ;;
  show_ready_screen cfg.

Definition execute_vote (cfg : ritual_config_t) (uid_str : string) (option_a : bool) : M unit :=
  let opt := if option_a then "A" else "B" in
  debug_printf ("Voting " +:+ opt +:+ ": " +:+ vote_option cfg +:+ " for UID: " +:+ uid_str) ;;
  show_status_message cfg ("Voting " +:+ opt +:+ "...") ;;
  (if option_a then
     led_set true ;;
     buzzer_tone 1000 500 ;;
     led_set false
   else
     led_blink 2 250 ;;
     buzzer_tone 800 300 ;;
     system_delay 100 ;;
     buzzer_tone 600 300) ;;
  t_data <- system_millis ;;
  t_key <- system_millis ;;
  storage_save ("vote_" +:+ dec t_key) (bytes_of_string (vote_data cfg uid_str opt t_data)) ;;
  show_status_message cfg ("Vote " +:+ opt +:+ " recorded") ;;
  system_delay 2000 ;;
  show_ready_screen cfg.

(** [count_data] after [storage_load] wrote [loaded] over its front. *)
Definition overlay (loaded buf : list Z) : list Z :=
  loaded ++ drop (length loaded) buf.

Definition be32_decode (count_data : list Z) : Z :=
  u32 (Z.lor (Z.lor (Z.lor (Z.shiftl (nth 0 count_data 0) 24)
                           (Z.shiftl (nth 1 count_data 0) 16))
                    (Z.shiftl (nth 2 count_data 0) 8))
             (nth 3 count_data 0)).

Definition be32_encode (current_count : Z) : list Z :=
  [ Z.land (Z.shiftr current_count 24) 255;
    Z.land (Z.shiftr current_count 16) 255;
    Z.land (Z.shiftr current_count 8) 255;
    Z.land current_count 255 ].

Definition execute_increment_counter (cfg : ritual_config_t) (uid_str : string) : M unit :=
  debug_printf ("Incrementing counter: " +:+ counter_name cfg +:+ " for UID: " +:+ uid_str) ;;
  show_status_message cfg "Updating counter..." ;;
  loaded <- storage_load (counter_name cfg) 4 ;;
  let count_data := overlay (snd loaded) [0; 0; 0; 0] in
  let current_count := be32_decode count_data in
  let current_count := u32 (current_count + 1) in
  storage_save (counter_name cfg) (be32_encode current_count) ;;
  led_blink (current_count mod 10) 150 ;;
  buzzer_tone (1000 + current_count mod 500) 200 ;;
  show_status_message cfg (counter_name cfg +:+ ": " +:+ dec current_count) ;;
  system_delay 2000 ;;
  show_ready_screen cfg.

Definition execute_trigger_light (cfg : ritual_config_t) (uid_str : string) : M unit :=
  debug_printf ("Triggering light pattern: " +:+ light_pattern cfg +:+ " for UID: " +:+ uid_str) ;;
  show_status_message cfg "Light show!" ;;
  (if String.eqb (light_pattern cfg) "rainbow" then
     for_upto 10 (fun i =>
       led_set true ;;
       buzzer_tone (500 + i * 100) 100 ;;
       system_delay 100 ;;
       led_set false ;;
       system_delay 50)
   else if String.eqb (light_pattern cfg) "pulse" then
     for_upto 5 (fun _ =>
       led_set true ;;
       system_delay 50 ;;
       led_set false ;;
       system_delay 50)
   else
     led_blink 10 100) ;;
  show_status_message cfg "Light show complete" ;;
  system_delay 1000 ;;
  show_ready_screen cfg.

Definition execute_unlock_content (cfg : ritual_config_t) (uid_str : string) : M unit :=
  debug_printf ("Unlocking content for UID: " +:+ uid_str) ;;
  show_status_message cfg "Unlocking content..." ;;
  led_set true ;;
  buzzer_success ;;
  system_delay 2000 ;;
  led_set false ;;
  t_data <- system_millis ;;
  t_key <- system_millis ;;
  storage_save ("unlock_" +:+ dec t_key) (bytes_of_string (unlock_data cfg uid_str t_data)) ;;
  show_status_message cfg "Content unlocked!" ;;
  system_delay 2000 ;;
  show_ready_screen cfg.

(** The [switch] over [current_ritual.behavior]; [RITUAL_PLAY_SOUND],
    [RITUAL_CUSTOM] and every other integer take the [default] branch. *)
Definition execute_ritual_behavior (cfg : ritual_config_t) (uid_str : string) : M unit :=
  let b := behavior cfg in
  if b =? RITUAL_SAVE_MOMENT then execute_save_moment cfg uid_str
  else if b =? RITUAL_SEND_TIP then execute_send_tip cfg uid_str
  else if b =? RITUAL_VOTE_A then execute_vote cfg uid_str true
  else if b =? RITUAL_VOTE_B then execute_vote cfg uid_str false
  else if b =? RITUAL_INCREMENT_COUNTER then execute_increment_counter cfg uid_str
  else if b =? RITUAL_TRIGGER_LIGHT then execute_trigger_light cfg uid_str
  else if b =? RITUAL_UNLOCK_CONTENT then execute_unlock_content cfg uid_str
  else
    show_status_message cfg "Unknown behavior" ;;
    system_delay 1000 ;;
    show_ready_screen cfg.

(** ** main.cpp: touch menu *)

Definition show_menu : M unit :=
  display_clear ;;
  display_draw_text 10 10 "MELD Node Menu" 2 ;;
  display_draw_text 10 50 "1. View Stats" 1 ;;
  display_draw_text 10 70 "2. Clear Data" 1 ;;
  display_draw_text 10 90 "3. Test NFC" 1 ;;
  display_draw_text 10 110 "4. Node Info" 1 ;;
  display_draw_text 10 250 "Touch to exit" 1 ;;
  display_update true.

(** The two waits of main.cpp that have no time limit, [while (true)] in
    [loop] and [while (!touch_read(&touch) || touch.type != 0)] in
    [handle_touch_menu]: read, return the touch-down if there is one, sleep
    10 ms otherwise.  [fuel] bounds the number of reads; [None] means the
    wait was still going on when it ran out. *)
Fixpoint wait_touch_down (fuel : nat) : M (option touch_event_t) :=
  match fuel with
  | O => ret None
  | S fuel' =>
      r <- touch_read ;;
      match r with
      | Some touch =>
          if touch_type touch =? 0 then ret (Some touch)
          else system_delay 10 ;; wait_touch_down fuel'
      | None => system_delay 10 ;; wait_touch_down fuel'
      end
  end.

(** Returns [false] when the Node Info wait did not finish within [fuel]. *)
Definition handle_touch_menu (fuel : nat) (cfg : ritual_config_t) (x y : Z) : M bool :=
  if (50 <=? y) && (y <? 70) then
    show_status_message cfg "Feature coming soon" ;;
    system_delay 1000 ;;
    show_ready_screen cfg ;;
    ret true
  else if (70 <=? y) && (y <? 90) then
    show_status_message cfg "Data cleared" ;;
    system_delay 1000 ;;
    show_ready_screen cfg ;;
    ret true
  else if (90 <=? y) && (y <? 110) then
    show_status_message cfg "Tap NFC tag to test" ;;
    system_delay 3000 ;;
    show_ready_screen cfg ;;
    ret true
  else if (110 <=? y) && (y <? 130) then
    display_clear ;;
    display_draw_text 10 10 "Node Information" 2 ;;
    display_draw_text 10 50 "ID:" 1 ;;
    display_draw_text 40 50 (node_id cfg) 1 ;;
    display_draw_text 10 70 "Label:" 1 ;;
    display_draw_text 60 70 (label cfg) 1 ;;
    display_draw_text 10 250 "Touch to continue" 1 ;;
    display_update true ;;
    r <- wait_touch_down fuel ;;
    match r with
    | Some _ => show_ready_screen cfg ;; ret true
    | None => ret false
    end
  else
    show_ready_screen cfg ;;
    ret true.

(** ** main.cpp: setup and loop *)

Definition default_ritual : ritual_config_t :=
  mk_ritual_config "default-node" "Default Ritual" RITUAL_SAVE_MOMENT 500
                   "Option A" "default_counter" "rainbow" "beep.wav".

Definition setup (st : fw_state) : M fw_state :=
  debug_print "MELD Node starting..." ;;
  display_init ;;
  nfc_init ;;
  touch_init ;;
  let st := set_current_ritual default_ritual st in
  let st := set_ritual_initialized true st in
  show_ready_screen (current_ritual st) ;;
  debug_print "MELD Node ready!" ;;
  ret st.

(** The body of [if (now - last_nfc_check > 100)], after [last_nfc_check]
    was set: one poll of the reader. *)
Definition nfc_poll (st : fw_state) : M fw_state :=
  present <- nfc_tag_present ;;
  if present then
    got <- nfc_get_uid ;;
    let uid_length := fst got in
    let uid := snd got in
    if 0 <? uid_length then
      let uid_str := uid_to_string uid uid_length in
      if negb (String.eqb uid_str (last_uid st)) then
        let st := set_last_uid uid_str st in
        debug_printf ("NFC tag detected: " +:+ uid_str) ;;
        execute_ritual_behavior (current_ritual st) uid_str ;;
        ret st
      else ret st
    else ret st
  else ret (set_last_uid "" st).

Definition loop_nfc (now : Z) (st : fw_state) : M fw_state :=
  if 100 <? u64 (now - last_nfc_check st) then
    nfc_poll (set_last_nfc_check now st)
  else ret st.

(** The long-press window: [while (still_touching && (system_millis() -
    touch_start < 1000))].  The result is [still_touching]; [None] means
    [fuel] ran out first, which 101 rounds never do
    ([long_press_detect_total]). *)
Fixpoint long_press_detect (fuel : nat) (touch_start : Z) : M (option bool) :=
  match fuel with
  | O => ret None
  | S fuel' =>
      t <- system_millis ;;
      if u64 (t - touch_start) <? 1000 then
        system_delay 10 ;;
        r <- touch_read ;;
        match r with
        | Some check_touch =>
            if touch_type check_touch =? 2 then ret (Some false)
            else long_press_detect fuel' touch_start
        | None => long_press_detect fuel' touch_start
        end
      else ret (Some true)
  end.

Definition long_press_rounds : nat := 101.

(** The touch half of [loop].  The boolean of the result tells whether the
    code ran to the end of the block ([false]: it was still inside one of
    the unbounded waits when [fuel] ran out). *)
Definition loop_touch (fuel : nat) (now : Z) (st : fw_state) : M (fw_state * bool) :=
  r <- touch_read ;;
  match r with
  | Some touch =>
      if touch_type touch =? 0 then
        if 500 <? u64 (now - last_touch_time st) then
          let st := set_last_touch_time now st in
          debug_printf ("Touch at (" +:+ dec (touch_x touch) +:+ ", "
                        +:+ dec (touch_y touch) +:+ ")") ;;
          still_touching <- long_press_detect long_press_rounds now ;;
          match still_touching with
          | Some true =>
              show_menu ;;
              sel <- wait_touch_down fuel ;;
              match sel with
              | Some touch =>
                  done <- handle_touch_menu fuel (current_ritual st)
                            (touch_x touch) (touch_y touch) ;;
                  ret (st, done)
              | None => ret (st, false)
              end
          | Some false => ret (st, true)
          | None => ret (st, false)
          end
        else ret (st, true)
      else ret (st, true)
  | None => ret (st, true)
  end.

Definition loop (fuel : nat) (st : fw_state) : M (fw_state * bool) :=
  now <- system_millis ;;
  st <- loop_nfc now st ;;
  r <- loop_touch fuel now st ;;
  if snd r then system_delay 10 ;; ret r
  else ret r.

(** [app_main]'s [while (true) loop();], cut after [n] iterations. *)
Fixpoint run_loops (fuel : nat) (n : nat) (st : fw_state) : M (fw_state * bool) :=
  match n with
  | O => ret (st, true)
  | S n' =>
      r <- loop fuel st ;;
      if snd r then run_loops fuel n' (fst r) else ret r
  end.


(** A freshly loaded module in a host whose clock reads [t]. *)
Definition fresh_world (t : Z) : world :=
  mk_world [] [] false false false t ∅ true [] [].

(** * Vocabulary of the properties *)

(** ** What a caller of the HAL can observe *)

(** The part of the world that the ritual behaviours read and write.  The
    queues and the inbox are left out: the behaviours never look at them. *)
Record obs := mk_obs {
  o_calls : list js_call;
  o_clock : Z;
  o_store : gmap string (list Z);
  o_store_ok : bool;
  o_display : bool
}.

Definition observe (w : world) : obs :=
  mk_obs (calls w) (clock w) (store w) (store_ok w) (display_initialized w).

Definition o_js (c : js_call) (o : obs) : obs :=
  mk_obs (c :: o_calls o) (o_clock o) (o_store o) (o_store_ok o) (o_display o).

Definition o_show (c : js_call) (o : obs) : obs :=
  if o_display o then o_js c o else o.

Definition o_sleep (ms : Z) (o : obs) : obs :=
  mk_obs (emscripten_sleep ms :: o_calls o) (o_clock o + ms) (o_store o)
         (o_store_ok o) (o_display o).

Definition o_save (key : string) (data : list Z) (o : obs) : obs :=
  mk_obs (js_storage_save key data :: o_calls o) (o_clock o)
         (if o_store_ok o then <[key := data]> (o_store o) else o_store o)
         (o_store_ok o) (o_display o).

Definition o_load_result (key : string) (max_length : Z) (o : obs) : Z * list Z :=
  match o_store o !! key with
  | None => (0, [])
  | Some data =>
      (Z.of_nat (length (take (Z.to_nat max_length) data)),
       take (Z.to_nat max_length) data)
  end.

(** The calls of [led_blink], newest first, for blinks [i], [i+1], ... *)
Fixpoint blink_calls (i : Z) (n : nat) (delay_ms : Z) : list js_call :=
  match n with
  | O => []
  | S n' =>
      blink_calls (i + 1) n' delay_ms
      ++ [emscripten_async_call_blink i delay_ms (i * delay_ms * 2)]
  end.

Definition o_emit (l : list js_call) (o : obs) : obs :=
  mk_obs (l ++ o_calls o) (o_clock o) (o_store o) (o_store_ok o) (o_display o).

(** ** Screens, in the order their calls are made *)

Definition status_calls (cfg : ritual_config_t) (message : string) : list js_call :=
  [ js_display_clear;
    js_display_draw_text 10 10 "MELD Node" 2;
    js_display_draw_text 10 50 (label cfg) 1;
    js_display_draw_text 10 80 "Status:" 1;
    js_display_draw_text 10 100 message 1;
    js_display_update true ].

Definition ready_screen_calls (cfg : ritual_config_t) : list js_call :=
  [ js_display_clear;
    js_display_draw_text 50 50 "MELD Node" 3;
    js_display_draw_text 30 120 (label cfg) 2;
    js_display_draw_text 10 180 "Tap NFC tag to activate" 1;
    js_display_draw_text 10 200 "Touch screen for menu" 1;
    js_display_update false ].

Definition menu_title : js_call := js_display_draw_text 10 10 "MELD Node Menu" 2.

Definition is_display_call (c : js_call) : bool :=
  match c with
  | js_display_clear | js_display_draw_text _ _ _ _ | js_display_update _ => true
  | _ => false
  end.

(** The calls made between world [w] and the later world [w'], oldest
    first. *)
Definition calls_since (w w' : world) : list js_call :=
  rev (take (length (calls w') - length (calls w)) (calls w')).

Definition display_calls (l : list js_call) : list js_call :=
  List.filter is_display_call l.

Definition saves (l : list js_call) : list (string * list Z) :=
  flat_map (fun c => match c with
                     | js_storage_save key data => [(key, data)]
                     | _ => []
                     end) l.

(** A ritual dispatch is announced by [debug_printf("NFC tag detected: %s")]
    right before [execute_ritual_behavior] is called. *)
Definition announces_dispatch (c : js_call) : bool :=
  match c with
  | js_debug_print m => String.prefix "NFC tag detected: " m
  | _ => false
  end.

Definition dispatches (l : list js_call) : nat :=
  length (List.filter announces_dispatch l).

(** ** Sequences of operations on the simulation backend *)

Inductive backend_op :=
| op_display_init
| op_nfc_init
| op_touch_init
| op_nfc_tag_present
| op_nfc_get_uid
| op_nfc_read_ndef
| op_touch_read
| op_system_delay (ms : Z)
| op_host (c : host_call).

Definition run_op (o : backend_op) (w : world) : world :=
  match o with
  | op_display_init => exec display_init w
  | op_nfc_init => exec nfc_init w
  | op_touch_init => exec touch_init w
  | op_nfc_tag_present => exec nfc_tag_present w
  | op_nfc_get_uid => exec nfc_get_uid w
  | op_nfc_read_ndef => exec nfc_read_ndef w
  | op_touch_read => exec touch_read w
  | op_system_delay ms => exec (system_delay ms) w
  | op_host c => run_host_call c w
  end.

Definition run_ops (ops : list backend_op) (w : world) : world :=
  fold_left (fun w o => run_op o w) ops w.

Definition tag_ok (t : nfc_tag_t) : Prop :=
  0 <= tag_uid_length t <= 7 /\ 0 <= tag_ndef_length t <= 512 /\
  (length (tag_uid t) <= 7)%nat /\ (length (tag_ndef t) <= 512)%nat.

Definition queues_ok (w : world) : Prop :=
  (length (touch_queue w) <= 10)%nat /\
  (length (nfc_queue w) <= 1)%nat /\
  Forall tag_ok (nfc_queue w).

(** The tag that [wasm_nfc_tag] builds from its arguments at clock [t]. *)
Definition clamped_tag (uid : list Z) (uid_length : Z) (ndef : list Z) (ndef_length t : Z)
    : nfc_tag_t :=
  mk_nfc_tag (take (Z.to_nat (Z.min (u8 uid_length) 7)) uid) (Z.min (u8 uid_length) 7)
             (take (Z.to_nat (Z.min (u16 ndef_length) 512)) ndef)
             (Z.min (u16 ndef_length) 512) (u64 t).

Definition is_touch_call (c : host_call) : bool :=
  match c with
  | call_wasm_touch_event _ _ _ _ => true
  | _ => false
  end.

(** Operations that neither inject nor remove a tag. *)
Definition keeps_tag (o : backend_op) : bool :=
  match o with
  | op_host c => is_touch_call c
  | _ => true
  end.

Definition inbox_keeps_tag (w : world) : bool :=
  forallb (fun p => is_touch_call (snd p)) (inbox w).

Definition o_shows (l : list js_call) (o : obs) : obs :=
  if o_display o then o_emit (rev l) o else o.

Definition menu_calls : list js_call :=
  [ js_display_clear;
    menu_title;
    js_display_draw_text 10 50 "1. View Stats" 1;
    js_display_draw_text 10 70 "2. Clear Data" 1;
    js_display_draw_text 10 90 "3. Test NFC" 1;
    js_display_draw_text 10 110 "4. Node Info" 1;
    js_display_draw_text 10 250 "Touch to exit" 1;
    js_display_update true ].

(** The seven behaviours that [execute_ritual_behavior] has a case for. *)
Definition named_behavior (b : Z) : bool :=
  (b =? RITUAL_SAVE_MOMENT) || (b =? RITUAL_SEND_TIP) || (b =? RITUAL_VOTE_A)
  || (b =? RITUAL_VOTE_B) || (b =? RITUAL_INCREMENT_COUNTER)
  || (b =? RITUAL_TRIGGER_LIGHT) || (b =? RITUAL_UNLOCK_CONTENT).

(** ** Counter activations *)

(** The counter value that an activation computes from what [storage_load]
    returns in world [w]. *)
Definition loaded_count (cfg : ritual_config_t) (w : world) : Z :=
  be32_decode (overlay (snd (fst (storage_load (counter_name cfg) 4 w))) [0; 0; 0; 0]).

(** One [execute_increment_counter] per uid string, one after the other. *)
Fixpoint count_activations (cfg : ritual_config_t) (uids : list string) (w : world) : world :=
  match uids with
  | [] => w
  | uid_str :: rest =>
      count_activations cfg rest (exec (execute_increment_counter cfg uid_str) w)
  end.

(** ** Reading a persisted record as an external reader would *)

Definition is_dquote (c : ascii) : bool := Ascii.eqb c dquote.

Fixpoint no_quote (s : string) : bool :=
  match s with
  | EmptyString => true
  | String c s' => negb (is_dquote c) && no_quote s'
  end.

(** The pieces of a text between its double quotes: the even ones lie
    outside quotes, the odd ones inside. *)
Fixpoint split_quote (s : string) : list string :=
  match s with
  | EmptyString => [EmptyString]
  | String c s' =>
      if is_dquote c then EmptyString :: split_quote s'
      else match split_quote s' with
           | piece :: pieces => String c piece :: pieces
           | [] => [String c EmptyString]
           end
  end.

Definition starts_with_colon (s : string) : bool :=
  match s with
  | String c _ => Ascii.eqb c ":"
  | EmptyString => false
  end.

(** A quoted piece is a field name when a colon follows its closing quote. *)
Fixpoint names_of (pieces : list string) : list string :=
  match pieces with
  | _ :: inside :: rest =>
      (if starts_with_colon (hd EmptyString rest) then [inside] else [])
      ++ names_of rest
  | _ => []
  end.

Definition field_names (text : string) : list string := names_of (split_quote text).

(** Pieces put back together with a double quote between neighbours. *)
Fixpoint join_quote (pieces : list string) : string :=
  match pieces with
  | [] => EmptyString
  | [piece] => piece
  | piece :: rest => piece +:+ String dquote (join_quote rest)
  end.

Definition occurs (pat s : string) : Prop :=
  exists pre post, s = pre +:+ pat +:+ post.

(** ** Scenarios *)

(** [setup] on a freshly loaded module at clock [t0], after which the host
    presents the tag with uid AA BB. *)
Definition presented_once (t0 : Z) : fw_state * world :=
  let r := setup fw_boot (fresh_world t0) in
  (fst r, wasm_nfc_tag [170; 187] 2 [] 0 (snd r)).

(** ** Polls of the tag reader *)

(** What a poll finds while a tag with uid bytes [uid] is held to the
    reader, and what it finds when there is none. *)
Definition tag_held (uid : list Z) (w : world) : Prop :=
  fst (nfc_tag_present w) = true /\
  fst (nfc_get_uid w) = (Z.of_nat (length uid), uid).

Definition no_tag (w : world) : Prop := fst (nfc_tag_present w) = false.

(** A run of polls.  Between two polls the environment is free: each poll
    is made in the world given for it.  The result is the firmware state
    after the last poll and the number of dispatches over the run. *)
Fixpoint polls (st : fw_state) (ws : list world) : fw_state * nat :=
  match ws with
  | [] => (st, O)
  | w :: rest =>
      let r := nfc_poll st w in
      let r' := polls (fst r) rest in
      (fst r', (dispatches (calls (snd r)) - dispatches (calls w) + snd r')%nat)
  end.

(** ** The part of the world that only the host and the read paths touch *)

Definition backstage (w : world)
    : list touch_event_t * list nfc_tag_t * bool * bool * list (Z * host_call) :=
  (touch_queue w, nfc_queue w, nfc_initialized w, touch_initialized w, inbox w).

(** A computation that leaves the backstage alone as long as the host has
    nothing left to deliver. *)
Definition keeps_backstage {A} (c : M A) : Prop :=
  forall w, inbox w = [] -> backstage (exec c w) = backstage w.

(** The firmware is idle on a held tag: it has already dispatched for it,
    no touch event is waiting and the host has nothing left to deliver. *)
Definition idle_on (uid : list Z) (st : fw_state) (w : world) : Prop :=
  last_uid st = uid_to_string uid (Z.of_nat (length uid)) /\
  tag_held uid w /\
  fst (touch_read w) = None /\
  inbox w = [].

(** ** Touch gestures *)

Definition is_touch_up (c : host_call) : bool :=
  match c with
  | call_wasm_touch_event _ _ type _ => u8 type =? 2
  | _ => false
  end.

(** No touch-up is waiting in the queue, and none will be delivered before
    the clock reads [deadline]. *)
Definition no_up_queued (w : world) : bool :=
  forallb (fun e => negb (touch_type e =? 2)) (touch_queue w).

Definition no_up_due (deadline : Z) (w : world) : bool :=
  forallb (fun p => negb (is_touch_up (snd p)) || (deadline <=? fst p)) (inbox w).

(** The host call at the head of [pending], if any, is due after [t]. *)
Definition next_due_after (t : Z) (pending : list (Z * host_call)) : bool :=
  match pending with
  | [] => true
  | p :: _ => t <? fst p
  end.

Definition entered_menu (w : world) : Prop := In menu_title (calls w).

(** A computation that only adds to the record of calls and leaves the
    display initialised. *)
Definition grows {A} (c : M A) : Prop :=
  forall w, (exists l, calls (exec c w) = l ++ calls w) /\
            display_initialized (exec c w) = display_initialized w.

(** The lines printed through [debug_print], oldest first. *)
Definition debug_lines (l : list js_call) : list string :=
  flat_map (fun c => match c with js_debug_print m => [m] | _ => [] end) (rev l).

Definition touch_lines (l : list js_call) : list string :=
  List.filter (String.prefix "Touch at") (debug_lines l).

(** A configured node that has been running for a second. *)
Definition running_node : fw_state :=
  mk_fw_state default_ritual true 0 "" 0.

(** Three taps: at 1000 ms, at 1400 ms and at 1600 ms. *)
Definition three_taps : world :=
  mk_world [mk_touch_event 10 10 0 1000; mk_touch_event 10 10 2 1000] []
           true true true 1000 ∅ true
           [ (1400, call_wasm_touch_event 20 20 0 1400);
             (1401, call_wasm_touch_event 20 20 2 1401);
             (1600, call_wasm_touch_event 30 30 0 1600);
             (1601, call_wasm_touch_event 30 30 2 1601) ] [].

(** A tap of 995 ms whose release comes right behind a move event. *)
Definition release_behind_move : world :=
  mk_world [mk_touch_event 100 100 0 1000] [] true true true 1000 ∅ true
           [ (1994, call_wasm_touch_event 100 101 1 1994);
             (1995, call_wasm_touch_event 100 101 2 1995) ] [].

(** * Vocabulary of the further properties *)

(** ** Storage calls and the LED *)

Definition is_storage_call (c : js_call) : bool :=
  match c with
  | js_storage_save _ _ | js_storage_load _ _ => true
  | _ => false
  end.

Definition storage_calls (l : list js_call) : list js_call :=
  List.filter is_storage_call l.

(** A computation that leaves the store alone and makes no storage call. *)
Definition storage_free {A} (c : M A) : Prop :=
  forall w, store (exec c w) = store w /\
            storage_calls (calls (exec c w)) = storage_calls (calls w).


(** ** How long a dispatch takes *)

(** The sum of the sleeps on the path that [execute_ritual_behavior] takes
    for a configuration. *)
Definition dispatch_duration (cfg : ritual_config_t) : Z :=
  let b := behavior cfg in
  if b =? RITUAL_SAVE_MOMENT then 120 + 120 + 2000
  else if b =? RITUAL_SEND_TIP then 120 + 120 + 2000
  else if b =? RITUAL_VOTE_A then 2000
  else if b =? RITUAL_VOTE_B then 100 + 2000
  else if b =? RITUAL_INCREMENT_COUNTER then 2000
  else if b =? RITUAL_TRIGGER_LIGHT then
    if String.eqb (light_pattern cfg) "rainbow" then 10 * (100 + 50) + 1000
    else if String.eqb (light_pattern cfg) "pulse" then 5 * (50 + 50) + 1000
    else 1000
  else if b =? RITUAL_UNLOCK_CONTENT then 120 + 120 + 2000 + 2000
  else 1000.

(** ** Touch events as the host injects them *)

(** The event that [wasm_touch_event] queues for its four arguments. *)
Definition queued_event (a : Z * Z * Z * Z) : touch_event_t :=
  let '(x, y, type, timestamp) := a in
  mk_touch_event (u16 x) (u16 y) (u8 type) (u64 timestamp).

(** The host calls [wasm_touch_event] once per entry, first entry first. *)
Fixpoint inject_touches (es : list (Z * Z * Z * Z)) (w : world) : world :=
  match es with
  | [] => w
  | (x, y, type, timestamp) :: rest =>
      inject_touches rest (wasm_touch_event x y type timestamp w)
  end.

(** [n] calls of [touch_read] in a row, stopping at the first that returns
    [false]; the events read, in the order they were read. *)
Fixpoint touch_reads (n : nat) : M (list touch_event_t) :=
  match n with
  | O => ret []
  | S n' =>
      r <- touch_read ;;
      match r with
      | Some event => rest <- touch_reads n' ;; ret (event :: rest)
      | None => ret []
      end
  end.

(** The host makes the calls [cs] one after the other. *)
Fixpoint host_calls (cs : list host_call) (w : world) : world :=
  match cs with
  | [] => w
  | c :: rest => host_calls rest (run_host_call c w)
  end.

Definition is_touch_down (e : touch_event_t) : bool := touch_type e =? 0.

(** ** Initialisation and the queues *)

(** A queue of a backend that was not initialised is empty. *)
Definition filled_only_after_init (w : world) : Prop :=
  (nfc_initialized w = false -> nfc_queue w = []) /\
  (touch_initialized w = false -> touch_queue w = []).

(** ** Tones *)

(** The frequencies passed to [js_buzzer_tone], newest first. *)
Definition tone_frequencies (l : list js_call) : list Z :=
  flat_map (fun c => match c with
                     | js_buzzer_tone frequency _ => [frequency]
                     | _ => []
                     end) l.

Definition led_switch_ons (l : list js_call) : nat :=
  length (List.filter (fun c => match c with js_led_set true => true | _ => false end) l).

Definition scheduled_blinks (l : list js_call) : nat :=
  length (List.filter (fun c => match c with
                                | emscripten_async_call_blink _ _ _ => true
                                | _ => false
                                end) l).

(** * Properties *)

(** ** The state monad *)

Lemma exec_bind {A B} (c : M A) (k : A -> M B) w :
  exec (bind c k) w = exec (k (fst (c w))) (exec c w).
Proof. reflexivity. Qed.

Lemma fst_bind {A B} (c : M A) (k : A -> M B) w :
  fst (bind c k w) = fst (k (fst (c w)) (exec c w)).
Proof. reflexivity. Qed.

Lemma exec_ret {A} (a : A) w : exec (ret a) w = w.
Proof. reflexivity. Qed.

(** ** The simulation backend's queues *)

Lemma drain_nil q : drain q = [].
Proof. induction q as [|t q IH]; [reflexivity | exact IH]. Qed.

Lemma pop_while_over_drop cap fuel (q : list touch_event_t) :
  (length q <= cap + fuel)%nat ->
  pop_while_over cap fuel q = drop (length q - cap) q.
Proof.
  revert q. induction fuel as [|fuel IH]; intros q Hq; simpl.
  - replace (length q - cap)%nat with 0%nat by lia. reflexivity.
  - destruct (Nat.ltb_spec cap (length q)) as [Hlt|Hge].
    + destruct q as [|e q]; simpl in Hlt, Hq; [lia|]. simpl tail.
      rewrite IH by lia. simpl length.
      replace (S (length q) - cap)%nat with (S (length q - cap)) by lia.
      reflexivity.
    + replace (length q - cap)%nat with 0%nat by lia. reflexivity.
Qed.

Lemma wasm_touch_event_queue x y type timestamp w :
  touch_queue (wasm_touch_event x y type timestamp w) =
  if touch_initialized w
  then let q := touch_queue w ++ [mk_touch_event (u16 x) (u16 y) (u8 type) (u64 timestamp)] in
       drop (length q - 10) q
  else touch_queue w.
Proof.
  unfold wasm_touch_event. destruct (touch_initialized w); simpl; [|reflexivity].
  apply pop_while_over_drop. lia.
Qed.

Lemma wasm_nfc_tag_queue uid uid_length ndef ndef_length w :
  nfc_queue (wasm_nfc_tag uid uid_length ndef ndef_length w) =
  if nfc_initialized w
  then [clamped_tag uid uid_length ndef ndef_length (clock w)]
  else nfc_queue w.
Proof.
  unfold wasm_nfc_tag, clamped_tag. destruct (nfc_initialized w); simpl; [|reflexivity].
  rewrite drain_nil. simpl.
  assert (Hu : (if u8 uid_length <? 7 then u8 uid_length else 7) = Z.min (u8 uid_length) 7)
    by (destruct (Z.ltb_spec (u8 uid_length) 7); lia).
  assert (Hn : (if u16 ndef_length <? 512 then u16 ndef_length else 512)
               = Z.min (u16 ndef_length) 512)
    by (destruct (Z.ltb_spec (u16 ndef_length) 512); lia).
  rewrite Hu, Hn. reflexivity.
Qed.

Lemma clamped_tag_ok uid uid_length ndef ndef_length t :
  tag_ok (clamped_tag uid uid_length ndef ndef_length t).
Proof.
  assert (0 <= u8 uid_length) by (apply Z.mod_pos_bound; lia).
  assert (0 <= u16 ndef_length) by (apply Z.mod_pos_bound; lia).
  unfold tag_ok, clamped_tag; simpl. rewrite !length_take. repeat split; lia.
Qed.

Lemma run_host_call_queues_ok c w : queues_ok w -> queues_ok (run_host_call c w).
Proof.
  intros (Ht & Hn & Hok). unfold queues_ok. destruct c as [x y ty ts|uid ul ndef nl|]; simpl.
  - rewrite wasm_touch_event_queue.
    assert (nfc_queue (wasm_touch_event x y ty ts w) = nfc_queue w) as ->
      by (unfold wasm_touch_event; destruct (touch_initialized w); reflexivity).
    split; [|auto]. destruct (touch_initialized w); [|exact Ht].
    cbv zeta. rewrite length_drop, length_app. simpl. lia.
  - rewrite wasm_nfc_tag_queue.
    assert (touch_queue (wasm_nfc_tag uid ul ndef nl w) = touch_queue w) as ->
      by (unfold wasm_nfc_tag; destruct (nfc_initialized w); reflexivity).
    split; [exact Ht|]. destruct (nfc_initialized w); [|auto].
    split; [simpl; lia|]. constructor; [apply clamped_tag_ok | constructor].
  - unfold wasm_nfc_tag_removed; simpl. rewrite drain_nil. simpl.
    repeat split; [exact Ht | lia | constructor].
Qed.

Lemma deliver_queues_ok target pending w : queues_ok w -> queues_ok (deliver target pending w).
Proof.
  revert w. induction pending as [|[t c] rest IH]; intros w Hw; simpl.
  - exact Hw.
  - destruct (t <=? target); [|exact Hw].
    apply IH, run_host_call_queues_ok. exact Hw.
Qed.

Lemma run_op_queues_ok o w : queues_ok w -> queues_ok (run_op o w).
Proof.
  intros Hw. destruct o; simpl; try exact Hw.
  - unfold exec, nfc_get_uid. destruct (negb (nfc_initialized w)); [exact Hw|].
    destruct (nfc_queue w); exact Hw.
  - unfold exec, nfc_read_ndef. destruct (negb (nfc_initialized w)); [exact Hw|].
    destruct (nfc_queue w); exact Hw.
  - unfold exec, touch_read. destruct (negb (touch_initialized w)); [exact Hw|].
    destruct Hw as (Ht & Hn). destruct (touch_queue w) as [|e q] eqn:E; simpl.
    + unfold queues_ok. rewrite E. auto.
    + unfold queues_ok; simpl. split; [simpl in Ht; lia | exact Hn].
  - pose proof (deliver_queues_ok (clock w + ms) (inbox w) w Hw) as Hd.
    exact Hd.
  - apply run_host_call_queues_ok, Hw.
Qed.

Lemma run_ops_queues_ok ops w : queues_ok w -> queues_ok (run_ops ops w).
Proof.
  revert w. induction ops as [|o ops IH]; intros w Hw; simpl; [exact Hw|].
  apply IH, run_op_queues_ok, Hw.
Qed.

(** C8.  Starting from empty queues, every sequence of backend operations
    (initialisations, reads, sleeps during which the host delivers events,
    and direct host callbacks) leaves at most ten touch events and at most
    one tag queued, and every queued tag has [uid_length <= 7] and
    [ndef_length <= 512].  A touch event pushed by an initialised backend
    keeps the newest ten entries, dropping from the front; a tag injected
    into an initialised backend replaces the whole queue by the one tag
    whose uid and NDEF data are cut to 7 and 512 bytes. *)
Theorem sim_queue_invariants :
  (forall w0 ops,
     queues_ok (run_ops ops (set_nfc_queue [] (set_touch_queue [] w0)))) /\
  (forall x y type timestamp w,
     touch_queue (wasm_touch_event x y type timestamp w) =
     if touch_initialized w
     then let q := touch_queue w
                   ++ [mk_touch_event (u16 x) (u16 y) (u8 type) (u64 timestamp)] in
          drop (length q - 10) q
     else touch_queue w) /\
  (forall uid uid_length ndef ndef_length w,
     nfc_queue (wasm_nfc_tag uid uid_length ndef ndef_length w) =
     if nfc_initialized w
     then [clamped_tag uid uid_length ndef ndef_length (clock w)]
     else nfc_queue w).
Proof.
  split; [|split].
  - intros w0 ops. apply run_ops_queues_ok.
    unfold queues_ok; simpl. repeat split; try lia. constructor.
  - apply wasm_touch_event_queue.
  - apply wasm_nfc_tag_queue.
Qed.

(** C9.  On the read paths of the simulation backend, a backend that was
    never initialised ([w1]) answers exactly like an initialised one that has
    nothing queued ([w2]): [touch_read] returns [false] and [nfc_get_uid]
    returns 0 in both, and neither changes anything, so the return value
    does not tell the two conditions apart. *)
Theorem uninitialized_reads_like_empty (w1 w2 : world) :
  touch_initialized w1 = false -> nfc_initialized w1 = false ->
  touch_queue w2 = [] -> nfc_queue w2 = [] ->
  touch_read w1 = (None, w1) /\ touch_read w2 = (None, w2) /\
  nfc_get_uid w1 = ((0, []), w1) /\ nfc_get_uid w2 = ((0, []), w2) /\
  fst (touch_read w1) = fst (touch_read w2) /\
  fst (nfc_get_uid w1) = fst (nfc_get_uid w2).
Proof.
  intros Ht1 Hn1 Ht2 Hn2.
  assert (A : touch_read w1 = (None, w1)) by (unfold touch_read; rewrite Ht1; reflexivity).
  assert (B : touch_read w2 = (None, w2))
    by (unfold touch_read; rewrite Ht2; destruct (negb (touch_initialized w2)); reflexivity).
  assert (C : nfc_get_uid w1 = ((0, []), w1)) by (unfold nfc_get_uid; rewrite Hn1; reflexivity).
  assert (D : nfc_get_uid w2 = ((0, []), w2))
    by (unfold nfc_get_uid; rewrite Hn2; destruct (negb (nfc_initialized w2)); reflexivity).
  rewrite A, B, C, D. repeat split; reflexivity.
Qed.

Lemma uninitialized_reads_like_empty_witness :
  let w1 := wasm_touch_event 5 5 0 0 (fresh_world 0) in
  let w2 := exec (setup fw_boot) (fresh_world 0) in
  touch_read w1 = (None, w1) /\ touch_read w2 = (None, w2) /\
  nfc_get_uid w1 = ((0, []), w1) /\ nfc_get_uid w2 = ((0, []), w2) /\
  fst (touch_read w1) = fst (touch_read w2) /\
  fst (nfc_get_uid w1) = fst (nfc_get_uid w2).
Proof.
  apply (uninitialized_reads_like_empty
           (wasm_touch_event 5 5 0 0 (fresh_world 0))
           (exec (setup fw_boot) (fresh_world 0))); reflexivity.
Defined.

(** ** A queued tag stays until the host replaces or removes it *)

Lemma nfc_get_uid_exec w : exec nfc_get_uid w = w.
Proof.
  unfold exec, nfc_get_uid. destruct (negb (nfc_initialized w)); [reflexivity|].
  destruct (nfc_queue w); reflexivity.
Qed.

Lemma nfc_read_ndef_exec w : exec nfc_read_ndef w = w.
Proof.
  unfold exec, nfc_read_ndef. destruct (negb (nfc_initialized w)); [reflexivity|].
  destruct (nfc_queue w); reflexivity.
Qed.

Lemma touch_read_exec w :
  exec touch_read w =
  match fst (touch_read w) with
  | Some _ => set_touch_queue (tail (touch_queue w)) w
  | None => w
  end.
Proof.
  unfold exec, touch_read. destruct (negb (touch_initialized w)); [reflexivity|].
  destruct (touch_queue w); reflexivity.
Qed.

Lemma deliver_keeps_tag target pending w :
  forallb (fun p => is_touch_call (snd p)) pending = true ->
  nfc_queue (deliver target pending w) = nfc_queue w /\
  nfc_initialized (deliver target pending w) = nfc_initialized w /\
  inbox_keeps_tag (deliver target pending w) = true.
Proof.
  revert w. induction pending as [|[t c] rest IH]; intros w Hq; simpl.
  - auto.
  - simpl in Hq. apply andb_true_iff in Hq as [Hc Hrest].
    destruct (t <=? target).
    + destruct (IH (run_host_call c (set_clock (Z.max t (clock w)) w)) Hrest)
        as (Hn & Hi & Hk).
      rewrite Hn, Hi. split; [|split; [|exact Hk]].
      * destruct c; try discriminate Hc. simpl. unfold wasm_touch_event; simpl.
        destruct (touch_initialized w); reflexivity.
      * destruct c; try discriminate Hc. simpl. unfold wasm_touch_event; simpl.
        destruct (touch_initialized w); reflexivity.
    + repeat split. unfold inbox_keeps_tag; simpl. rewrite Hc. exact Hrest.
Qed.

Lemma run_op_keeps_tag o w :
  keeps_tag o = true -> inbox_keeps_tag w = true ->
  nfc_queue (run_op o w) = nfc_queue w /\
  (nfc_initialized w = true -> nfc_initialized (run_op o w) = true) /\
  inbox_keeps_tag (run_op o w) = true.
Proof.
  intros Ho Hw. destruct o; simpl; auto.
  - rewrite nfc_get_uid_exec. auto.
  - rewrite nfc_read_ndef_exec. auto.
  - rewrite touch_read_exec. destruct (fst (touch_read w)); simpl; auto.
  - destruct (deliver_keeps_tag (clock w + ms) (inbox w) w Hw) as (Hn & Hi & Hk).
    unfold inbox_keeps_tag in *. unfold exec, system_delay, void; simpl. auto.
  - destruct c; try discriminate Ho. simpl. unfold wasm_touch_event.
    destruct (touch_initialized w); simpl; auto.
Qed.

Lemma run_ops_keeps_tag ops w :
  forallb keeps_tag ops = true -> inbox_keeps_tag w = true ->
  nfc_initialized w = true ->
  nfc_queue (run_ops ops w) = nfc_queue w /\ nfc_initialized (run_ops ops w) = true.
Proof.
  revert w. induction ops as [|o ops IH]; intros w Hops Hw Hi; simpl; [auto|].
  simpl in Hops. apply andb_true_iff in Hops as [Ho Hops].
  destruct (run_op_keeps_tag o w Ho Hw) as (Hn & Hi' & Hk).
  destruct (IH (run_op o w) Hops Hk (Hi' Hi)) as (Hn2 & Hi2).
  rewrite Hn2, Hn. auto.
Qed.

(** C10.  After the host injected a tag into an initialised backend, and
    for as long as it neither injects another one nor removes it, every
    poll finds [nfc_tag_present] true and gets from [nfc_get_uid] the same
    length and bytes (those of the injected uid, cut to 7 bytes) and from
    [nfc_read_ndef] the same data; neither read changes the backend, so the
    tag is not consumed. *)
Theorem queued_tag_is_not_consumed uid uid_length ndef ndef_length (w : world)
    (ops : list backend_op) :
  nfc_initialized w = true ->
  inbox_keeps_tag w = true ->
  forallb keeps_tag ops = true ->
  let w1 := wasm_nfc_tag uid uid_length ndef ndef_length w in
  let w' := run_ops ops w1 in
  fst (nfc_tag_present w') = true /\
  fst (nfc_get_uid w') =
    (Z.min (u8 uid_length) 7, take (Z.to_nat (Z.min (u8 uid_length) 7)) uid) /\
  fst (nfc_get_uid w') = fst (nfc_get_uid w1) /\
  fst (nfc_read_ndef w') = fst (nfc_read_ndef w1) /\
  exec nfc_get_uid w' = w' /\ exec nfc_read_ndef w' = w' /\
  exec nfc_tag_present w' = w'.
Proof.
  intros Hi Hk Hops w1 w'.
  assert (Hq1 : nfc_queue w1 = [clamped_tag uid uid_length ndef ndef_length (clock w)])
    by (unfold w1; rewrite wasm_nfc_tag_queue, Hi; reflexivity).
  assert (Hi1 : nfc_initialized w1 = true)
    by (unfold w1, wasm_nfc_tag; rewrite Hi; exact Hi).
  assert (Hk1 : inbox_keeps_tag w1 = true)
    by (unfold w1, wasm_nfc_tag; rewrite Hi; exact Hk).
  destruct (run_ops_keeps_tag ops w1 Hops Hk1 Hi1) as (Hq' & Hi').
  fold w' in Hq', Hi'. rewrite Hq1 in Hq'.
  rewrite !nfc_get_uid_exec, !nfc_read_ndef_exec.
  unfold nfc_tag_present, nfc_get_uid, nfc_read_ndef, exec.
  rewrite Hi', Hi1, Hq', Hq1. simpl.
  rewrite !take_take, !Nat.min_id. repeat split; reflexivity.
Qed.

Lemma queued_tag_is_not_consumed_witness :
  let w := exec (setup fw_boot) (fresh_world 0) in
  let w' := run_ops [op_nfc_get_uid; op_system_delay 10; op_nfc_read_ndef;
                     op_host (call_wasm_touch_event 1 2 0 3); op_touch_read]
                    (wasm_nfc_tag [1; 2; 3; 4; 5; 6; 7; 8; 9] 9 [10] 1 w) in
  fst (nfc_tag_present w') = true /\
  fst (nfc_get_uid w') = (7, [1; 2; 3; 4; 5; 6; 7]).
Proof.
  intros w w'.
  pose proof (queued_tag_is_not_consumed [1; 2; 3; 4; 5; 6; 7; 8; 9] 9 [10] 1 w
                [op_nfc_get_uid; op_system_delay 10; op_nfc_read_ndef;
                 op_host (call_wasm_touch_event 1 2 0 3); op_touch_read]
                eq_refl eq_refl eq_refl) as (H1 & H2 & _).
  split; [exact H1 | exact H2].
Defined.

(** ** How each HAL function acts on what can be observed *)

Lemma obs_debug_print m w :
  observe (exec (debug_print m) w) = o_js (js_debug_print m) (observe w).
Proof. reflexivity. Qed.

Lemma obs_debug_printf m w :
  observe (exec (debug_printf m) w)
  = o_js (js_debug_print (String.substring 0 511 m)) (observe w).
Proof. reflexivity. Qed.

Lemma obs_display_clear w :
  observe (exec display_clear w) = o_show js_display_clear (observe w).
Proof.
  destruct w as [tq nq [|] ni ti ck sto ok ib cl]; reflexivity.
Qed.

Lemma obs_display_draw_text x y text size w :
  observe (exec (display_draw_text x y text size) w)
  = o_show (js_display_draw_text x y text size) (observe w).
Proof.
  destruct w as [tq nq [|] ni ti ck sto ok ib cl]; reflexivity.
Qed.

Lemma obs_display_update partial w :
  observe (exec (display_update partial) w) = o_show (js_display_update partial) (observe w).
Proof.
  destruct w as [tq nq [|] ni ti ck sto ok ib cl]; reflexivity.
Qed.

Lemma obs_led_set on w :
  observe (exec (led_set on) w) = o_js (js_led_set on) (observe w).
Proof. reflexivity. Qed.

Lemma obs_buzzer_tone f d w :
  observe (exec (buzzer_tone f d) w) = o_js (js_buzzer_tone (u16 f) (u16 d)) (observe w).
Proof. reflexivity. Qed.

Lemma obs_system_delay ms w :
  observe (exec (system_delay ms) w) = o_sleep ms (observe w).
Proof. reflexivity. Qed.

Lemma exec_system_millis w : exec system_millis w = w.
Proof. reflexivity. Qed.

Lemma fst_system_millis w : fst (system_millis w) = u64 (o_clock (observe w)).
Proof. reflexivity. Qed.

Lemma obs_for_from_blinks delay_ms n : forall i w,
  observe (exec (for_from i n (fun i =>
             void (js (emscripten_async_call_blink i delay_ms (i * delay_ms * 2))))) w)
  = o_emit (blink_calls i n delay_ms) (observe w).
Proof.
  induction n as [|n IH]; intros i w.
  - destruct w; reflexivity.
  - cbn [for_from]. rewrite exec_bind, IH. cbn [blink_calls].
    unfold o_emit, observe, exec, void; simpl. rewrite <- app_assoc. reflexivity.
Qed.

Lemma obs_led_blink times delay_ms w :
  observe (exec (led_blink times delay_ms) w)
  = o_emit (blink_calls 0 (Z.to_nat times) delay_ms) (observe w).
Proof. apply obs_for_from_blinks. Qed.

Lemma obs_storage_save key data w :
  data <> [] ->
  observe (exec (storage_save key data) w) = o_save key data (observe w).
Proof.
  intros Hd. unfold storage_save. destruct data as [|b data]; [congruence|].
  reflexivity.
Qed.

Lemma obs_storage_load key max_length w :
  max_length <> 0 ->
  observe (exec (storage_load key max_length) w)
  = o_js (js_storage_load key max_length) (observe w).
Proof.
  intros Hm. unfold storage_load. destruct (Z.eqb_spec max_length 0); [contradiction|].
  unfold exec, host_storage_load. destruct (store w !! key); reflexivity.
Qed.

Lemma fst_storage_load key max_length w :
  max_length <> 0 ->
  fst (storage_load key max_length w) = o_load_result key max_length (observe w).
Proof.
  intros Hm. unfold storage_load. destruct (Z.eqb_spec max_length 0); [contradiction|].
  unfold host_storage_load, o_load_result; simpl. destruct (store w !! key); reflexivity.
Qed.

Lemma o_show_shows c l o : o_show c (o_shows l o) = o_shows (l ++ [c]) o.
Proof.
  unfold o_show, o_shows. destruct (o_display o) eqn:E; simpl; rewrite ?E; [|reflexivity].
  unfold o_js, o_emit; simpl. rewrite rev_app_distr. reflexivity.
Qed.

Lemma o_shows_nil o : o_shows [] o = o.
Proof. unfold o_shows, o_emit. destruct o as [cl ck sto ok []]; reflexivity. Qed.

Lemma obs_show_status_message cfg message w :
  observe (exec (show_status_message cfg message) w)
  = o_shows (status_calls cfg message) (observe w).
Proof.
  unfold show_status_message. rewrite !exec_bind.
  rewrite obs_display_update, !obs_display_draw_text, obs_display_clear.
  rewrite <- (o_shows_nil (observe w)) at 1. rewrite !o_show_shows. reflexivity.
Qed.

Lemma obs_show_ready_screen cfg w :
  observe (exec (show_ready_screen cfg) w) = o_shows (ready_screen_calls cfg) (observe w).
Proof.
  unfold show_ready_screen. rewrite !exec_bind.
  rewrite obs_display_update, !obs_display_draw_text, obs_display_clear.
  rewrite <- (o_shows_nil (observe w)) at 1. rewrite !o_show_shows. reflexivity.
Qed.

Lemma obs_show_menu w :
  observe (exec show_menu w) = o_shows menu_calls (observe w).
Proof.
  unfold show_menu. rewrite !exec_bind.
  rewrite obs_display_update, !obs_display_draw_text, obs_display_clear.
  rewrite <- (o_shows_nil (observe w)) at 1. rewrite !o_show_shows. reflexivity.
Qed.

Lemma obs_buzzer_success w :
  observe (exec buzzer_success w)
  = o_js (js_buzzer_tone 1400 150)
      (o_sleep 120 (o_js (js_buzzer_tone 1200 100)
         (o_sleep 120 (o_js (js_buzzer_tone 1000 100) (observe w))))).
Proof.
  unfold buzzer_success. rewrite !exec_bind.
  rewrite !obs_buzzer_tone, !obs_system_delay, !obs_buzzer_tone,
    !obs_system_delay, !obs_buzzer_tone.
  reflexivity.
Qed.

Lemma exec_for_from_S i n body w :
  exec (for_from i (S n) body) w = exec (for_from (i + 1) n body) (exec (body i) w).
Proof. reflexivity. Qed.

Lemma exec_for_from_O i body w : exec (for_from i O body) w = w.
Proof. reflexivity. Qed.

Lemma bytes_of_string_nonempty c s : bytes_of_string (String c s) <> [].
Proof. discriminate. Qed.

(** ** Field names of the persisted records *)

Lemma append_nil_s (b : string) : "" +:+ b = b.
Proof. reflexivity. Qed.

Lemma append_cons_s x (a b : string) : String x a +:+ b = String x (a +:+ b).
Proof. reflexivity. Qed.

Lemma append_assoc_s (a b c : string) : (a +:+ b) +:+ c = a +:+ (b +:+ c).
Proof.
  induction a as [|x a IH]; [reflexivity|].
  rewrite !append_cons_s, IH. reflexivity.
Qed.

Lemma no_quote_app a b : no_quote (a +:+ b) = no_quote a && no_quote b.
Proof.
  induction a as [|x a IH]; [reflexivity|].
  rewrite append_cons_s. cbn [no_quote]. rewrite IH, andb_assoc. reflexivity.
Qed.

Lemma split_quote_cons_ne s : split_quote s <> [].
Proof.
  induction s as [|c s IH]; simpl; [discriminate|].
  destruct (is_dquote c); [discriminate|]. destruct (split_quote s); discriminate.
Qed.

Lemma split_quote_plain a : no_quote a = true -> split_quote a = [a].
Proof.
  induction a as [|c a IH]; simpl; intros H; [reflexivity|].
  apply andb_true_iff in H as [Hc Ha]. apply negb_true_iff in Hc.
  rewrite Hc, (IH Ha). reflexivity.
Qed.

Lemma split_quote_app a b :
  no_quote a = true -> split_quote (a +:+ String dquote b) = a :: split_quote b.
Proof.
  induction a as [|c a IH]; intros H.
  - reflexivity.
  - cbn [no_quote] in H. apply andb_true_iff in H as [Hc Ha]. apply negb_true_iff in Hc.
    rewrite append_cons_s. cbn [split_quote]. rewrite Hc, (IH Ha). reflexivity.
Qed.

Lemma split_join_quote pieces :
  pieces <> [] -> forallb no_quote pieces = true ->
  split_quote (join_quote pieces) = pieces.
Proof.
  induction pieces as [|a pieces IH]; intros Hne H; [congruence|].
  simpl in H. apply andb_true_iff in H as [Ha Hrest].
  destruct pieces as [|b pieces].
  - simpl. apply split_quote_plain, Ha.
  - change (join_quote (a :: b :: pieces))
      with (a +:+ String dquote (join_quote (b :: pieces))).
    rewrite (split_quote_app _ _ Ha), IH by (discriminate || exact Hrest). reflexivity.
Qed.

Lemma no_quote_uint d : no_quote (NilZero.string_of_uint d) = true.
Proof.
  assert (H : forall d, no_quote (NilEmpty.string_of_uint d) = true)
    by (intros d'; induction d' as [|d' IH|d' IH|d' IH|d' IH|d' IH|d' IH|d' IH|d' IH|d' IH|d' IH];
        simpl; auto).
  destruct d; simpl; auto; apply H.
Qed.

Lemma no_quote_dec t : no_quote (dec t) = true.
Proof. apply no_quote_uint. Qed.

Lemma no_quote_hex_digit n : is_dquote (hex_digit n) = false.
Proof.
  unfold hex_digit. generalize (Z.to_nat n) as k. intros k.
  do 17 (destruct k as [|k]; [reflexivity|]). reflexivity.
Qed.

Lemma no_quote_uid_to_string uid len : no_quote (uid_to_string uid len) = true.
Proof.
  unfold uid_to_string. generalize (take (Z.to_nat (u8 len)) uid) as l.
  induction l as [|b l IH]; [reflexivity|].
  cbn [fold_right]. rewrite no_quote_app, IH. unfold hex2. cbn [no_quote].
  rewrite !no_quote_hex_digit. reflexivity.
Qed.

Lemma moment_data_pieces cfg uid_str t :
  moment_data cfg uid_str t
  = join_quote [ "{"; "uid"; ":"; uid_str; ","; "node"; ":"; node_id cfg; ",";
                 "timestamp"; ":" +:+ dec t +:+ ","; "verified"; ":true}" ].
Proof.
  unfold moment_data, quoted. cbn [join_quote].
  repeat (rewrite append_assoc_s || rewrite append_cons_s || rewrite append_nil_s).
  reflexivity.
Qed.

Lemma vote_data_pieces cfg uid_str opt t :
  vote_data cfg uid_str opt t
  = join_quote [ "{"; "uid"; ":"; uid_str; ","; "option"; ":"; opt; ",";
                 "vote_option"; ":"; vote_option cfg; ","; "node"; ":"; node_id cfg; ",";
                 "timestamp"; ":" +:+ dec t +:+ "}" ].
Proof.
  unfold vote_data, quoted. cbn [join_quote].
  repeat (rewrite append_assoc_s || rewrite append_cons_s || rewrite append_nil_s).
  reflexivity.
Qed.

Lemma field_names_moment_data cfg uid_str t :
  no_quote uid_str = true -> no_quote (node_id cfg) = true ->
  field_names (moment_data cfg uid_str t) = ["uid"; "node"; "timestamp"; "verified"].
Proof.
  intros Hu Hn. unfold field_names. rewrite moment_data_pieces.
  rewrite split_join_quote; [reflexivity | discriminate |].
  cbn [forallb]. rewrite Hu, Hn, !no_quote_app, no_quote_dec. reflexivity.
Qed.

Lemma field_names_vote_data cfg uid_str opt t :
  no_quote uid_str = true -> no_quote opt = true ->
  no_quote (vote_option cfg) = true -> no_quote (node_id cfg) = true ->
  field_names (vote_data cfg uid_str opt t)
  = ["uid"; "option"; "vote_option"; "node"; "timestamp"].
Proof.
  intros Hu Ho Hv Hn. unfold field_names. rewrite vote_data_pieces.
  rewrite split_join_quote; [reflexivity | discriminate |].
  cbn [forallb]. rewrite Hu, Ho, Hv, Hn, !no_quote_app, no_quote_dec. reflexivity.
Qed.

Lemma moment_data_verified cfg uid_str t :
  occurs (quoted "verified" +:+ ":true") (moment_data cfg uid_str t).
Proof.
  exists ("{" +:+ quoted "uid" +:+ ":" +:+ quoted uid_str +:+ ","
          +:+ quoted "node" +:+ ":" +:+ quoted (node_id cfg) +:+ ","
          +:+ quoted "timestamp" +:+ ":" +:+ dec t +:+ ","), "}".
  unfold moment_data, quoted.
  repeat (rewrite append_assoc_s || rewrite append_cons_s || rewrite append_nil_s).
  reflexivity.
Qed.

Lemma moment_data_uid cfg uid_str t :
  occurs (quoted "uid" +:+ ":" +:+ quoted uid_str) (moment_data cfg uid_str t).
Proof.
  exists "{", ("," +:+ quoted "node" +:+ ":" +:+ quoted (node_id cfg) +:+ ","
               +:+ quoted "timestamp" +:+ ":" +:+ dec t +:+ ","
               +:+ quoted "verified" +:+ ":true}").
  unfold moment_data, quoted.
  repeat (rewrite append_assoc_s || rewrite append_cons_s || rewrite append_nil_s).
  reflexivity.
Qed.

Lemma prefix_nil_s s : String.prefix "" s = true.
Proof. destruct s; reflexivity. Qed.

Lemma prefix_substring_app p : forall n u,
  (String.length p <= n)%nat -> String.prefix p (String.substring 0 n (p +:+ u)) = true.
Proof.
  induction p as [|c p IH]; intros n u Hn; [apply prefix_nil_s|].
  destruct n as [|n]; [simpl in Hn; lia|].
  rewrite append_cons_s. cbn [String.substring String.prefix].
  destruct (ascii_dec c c) as [_|Hc]; [|congruence].
  apply IH. simpl in Hn. lia.
Qed.

(** ** Symbolic execution of the ritual behaviours *)

Ltac obs_step :=
  first
  [ rewrite exec_bind
  | rewrite exec_ret
  | rewrite exec_system_millis
  | rewrite fst_system_millis
  | rewrite obs_show_status_message
  | rewrite obs_show_ready_screen
  | rewrite obs_show_menu
  | rewrite obs_buzzer_success
  | rewrite obs_debug_printf
  | rewrite obs_debug_print
  | rewrite obs_led_set
  | rewrite obs_led_blink
  | rewrite obs_buzzer_tone
  | rewrite obs_system_delay
  | rewrite obs_storage_save by (first [apply bytes_of_string_nonempty | discriminate])
  | rewrite obs_storage_load by discriminate
  | rewrite fst_storage_load by discriminate
  | rewrite exec_for_from_S
  | rewrite exec_for_from_O ];
  cbv beta iota.

Ltac obs_norm := repeat obs_step.

Lemma calls_observe w : calls w = o_calls (observe w).
Proof. reflexivity. Qed.

Lemma store_observe w : store w = o_store (observe w).
Proof. reflexivity. Qed.

Lemma clock_observe w : clock w = o_clock (observe w).
Proof. reflexivity. Qed.

Lemma observe_set_store_ok b w :
  observe (set_store_ok b w)
  = mk_obs (o_calls (observe w)) (o_clock (observe w)) (o_store (observe w)) b
           (o_display (observe w)).
Proof. reflexivity. Qed.

Lemma saves_app l1 l2 : saves (l1 ++ l2) = saves l1 ++ saves l2.
Proof. apply flat_map_app. Qed.

Lemma saves_blink_calls n : forall i d, saves (blink_calls i n d) = [].
Proof.
  induction n as [|n IH]; intros i d; [reflexivity|].
  cbn [blink_calls]. rewrite saves_app, IH. reflexivity.
Qed.

Lemma dispatches_app l1 l2 : dispatches (l1 ++ l2) = (dispatches l1 + dispatches l2)%nat.
Proof. unfold dispatches. rewrite List.filter_app, length_app. reflexivity. Qed.

Lemma dispatches_blink_calls n : forall i d, dispatches (blink_calls i n d) = 0%nat.
Proof.
  induction n as [|n IH]; intros i d; [reflexivity|].
  cbn [blink_calls]. rewrite dispatches_app, IH. reflexivity.
Qed.

#[local] Arguments dec : simpl never.
#[local] Arguments u64 : simpl never.
#[local] Arguments u32 : simpl never.
#[local] Arguments u16 : simpl never.
#[local] Arguments bytes_of_string : simpl never.
#[local] Arguments moment_data : simpl never.
#[local] Arguments tip_data : simpl never.
#[local] Arguments vote_data : simpl never.
#[local] Arguments unlock_data : simpl never.
#[local] Arguments fmt_2f : simpl never.
#[local] Arguments be32_decode : simpl never.
#[local] Arguments be32_encode : simpl never.
#[local] Arguments overlay : simpl never.
#[local] Arguments blink_calls : simpl never.
#[local] Arguments String.substring : simpl never.
#[local] Arguments Z.add : simpl never.
#[local] Arguments Z.mul : simpl never.
#[local] Arguments Z.modulo : simpl never.

(** Unfold the behaviour at hand, push [observe] through it and compute on
    the observed part of a world whose display is initialised. *)
Ltac obs_run w Hdisplay :=
  rewrite ?calls_observe, ?store_observe, ?clock_observe;
  obs_norm;
  rewrite ?observe_set_store_ok;
  let Ho := fresh "Ho" in
  assert (Ho : o_display (observe w) = true) by exact Hdisplay;
  let cl := fresh "cl" in
  let ck := fresh "ck" in
  let sto := fresh "sto" in
  let ok := fresh "ok" in
  let di := fresh "di" in
  destruct (observe w) as [cl ck sto ok di]; simpl in Ho; subst di; cbn.

Ltac obs_of H prog w :=
  eassert (H : observe (exec prog w) = _) by (obs_norm; reflexivity).

Ltac behaviour_cases cfg :=
  unfold execute_ritual_behavior; cbv zeta;
  destruct (behavior cfg =? RITUAL_SAVE_MOMENT) eqn:E0;
  [ unfold execute_save_moment
  | destruct (behavior cfg =? RITUAL_SEND_TIP) eqn:E1;
    [ unfold execute_send_tip
    | destruct (behavior cfg =? RITUAL_VOTE_A) eqn:E2;
      [ unfold execute_vote
      | destruct (behavior cfg =? RITUAL_VOTE_B) eqn:E3;
        [ unfold execute_vote
        | destruct (behavior cfg =? RITUAL_INCREMENT_COUNTER) eqn:E4;
          [ unfold execute_increment_counter
          | destruct (behavior cfg =? RITUAL_TRIGGER_LIGHT) eqn:E5;
            [ unfold execute_trigger_light, for_upto;
              change (Z.to_nat 10) with 10%nat; change (Z.to_nat 5) with 5%nat;
              destruct (String.eqb (light_pattern cfg) "rainbow");
              [ | destruct (String.eqb (light_pattern cfg) "pulse") ]
            | destruct (behavior cfg =? RITUAL_UNLOCK_CONTENT) eqn:E6;
              [ unfold execute_unlock_content | ] ] ] ] ] ] ];
  cbv zeta beta iota.

(** ** Ritual dispatch *)

(** C7.  Whatever integer the live configuration holds as its behaviour,
    [execute_ritual_behavior] returns, and the last six calls it makes are
    those of the ready screen.  This is so as well when the store refuses
    every write: the calls made are then the very same ones (same display
    and feedback sequence, same single save attempt at most), and the store
    is left as it was.  A behaviour outside the seven named ones shows the
    status [Unknown behavior], sleeps 1000 ms, shows the ready screen, and
    makes no storage call at all. *)
Theorem dispatch_always_restores_ready_screen cfg uid_str (w : world) :
  display_initialized w = true ->
  let w' := exec (execute_ritual_behavior cfg uid_str) w in
  let w_fail := exec (execute_ritual_behavior cfg uid_str) (set_store_ok false w) in
  take 6 (calls w') = rev (ready_screen_calls cfg) /\
  take 6 (calls w_fail) = rev (ready_screen_calls cfg) /\
  calls w_fail = calls w' /\
  store w_fail = store w /\
  (length (saves (calls w')) <= S (length (saves (calls w))))%nat /\
  (named_behavior (behavior cfg) = false ->
   calls w' = rev (status_calls cfg "Unknown behavior" ++ [emscripten_sleep 1000]
                   ++ ready_screen_calls cfg) ++ calls w /\
   store w' = store w).
Proof.
  intros Hd w' w_fail. subst w' w_fail. unfold named_behavior.
  rewrite !calls_observe, !store_observe.
  behaviour_cases cfg.
  all: rewrite ?E0, ?E1, ?E2, ?E3, ?E4, ?E5, ?E6.
  all: match goal with
       | |- context [observe (exec ?prog (set_store_ok false ?w0))] =>
           obs_of ipattern:(H1) prog w0;
           obs_of ipattern:(H2) prog (set_store_ok false w0);
           rewrite H1, H2; clear H1 H2
       end.
  all: rewrite ?observe_set_store_ok.
  all: assert (Ho : o_display (observe w) = true) by exact Hd.
  all: destruct (observe w) as [cl ck sto ok di]; simpl in Ho; subst di.
  all: cbn.
  all: rewrite ?saves_app, ?saves_blink_calls; simpl.
  all: unfold saves; repeat split; try reflexivity; try lia; try (intros; discriminate).
Qed.

Lemma dispatch_always_restores_ready_screen_witness :
  let cfg := mk_ritual_config "n" "Label" RITUAL_CUSTOM 0 "" "c" "" "" in
  let w := exec (setup fw_boot) (fresh_world 0) in
  let w' := exec (execute_ritual_behavior cfg "AABB") w in
  take 6 (calls w') = rev (ready_screen_calls cfg) /\ store w' = store w.
Proof.
  intros cfg w w'.
  destruct (dispatch_always_restores_ready_screen cfg "AABB" w eq_refl)
    as (H1 & _ & _ & _ & _ & H6).
  split; [exact H1 | apply H6; reflexivity].
Defined.

(** ** The big-endian counter *)

Lemma be32_roundtrip c : 0 <= c < 2 ^ 32 -> be32_decode (be32_encode c) = c.
Proof.
  intros Hc. unfold be32_decode, be32_encode, u32. cbn [nth].
  rewrite <- (Z.land_ones _ 32) by lia.
  change 255 with (Z.ones 8).
  rewrite <- (Z.mod_small c (2 ^ 32)) at 5 by lia.
  rewrite <- (Z.land_ones c 32) by lia.
  Z.bitblast.
Qed.

Lemma be32_encode_u32 c : be32_encode (u32 c) = be32_encode c.
Proof.
  unfold be32_encode, u32. rewrite <- (Z.land_ones c 32) by lia.
  change 255 with (Z.ones 8).
  assert (H : forall k, 0 <= k <= 24 ->
            Z.land (Z.shiftr (Z.land c (Z.ones 32)) k) (Z.ones 8)
            = Z.land (Z.shiftr c k) (Z.ones 8))
    by (intros k Hk; Z.bitblast).
  rewrite !H by lia.
  assert (H0 : Z.land (Z.land c (Z.ones 32)) (Z.ones 8) = Z.land c (Z.ones 8))
    by Z.bitblast.
  rewrite H0. reflexivity.
Qed.

Lemma store_ok_observe w : store_ok w = o_store_ok (observe w).
Proof. reflexivity. Qed.

Lemma loaded_count_observe cfg w :
  loaded_count cfg w
  = be32_decode (overlay (snd (o_load_result (counter_name cfg) 4 (observe w))) [0; 0; 0; 0]).
Proof. unfold loaded_count. rewrite fst_storage_load by discriminate. reflexivity. Qed.

(** One activation: load, add one modulo 2^32, store back under the same
    key; nothing else in the store changes, and the store stays writable. *)
Lemma increment_counter_step cfg uid_str w :
  store_ok w = true ->
  store (exec (execute_increment_counter cfg uid_str) w)
  = <[counter_name cfg := be32_encode (u32 (loaded_count cfg w + 1))]> (store w)
  /\ store_ok (exec (execute_increment_counter cfg uid_str) w) = true.
Proof.
  intros Hok. rewrite loaded_count_observe, !store_observe, store_ok_observe.
  unfold execute_increment_counter.
  match goal with
  | |- context [observe (exec ?prog w)] =>
      obs_of ipattern:(H1) prog w; rewrite H1; clear H1
  end.
  assert (Ho : o_store_ok (observe w) = true) by exact Hok.
  destruct (observe w) as [cl ck sto ok di]; simpl in Ho; subst ok.
  unfold o_shows. destruct di; cbn; split; reflexivity.
Qed.

Lemma loaded_count_absent cfg w :
  store w !! counter_name cfg = None -> loaded_count cfg w = 0.
Proof.
  intros H. rewrite loaded_count_observe. unfold o_load_result.
  change (o_store (observe w)) with (store w). rewrite H. reflexivity.
Qed.

Lemma loaded_count_stored cfg w c :
  store w !! counter_name cfg = Some (be32_encode c) -> 0 <= c < 2 ^ 32 ->
  loaded_count cfg w = c.
Proof.
  intros H Hc. rewrite loaded_count_observe. unfold o_load_result.
  change (o_store (observe w)) with (store w). rewrite H.
  transitivity (be32_decode (be32_encode c)); [reflexivity | apply be32_roundtrip, Hc].
Qed.

Lemma count_activations_from cfg uids : forall n w,
  store_ok w = true ->
  store w !! counter_name cfg
  = (if (n =? 0)%nat then None else Some (be32_encode (u32 (Z.of_nat n)))) ->
  uids <> [] ->
  store (count_activations cfg uids w) !! counter_name cfg
  = Some (be32_encode (u32 (Z.of_nat (n + length uids)))).
Proof.
  induction uids as [|u uids IH]; intros n w Hok Hst Hne; [congruence|].
  cbn [count_activations].
  destruct (increment_counter_step cfg u w Hok) as (Hs & Hok').
  assert (Hc : loaded_count cfg w = u32 (Z.of_nat n)).
  { destruct n as [|n]; cbn [Nat.eqb] in Hst.
    - rewrite (loaded_count_absent _ _ Hst). reflexivity.
    - apply (loaded_count_stored _ _ _ Hst). apply Z.mod_pos_bound. lia. }
  assert (Hnew : store (exec (execute_increment_counter cfg u) w) !! counter_name cfg
                 = Some (be32_encode (u32 (Z.of_nat (S n))))).
  { rewrite Hs, lookup_insert_eq, Hc. f_equal. f_equal. unfold u32.
    rewrite Z.add_mod_idemp_l by lia. f_equal. lia. }
  destruct uids as [|u' uids].
  - cbn [count_activations length]. rewrite Hnew. do 4 f_equal. lia.
  - rewrite (IH (S n) _ Hok' Hnew) by discriminate.
    do 4 f_equal. cbn [length]. lia.
Qed.

(** C2.  With a writable store, one [IncrementCounter] activation stores,
    under [counter_name], the four big-endian bytes of the loaded counter
    plus one (modulo 2^32), where an absent key loads as 0; it changes no
    other key.  Hence, starting from an absent key, after [N >= 1]
    consecutive activations the key holds [N] in four big-endian bytes. *)
Theorem increment_counter_counts cfg (uids : list string) (w : world) :
  store_ok w = true ->
  store w !! counter_name cfg = None ->
  uids <> [] ->
  loaded_count cfg w = 0 /\
  (forall uid_str,
     store (exec (execute_increment_counter cfg uid_str) w)
     = <[counter_name cfg := be32_encode (u32 (loaded_count cfg w + 1))]> (store w)) /\
  store (count_activations cfg uids w) !! counter_name cfg
  = Some (be32_encode (Z.of_nat (length uids))) /\
  (Z.of_nat (length uids) < 2 ^ 32 ->
   be32_decode (be32_encode (Z.of_nat (length uids))) = Z.of_nat (length uids)).
Proof.
  intros Hok Habs Hne. split; [|split; [|split]].
  - apply loaded_count_absent, Habs.
  - intros u. apply increment_counter_step, Hok.
  - rewrite (count_activations_from cfg uids 0 w Hok Habs Hne).
    rewrite be32_encode_u32. reflexivity.
  - intros Hlt. apply be32_roundtrip. lia.
Qed.

Lemma increment_counter_counts_witness :
  let w := exec (setup fw_boot) (fresh_world 0) in
  store (count_activations default_ritual ["AA"; "BB"; "AA"] w) !! "default_counter"
  = Some [0; 0; 0; 3].
Proof.
  intros w.
  destruct (increment_counter_counts default_ritual ["AA"; "BB"; "AA"] w
              eq_refl eq_refl ltac:(discriminate)) as (_ & _ & H & _).
  exact H.
Defined.

(** ** What SaveMoment and Vote persist *)

Lemma saves_execute_save_moment cfg uid_str w :
  saves (calls (exec (execute_save_moment cfg uid_str) w))
  = ("moment_" +:+ dec (u64 (clock w + 120 + 120)),
     bytes_of_string (moment_data cfg uid_str (u64 (clock w + 120 + 120))))
    :: saves (calls w).
Proof.
  rewrite !calls_observe, clock_observe. unfold execute_save_moment.
  match goal with
  | |- context [observe (exec ?prog w)] =>
      obs_of ipattern:(H1) prog w; rewrite H1; clear H1
  end.
  destruct (observe w) as [cl ck sto ok di]. unfold o_shows.
  destruct di; cbn; rewrite ?saves_app, ?saves_blink_calls; reflexivity.
Qed.

Lemma saves_execute_vote cfg uid_str option_a w :
  saves (calls (exec (execute_vote cfg uid_str option_a) w))
  = ("vote_" +:+ dec (u64 (clock w + (if option_a then 0 else 100))),
     bytes_of_string (vote_data cfg uid_str (if option_a then "A" else "B")
                                (u64 (clock w + (if option_a then 0 else 100)))))
    :: saves (calls w).
Proof.
  rewrite !calls_observe, clock_observe. unfold execute_vote.
  destruct option_a; cbv zeta beta iota.
  all: match goal with
       | |- context [observe (exec ?prog ?w0)] =>
           obs_of ipattern:(H1) prog w0; rewrite H1; clear H1
       end.
  all: destruct (observe w) as [cl ck sto ok di]; unfold o_shows.
  all: destruct di; cbn; rewrite ?saves_app, ?saves_blink_calls, ?Z.add_0_r; reflexivity.
Qed.

(** C6 (as the code has it).  Every record that SaveMoment writes is the
    text of [moment_data], whose field names are uid, node, timestamp and
    verified, with [verified] set to [true]; every record that VoteA or VoteB
    writes is the text of [vote_data], whose field names are uid, option,
    vote_option, node and timestamp.  The node identifier is stored under
    the name [node].  (The configuration strings are copied into the text
    unescaped, so this needs [node_id] and [vote_option] free of double
    quotes.) *)
Theorem persisted_field_names cfg (uid : list Z) (len : Z) (w : world) :
  no_quote (node_id cfg) = true ->
  no_quote (vote_option cfg) = true ->
  let uid_str := uid_to_string uid len in
  (exists t,
     saves (calls (exec (execute_save_moment cfg uid_str) w))
     = ("moment_" +:+ dec t, bytes_of_string (moment_data cfg uid_str t))
       :: saves (calls w) /\
     field_names (moment_data cfg uid_str t) = ["uid"; "node"; "timestamp"; "verified"] /\
     occurs (quoted "verified" +:+ ":true") (moment_data cfg uid_str t)) /\
  (forall option_a : bool, exists t,
     let opt : string := if option_a then "A" else "B" in
     saves (calls (exec (execute_vote cfg uid_str option_a) w))
     = ("vote_" +:+ dec t, bytes_of_string (vote_data cfg uid_str opt t))
       :: saves (calls w) /\
     field_names (vote_data cfg uid_str opt t)
     = ["uid"; "option"; "vote_option"; "node"; "timestamp"]).
Proof.
  intros Hn Hv uid_str.
  assert (Hu : no_quote uid_str = true) by apply no_quote_uid_to_string.
  split.
  - eexists. split; [apply saves_execute_save_moment|].
    split; [apply field_names_moment_data; assumption | apply moment_data_verified].
  - intros option_a. eexists. cbv zeta. split; [apply saves_execute_vote|].
    apply field_names_vote_data; try assumption. destruct option_a; reflexivity.
Qed.

Lemma persisted_field_names_witness :
  exists t,
    field_names (moment_data default_ritual (uid_to_string [170; 187] 2) t)
    = ["uid"; "node"; "timestamp"; "verified"].
Proof.
  destruct (persisted_field_names default_ritual [170; 187] 2
              (snd (presented_once 5000)) eq_refl eq_refl) as ((t & _ & Hf & _) & _).
  exists t. exact Hf.
Defined.

(** C6, as stated, fails: the record that the default configuration writes
    for uid AA BB has no field named node_id; the node identifier is under
    node. *)
Lemma persisted_record_has_no_node_id_field :
  let r := loop 1 (fst (presented_once 5000)) (snd (presented_once 5000)) in
  let text := moment_data default_ritual "AABB" 5240 in
  saves (calls (snd r)) = [("moment_5240", bytes_of_string text)] /\
  field_names text = ["uid"; "node"; "timestamp"; "verified"] /\
  field_names text <> ["uid"; "node_id"; "timestamp"; "verified"] /\
  ~ In "node_id"%string (field_names text).
Proof.
  vm_compute. repeat split; try discriminate.
  intros [H|[H|[H|[H|[]]]]]; discriminate H.
Qed.

(** ** Presence debounce of the tag reader *)

Lemma dispatches_cons c l :
  dispatches (c :: l) = ((if announces_dispatch c then 1 else 0) + dispatches l)%nat.
Proof. unfold dispatches. cbn [List.filter]. destruct (announces_dispatch c); reflexivity. Qed.

#[local] Arguments dispatches : simpl never.

Ltac count_dispatches :=
  repeat (rewrite dispatches_app || rewrite dispatches_cons
          || rewrite dispatches_blink_calls);
  repeat match goal with
         | |- context [announces_dispatch ?c] =>
             let b := eval lazy in (announces_dispatch c) in
             change (announces_dispatch c) with b
         end;
  cbv iota; cbn [Nat.add].

(** No behaviour prints the line that announces a dispatch. *)
Lemma execute_ritual_behavior_dispatches cfg uid_str w :
  dispatches (calls (exec (execute_ritual_behavior cfg uid_str) w)) = dispatches (calls w).
Proof.
  rewrite !calls_observe. behaviour_cases cfg.
  all: match goal with
       | |- context [observe (exec ?prog ?w0)] =>
           obs_of ipattern:(H1) prog w0; rewrite H1; clear H1
       end.
  all: destruct (observe w) as [cl ck sto ok di]; unfold o_shows.
  all: destruct di; cbn; count_dispatches; reflexivity.
Qed.

Lemma announced_dispatch uid_str w :
  dispatches (calls (exec (debug_printf ("NFC tag detected: " +:+ uid_str)) w))
  = S (dispatches (calls w)).
Proof.
  change (calls (exec (debug_printf ("NFC tag detected: " +:+ uid_str)) w))
    with (js_debug_print (String.substring 0 511 ("NFC tag detected: " +:+ uid_str))
          :: calls w).
  rewrite dispatches_cons. unfold announces_dispatch.
  rewrite prefix_substring_app by (simpl; lia). reflexivity.
Qed.

Lemma nfc_tag_present_exec w : exec nfc_tag_present w = w.
Proof. reflexivity. Qed.

Lemma nfc_poll_no_tag st w :
  no_tag w -> nfc_poll st w = (set_last_uid "" st, w).
Proof.
  intros H. unfold nfc_poll, bind. cbv zeta.
  change (snd (nfc_tag_present w)) with w. unfold no_tag in H. rewrite H. reflexivity.
Qed.

Lemma nfc_poll_tag_held st w uid :
  tag_held uid w ->
  nfc_poll st w =
  if 0 <? Z.of_nat (length uid) then
    let uid_str := uid_to_string uid (Z.of_nat (length uid)) in
    if negb (String.eqb uid_str (last_uid st)) then
      (set_last_uid uid_str st,
       exec (execute_ritual_behavior (current_ritual st) uid_str)
            (exec (debug_printf ("NFC tag detected: " +:+ uid_str)) w))
    else (st, w)
  else (st, w).
Proof.
  intros [Hp Hu]. unfold nfc_poll, bind. cbv zeta.
  change (snd (nfc_tag_present w)) with w. rewrite Hp. cbv iota.
  fold (exec nfc_get_uid w). rewrite nfc_get_uid_exec, Hu. cbn [fst snd].
  destruct (0 <? Z.of_nat (length uid)); [|reflexivity].
  destruct (negb (String.eqb _ (last_uid st))); reflexivity.
Qed.

Lemma uid_to_string_nonempty uid :
  (1 <= length uid <= 7)%nat -> uid_to_string uid (Z.of_nat (length uid)) <> "".
Proof.
  intros H. unfold uid_to_string, u8. rewrite Z.mod_small by lia.
  rewrite Nat2Z.id, firstn_all. destruct uid as [|b uid]; [simpl in H; lia|].
  cbn [fold_right]. unfold hex2. rewrite !append_cons_s. discriminate.
Qed.

(** While [last_uid] equals the uid string of the tag that is held, polls
    change nothing and dispatch nothing. *)
Lemma polls_same_tag uid ws : forall st,
  (1 <= length uid <= 7)%nat ->
  Forall (tag_held uid) ws ->
  last_uid st = uid_to_string uid (Z.of_nat (length uid)) ->
  polls st ws = (st, O).
Proof.
  induction ws as [|w ws IH]; intros st Hlen Hws Hst; [reflexivity|].
  inversion Hws as [|w' ws' Hw Hrest]; subst.
  cbn [polls]. cbv zeta. rewrite (nfc_poll_tag_held st w uid Hw).
  destruct (Z.ltb_spec 0 (Z.of_nat (length uid))) as [_|Hn]; [|lia].
  cbv zeta. rewrite Hst, String.eqb_refl. cbn [negb fst snd].
  rewrite (IH st Hlen Hrest Hst). cbn [fst snd]. f_equal. lia.
Qed.

(** The first poll that finds a tag whose uid string differs from
    [last_uid] dispatches once and remembers it; the following polls of the
    same presence interval dispatch nothing. *)
Lemma polls_new_tag uid w ws st :
  (1 <= length uid <= 7)%nat ->
  Forall (tag_held uid) (w :: ws) ->
  last_uid st <> uid_to_string uid (Z.of_nat (length uid)) ->
  polls st (w :: ws)
  = (set_last_uid (uid_to_string uid (Z.of_nat (length uid))) st, 1%nat).
Proof.
  intros Hlen Hws Hst. inversion Hws as [|w' ws' Hw Hrest]; subst.
  cbn [polls]. cbv zeta. rewrite (nfc_poll_tag_held st w uid Hw).
  destruct (Z.ltb_spec 0 (Z.of_nat (length uid))) as [_|Hn]; [|lia].
  cbv zeta.
  destruct (String.eqb_spec (uid_to_string uid (Z.of_nat (length uid))) (last_uid st))
    as [He|_]; [congruence|].
  cbn [negb fst snd].
  rewrite execute_ritual_behavior_dispatches, announced_dispatch.
  rewrite (polls_same_tag uid ws _ Hlen Hrest) by reflexivity.
  cbn [fst snd]. f_equal. lia.
Qed.

Lemma polls_app ws1 : forall st ws2,
  polls st (ws1 ++ ws2)
  = (fst (polls (fst (polls st ws1)) ws2),
     (snd (polls st ws1) + snd (polls (fst (polls st ws1)) ws2))%nat).
Proof.
  induction ws1 as [|w ws1 IH]; intros st ws2.
  - cbn [app polls fst snd]. destruct (polls st ws2); reflexivity.
  - cbn [app polls]. cbv zeta. rewrite IH. cbn [fst snd]. f_equal. lia.
Qed.

(** A tag whose uid has length 0 is never dispatched. *)
Lemma polls_empty_uid ws : forall st,
  Forall (tag_held []) ws -> polls st ws = (st, O).
Proof.
  induction ws as [|w ws IH]; intros st Hws; [reflexivity|].
  inversion Hws as [|w' ws' Hw Hrest]; subst.
  cbn [polls]. cbv zeta. rewrite (nfc_poll_tag_held st w [] Hw).
  change (0 <? Z.of_nat (length (@nil Z))) with false. cbv iota. cbn [fst snd].
  rewrite (IH st Hrest). cbn [fst snd]. f_equal. lia.
Qed.

(** C1 (as the code has it).  For every uid of length 1 to 7 that differs
    from the remembered one (as every uid does after boot and after a poll
    that found no tag): a contiguous presence interval observed by at least
    one poll yields exactly one dispatch, however many polls fall into it
    and whatever else the environment does between them; a poll that finds
    no tag clears the remembered uid; and presenting the same uid again
    dispatches again, so present, remove, present dispatches exactly twice.
    A tag that reports a uid of length 0 is never dispatched. *)
Theorem tag_presence_dispatches_once (uid : list Z) (st : fw_state)
    (w1 : world) (ws1 : list world) (w_gone : world) (w2 : world) (ws2 : list world) :
  (1 <= length uid <= 7)%nat ->
  last_uid st <> uid_to_string uid (Z.of_nat (length uid)) ->
  Forall (tag_held uid) (w1 :: ws1) ->
  no_tag w_gone ->
  Forall (tag_held uid) (w2 :: ws2) ->
  snd (polls st (w1 :: ws1)) = 1%nat /\
  last_uid (fst (polls st ((w1 :: ws1) ++ [w_gone]))) = "" /\
  snd (polls st ((w1 :: ws1) ++ [w_gone] ++ (w2 :: ws2))) = 2%nat /\
  (forall st0 ws0, Forall (tag_held []) ws0 -> snd (polls st0 ws0) = 0%nat).
Proof.
  intros Hlen Hst H1 Hgone H2.
  pose proof (polls_new_tag uid w1 ws1 st Hlen H1 Hst) as P1.
  assert (Pg : forall st', polls st' [w_gone] = (set_last_uid "" st', 0%nat)).
  { intros st'. cbn [polls]. cbv zeta. rewrite (nfc_poll_no_tag _ _ Hgone).
    cbn [fst snd]. f_equal. lia. }
  assert (Hne : forall st', last_uid (set_last_uid "" st')
                            <> uid_to_string uid (Z.of_nat (length uid))).
  { intros st' He. cbn [last_uid set_last_uid] in He.
    symmetry in He. exact (uid_to_string_nonempty uid Hlen He). }
  repeat split.
  - rewrite P1. reflexivity.
  - rewrite polls_app, P1, Pg. reflexivity.
  - rewrite polls_app, P1. cbn [fst snd].
    rewrite polls_app, Pg. cbn [fst snd].
    rewrite (polls_new_tag uid w2 ws2 _ Hlen H2 (Hne _)). reflexivity.
  - intros st0 ws0 H0. rewrite (polls_empty_uid ws0 st0 H0). reflexivity.
Qed.

Lemma tag_presence_dispatches_once_witness :
  let st := fst (presented_once 5000) in
  let w := snd (presented_once 5000) in
  snd (polls st [w; w; w]) = 1%nat /\
  snd (polls st ([w; w; w] ++ [wasm_nfc_tag_removed w] ++ [w; w])) = 2%nat.
Proof.
  intros st w.
  assert (Hw : tag_held [170; 187] w) by (split; reflexivity).
  destruct (tag_presence_dispatches_once [170; 187] st w [w; w]
              (wasm_nfc_tag_removed w) w [w]) as (H1 & _ & H2 & _).
  - simpl. lia.
  - discriminate.
  - repeat constructor; apply Hw.
  - reflexivity.
  - repeat constructor; apply Hw.
  - split; [exact H1 | exact H2].
Defined.

(** C1, as stated, fails for a uid of length 0: the tag is present at every
    poll, yet nothing is ever dispatched. *)
Lemma empty_uid_is_never_dispatched :
  let st := fst (setup fw_boot (fresh_world 5000)) in
  let w := wasm_nfc_tag [] 0 [] 0 (snd (setup fw_boot (fresh_world 5000))) in
  let r := run_loops 1 30 st w in
  tag_held [] w /\ snd (polls st [w; w; w]) = 0%nat /\
  tag_held [] (snd r) /\ clock (snd r) = 5300 /\
  dispatches (calls (snd r)) = 0%nat.
Proof. vm_compute. repeat split. Qed.

(** ** Quiet hosts: the backstage is untouched by the behaviours *)

Lemma keeps_ret {A} (a : A) : keeps_backstage (ret a).
Proof. intros w _. reflexivity. Qed.

Lemma keeps_bind {A B} (c : M A) (k : A -> M B) :
  keeps_backstage c -> (forall a, keeps_backstage (k a)) -> keeps_backstage (bind c k).
Proof.
  intros Hc Hk w Hw. rewrite exec_bind.
  pose proof (Hc w Hw) as E. rewrite <- E. apply Hk.
  unfold backstage in E. congruence.
Qed.

Lemma keeps_js c : keeps_backstage (void (js c)).
Proof. intros w _. reflexivity. Qed.

Lemma keeps_js_unless c : keeps_backstage (void (fun w => js_unless (negb (display_initialized w)) c w)).
Proof. intros w _. reflexivity. Qed.

Lemma keeps_display_clear : keeps_backstage display_clear.
Proof. intros w _. reflexivity. Qed.

Lemma keeps_display_draw_text x y text size : keeps_backstage (display_draw_text x y text size).
Proof. intros w _. reflexivity. Qed.

Lemma keeps_display_update partial : keeps_backstage (display_update partial).
Proof. intros w _. reflexivity. Qed.

Lemma keeps_debug_print m : keeps_backstage (debug_print m).
Proof. intros w _. reflexivity. Qed.

Lemma keeps_debug_printf m : keeps_backstage (debug_printf m).
Proof. intros w _. reflexivity. Qed.

Lemma keeps_led_set on : keeps_backstage (led_set on).
Proof. intros w _. reflexivity. Qed.

Lemma keeps_buzzer_tone f d : keeps_backstage (buzzer_tone f d).
Proof. intros w _. reflexivity. Qed.

Lemma keeps_system_millis : keeps_backstage system_millis.
Proof. intros w _. reflexivity. Qed.

Lemma keeps_system_delay ms : keeps_backstage (system_delay ms).
Proof.
  intros w Hw. unfold exec, system_delay, void, backstage. cbn [snd].
  rewrite Hw. reflexivity.
Qed.

Lemma keeps_for_from n : forall i body,
  (forall j, keeps_backstage (body j)) -> keeps_backstage (for_from i n body).
Proof.
  induction n as [|n IH]; intros i body Hb; cbn [for_from].
  - apply keeps_ret.
  - apply keeps_bind; [apply Hb | intros _; apply IH, Hb].
Qed.

Lemma keeps_led_blink times delay_ms : keeps_backstage (led_blink times delay_ms).
Proof. apply keeps_for_from. intros j. apply keeps_js. Qed.

Lemma keeps_storage_save key data : keeps_backstage (storage_save key data).
Proof.
  intros w _. unfold storage_save.
  destruct (Z.of_nat (length data) =? 0); reflexivity.
Qed.

Lemma keeps_storage_load key max_length : keeps_backstage (storage_load key max_length).
Proof.
  intros w _. unfold storage_load. destruct (max_length =? 0); [reflexivity|].
  unfold exec, host_storage_load. destruct (store w !! key); reflexivity.
Qed.

Create HintDb keeps discriminated.
#[local] Hint Resolve keeps_ret keeps_display_clear keeps_display_draw_text
  keeps_display_update keeps_debug_print keeps_debug_printf keeps_led_set
  keeps_buzzer_tone keeps_system_millis keeps_system_delay keeps_led_blink
  keeps_storage_save keeps_storage_load : keeps.

Ltac keeps :=
  repeat first
    [ apply keeps_bind; [|intros ?]
    | apply keeps_for_from; intros ?
    | solve [auto with keeps] ].

Lemma keeps_show_status_message cfg message : keeps_backstage (show_status_message cfg message).
Proof. unfold show_status_message. keeps. Qed.

Lemma keeps_show_ready_screen cfg : keeps_backstage (show_ready_screen cfg).
Proof. unfold show_ready_screen. keeps. Qed.

Lemma keeps_buzzer_success : keeps_backstage buzzer_success.
Proof. unfold buzzer_success. keeps. Qed.

#[local] Hint Resolve keeps_show_status_message keeps_show_ready_screen
  keeps_buzzer_success : keeps.

Lemma keeps_execute_ritual_behavior cfg uid_str :
  keeps_backstage (execute_ritual_behavior cfg uid_str).
Proof.
  behaviour_cases cfg; unfold for_upto; keeps.
Qed.

(** ** One iteration of [loop] *)

Lemma loop_eq fuel st w :
  loop fuel st w =
  let now := u64 (clock w) in
  let r1 := loop_nfc now st w in
  let r2 := loop_touch fuel now (fst r1) (snd r1) in
  if snd (fst r2) then (fst r2, exec (system_delay 10) (snd r2)) else r2.
Proof.
  unfold loop, bind. cbv zeta. cbn [system_millis fst snd].
  destruct (snd (fst (loop_touch fuel (u64 (clock w))
                        (fst (loop_nfc (u64 (clock w)) st w))
                        (snd (loop_nfc (u64 (clock w)) st w))))) eqn:E;
    [reflexivity|].
  destruct (loop_touch fuel (u64 (clock w)) (fst (loop_nfc (u64 (clock w)) st w))
              (snd (loop_nfc (u64 (clock w)) st w))); reflexivity.
Qed.

Lemma run_loops_S fuel n st w :
  run_loops fuel (S n) st w =
  let r := loop fuel st w in
  if snd (fst r) then run_loops fuel n (fst (fst r)) (snd r) else r.
Proof.
  cbn [run_loops]. unfold bind. cbv zeta.
  destruct (snd (fst (loop fuel st w))); [reflexivity|].
  destruct (loop fuel st w); reflexivity.
Qed.

Lemma loop_touch_no_event fuel now st w :
  fst (touch_read w) = None -> loop_touch fuel now st w = ((st, true), w).
Proof.
  intros H. unfold loop_touch, bind. cbv zeta.
  fold (exec touch_read w). rewrite touch_read_exec, H. reflexivity.
Qed.

Lemma nfc_get_uid_fst w :
  fst (nfc_get_uid w) =
  if negb (nfc_initialized w) then (0, [])
  else match nfc_queue w with
       | [] => (0, [])
       | tag :: _ =>
           (tag_uid_length tag, take (Z.to_nat (tag_uid_length tag)) (tag_uid tag))
       end.
Proof.
  unfold nfc_get_uid. destruct (negb (nfc_initialized w)); [reflexivity|].
  destruct (nfc_queue w); reflexivity.
Qed.

Lemma tag_held_backstage uid w w' :
  backstage w' = backstage w -> tag_held uid w -> tag_held uid w'.
Proof.
  unfold backstage, tag_held. rewrite !nfc_get_uid_fst. unfold nfc_tag_present.
  intros E H. injection E as _ Hn Hi _ _. cbn [fst] in *. rewrite Hn, Hi. exact H.
Qed.

Lemma touch_read_backstage w w' :
  backstage w' = backstage w -> fst (touch_read w) = None -> fst (touch_read w') = None.
Proof.
  unfold backstage, touch_read. intros E H. injection E as Ht _ _ Hi _.
  rewrite Ht, Hi. destruct (negb (touch_initialized w)); [reflexivity|].
  destruct (touch_queue w); [reflexivity | discriminate H].
Qed.

Lemma idle_on_backstage uid st w w' :
  backstage w' = backstage w -> idle_on uid st w -> idle_on uid st w'.
Proof.
  intros E (Hu & Hh & Ht & Hi). repeat split; try exact Hu.
  - apply (tag_held_backstage uid w w' E Hh).
  - apply (tag_held_backstage uid w w' E Hh).
  - apply (touch_read_backstage w w' E Ht).
  - unfold backstage in E. congruence.
Qed.

(** An idle iteration: nothing is dispatched, nothing is drawn or saved;
    the loop sleeps its 10 ms and stays idle. *)
Lemma loop_idle uid fuel st w :
  (1 <= length uid <= 7)%nat -> idle_on uid st w ->
  exists st',
    loop fuel st w = ((st', true), exec (system_delay 10) w) /\
    current_ritual st' = current_ritual st /\
    idle_on uid st' (exec (system_delay 10) w).
Proof.
  intros Hlen Hidle. pose proof Hidle as (Hu & Hh & Ht & Hi).
  assert (Hnfc : exists st', loop_nfc (u64 (clock w)) st w = (st', w) /\
                             current_ritual st' = current_ritual st /\
                             last_uid st' = last_uid st).
  { unfold loop_nfc. destruct (100 <? u64 (u64 (clock w) - last_nfc_check st)).
    - exists (set_last_nfc_check (u64 (clock w)) st).
      rewrite (nfc_poll_tag_held _ w uid Hh).
      destruct (Z.ltb_spec 0 (Z.of_nat (length uid))) as [_|Hn]; [|lia].
      cbv zeta. cbn [last_uid set_last_nfc_check]. rewrite Hu, String.eqb_refl.
      repeat split; reflexivity.
    - exists st. repeat split; reflexivity. }
  destruct Hnfc as (st' & E1 & Hc & Hl). exists st'.
  rewrite loop_eq. cbv zeta. rewrite E1. cbn [fst snd].
  rewrite (loop_touch_no_event _ _ _ _ Ht). cbn [fst snd].
  split; [reflexivity|]. split; [exact Hc|].
  apply (idle_on_backstage uid st' w); [apply keeps_system_delay, Hi|].
  unfold idle_on. rewrite Hl. auto.
Qed.

Lemma run_loops_idle uid fuel n : forall st w,
  (1 <= length uid <= 7)%nat -> idle_on uid st w ->
  let r := run_loops fuel n st w in
  snd (fst r) = true /\
  current_ritual (fst (fst r)) = current_ritual st /\
  idle_on uid (fst (fst r)) (snd r) /\
  saves (calls (snd r)) = saves (calls w) /\
  display_calls (rev (calls (snd r))) = display_calls (rev (calls w)) /\
  dispatches (calls (snd r)) = dispatches (calls w).
Proof.
  induction n as [|n IH]; intros st w Hlen Hidle.
  - cbv zeta. cbn [run_loops]. unfold ret. cbn [fst snd].
    repeat split; try reflexivity; apply Hidle.
  - destruct (loop_idle uid fuel st w Hlen Hidle) as (st' & E & Hc & Hidle').
    cbv zeta. rewrite run_loops_S. cbv zeta. rewrite E. cbn [fst snd].
    destruct (IH st' (exec (system_delay 10) w) Hlen Hidle') as (A & B & C & D & F & G).
    cbv zeta in A, B, C, D, F, G.
    split; [exact A|]. split; [congruence|]. split; [exact C|].
    split; [|split].
    + rewrite D. reflexivity.
    + rewrite F. change (calls (exec (system_delay 10) w))
        with (emscripten_sleep 10 :: calls w).
      cbn [rev]. unfold display_calls. rewrite List.filter_app. cbn. apply app_nil_r.
    + rewrite G. change (calls (exec (system_delay 10) w))
        with (emscripten_sleep 10 :: calls w).
      rewrite dispatches_cons. reflexivity.
Qed.

(** ** The default scenario *)

Lemma display_calls_execute_save_moment cfg uid_str w :
  display_initialized w = true ->
  display_calls (rev (calls (exec (execute_save_moment cfg uid_str) w)))
  = display_calls (rev (calls w))
    ++ status_calls cfg "Saving moment..."
    ++ status_calls cfg "Moment saved!"
    ++ ready_screen_calls cfg.
Proof.
  intros Hd. rewrite !calls_observe. unfold execute_save_moment.
  match goal with
  | |- context [observe (exec ?prog w)] =>
      obs_of ipattern:(H1) prog w; rewrite H1; clear H1
  end.
  assert (Ho : o_display (observe w) = true) by exact Hd.
  destruct (observe w) as [cl ck sto ok di]; simpl in Ho; subst di.
  change (Z.to_nat 3) with 3%nat. unfold o_shows, blink_calls.
  cbn [o_display o_emit o_calls o_js o_sleep o_save o_clock o_store o_store_ok
       rev app status_calls ready_screen_calls].
  unfold display_calls. rewrite !List.filter_app.
  cbn [List.filter is_display_call]. rewrite <- !app_assoc. reflexivity.
Qed.

Lemma saves_sleep ms l : saves (emscripten_sleep ms :: l) = saves l.
Proof. reflexivity. Qed.

Lemma saves_debug m l : saves (js_debug_print m :: l) = saves l.
Proof. reflexivity. Qed.

Lemma display_calls_snoc l c :
  is_display_call c = false -> display_calls (rev (c :: l)) = display_calls (rev l).
Proof.
  intros H. cbn [rev]. unfold display_calls. rewrite List.filter_app.
  cbn [List.filter]. rewrite H. apply app_nil_r.
Qed.

Lemma calls_system_delay ms w :
  calls (exec (system_delay ms) w) = emscripten_sleep ms :: calls w.
Proof. reflexivity. Qed.

Lemma calls_debug_printf m w :
  calls (exec (debug_printf m) w) = js_debug_print (String.substring 0 511 m) :: calls w.
Proof. reflexivity. Qed.

Lemma first_loop_after_presentation t0 fuel :
  100 < t0 < 2 ^ 64 ->
  let st0 := fst (presented_once t0) in
  let w0 := snd (presented_once t0) in
  let t := u64 (t0 + 120 + 120) in
  exists st1 w1,
    loop fuel st0 w0 = ((st1, true), w1) /\
    current_ritual st1 = default_ritual /\
    idle_on [170; 187] st1 w1 /\
    saves (calls w1)
    = [("moment_" +:+ dec t, bytes_of_string (moment_data default_ritual "AABB" t))] /\
    display_calls (rev (calls w1))
    = display_calls (rev (calls w0))
      ++ status_calls default_ritual "Saving moment..."
      ++ status_calls default_ritual "Moment saved!"
      ++ ready_screen_calls default_ritual.
Proof.
  intros Ht st0 w0 t.
  assert (Hst0 : st0 = mk_fw_state default_ritual true 0 "" 0) by reflexivity.
  assert (Hclock : clock w0 = t0) by reflexivity.
  assert (Hheld : tag_held [170; 187] w0) by (split; reflexivity).
  assert (Hinbox : inbox w0 = []) by reflexivity.
  assert (Htouch : fst (touch_read w0) = None) by reflexivity.
  assert (Hdisp : display_initialized w0 = true) by reflexivity.
  assert (Hsaves : saves (calls w0) = []) by reflexivity.
  clearbody st0 w0. subst st0.
  set (st0 := mk_fw_state default_ritual true 0 "" 0).
  set (st1 := set_last_uid "AABB" (set_last_nfc_check t0 st0)).
  remember (exec (debug_printf ("NFC tag detected: " +:+ "AABB")) w0) as wd eqn:Ewd.
  assert (Enfc : loop_nfc (u64 (clock w0)) st0 w0
                 = (st1, exec (execute_save_moment default_ritual "AABB") wd)).
  { rewrite Hclock. unfold u64 at 1. rewrite Z.mod_small by lia.
    unfold loop_nfc. cbn [last_nfc_check st0].
    rewrite Z.sub_0_r. unfold u64. rewrite Z.mod_small by lia.
    destruct (Z.ltb_spec 100 t0) as [_|Hn]; [|lia].
    rewrite (nfc_poll_tag_held _ w0 [170; 187] Hheld). rewrite Ewd. reflexivity. }
  assert (Hbd : backstage wd = backstage w0) by (rewrite Ewd; reflexivity).
  assert (Hdd : display_initialized wd = true) by (rewrite Ewd; exact Hdisp).
  assert (Hcd : clock wd = t0) by (rewrite Ewd; exact Hclock).
  assert (Hsd : saves (calls wd) = []).
  { rewrite Ewd, calls_debug_printf, saves_debug. exact Hsaves. }
  assert (Hvd : display_calls (rev (calls wd)) = display_calls (rev (calls w0))).
  { rewrite Ewd, calls_debug_printf. apply display_calls_snoc. reflexivity. }
  assert (Hid : inbox wd = []) by (unfold backstage in Hbd; congruence).
  clear Ewd.
  assert (Hback : backstage (exec (execute_save_moment default_ritual "AABB") wd)
                  = backstage w0).
  { rewrite <- Hbd.
    apply (keeps_execute_ritual_behavior default_ritual "AABB" wd Hid). }
  remember (exec (execute_save_moment default_ritual "AABB") wd) as w1 eqn:Ew1.
  exists st1, (exec (system_delay 10) w1).
  rewrite loop_eq. cbv zeta. rewrite Enfc. cbn [fst snd].
  rewrite (loop_touch_no_event _ _ _ _ (touch_read_backstage _ _ Hback Htouch)).
  cbn [fst snd]. split; [reflexivity|]. split; [reflexivity|].
  split.
  { apply (idle_on_backstage _ _ w1).
    - apply keeps_system_delay. unfold backstage in Hback. congruence.
    - apply (idle_on_backstage _ _ w0 w1 Hback).
      split; [reflexivity|]. split; [exact Hheld|]. split; assumption. }
  rewrite calls_system_delay, saves_sleep, display_calls_snoc by reflexivity.
  rewrite Ew1, saves_execute_save_moment, display_calls_execute_save_moment by exact Hdd.
  rewrite Hsd, Hvd, Hcd. split; reflexivity.
Qed.

(** C3.  After [setup] on a fresh module (behaviour SaveMoment, node_id
    default-node, label Default Ritual), presenting uid AA BB and letting
    the loop run for any number of iterations makes exactly one storage
    save: its key is moment_<t>, and its payload contains the fields
    uid:AABB and verified:true.  The display calls made after the
    presentation are, in order, the status screen Saving moment... (which
    starts with a clear), the status screen Moment saved!, and the ready
    screen with the label Default Ritual. *)
Theorem default_save_moment_scenario (t0 : Z) (fuel n : nat) :
  100 < t0 < 2 ^ 64 ->
  let st0 := fst (presented_once t0) in
  let w0 := snd (presented_once t0) in
  let r := run_loops fuel (S n) st0 w0 in
  let t := u64 (t0 + 120 + 120) in
  let text := moment_data default_ritual "AABB" t in
  current_ritual st0 = default_ritual /\
  behavior default_ritual = RITUAL_SAVE_MOMENT /\
  node_id default_ritual = "default-node" /\
  label default_ritual = "Default Ritual" /\
  uid_to_string [170; 187] 2 = "AABB" /\
  snd (fst r) = true /\
  saves (calls (snd r)) = [("moment_" +:+ dec t, bytes_of_string text)] /\
  occurs (quoted "uid" +:+ ":" +:+ quoted "AABB") text /\
  occurs (quoted "verified" +:+ ":true") text /\
  display_calls (rev (calls (snd r)))
  = display_calls (rev (calls w0))
    ++ status_calls default_ritual "Saving moment..."
    ++ status_calls default_ritual "Moment saved!"
    ++ ready_screen_calls default_ritual.
Proof.
  intros Ht st0 w0 r t text.
  destruct (first_loop_after_presentation t0 fuel Ht)
    as (st1 & w1 & Eloop & Hcfg & Hidle & Hsaves & Hdisplay).
  fold st0 w0 t in Eloop, Hsaves, Hdisplay.
  assert (Er : r = run_loops fuel n st1 w1).
  { unfold r. rewrite run_loops_S. cbv zeta. rewrite Eloop. reflexivity. }
  destruct (run_loops_idle [170; 187] fuel n st1 w1 ltac:(simpl; lia) Hidle)
    as (A & _ & _ & D & F & _).
  rewrite <- Er in A, D, F.
  repeat (split; [reflexivity|]).
  split; [exact A|].
  split; [rewrite D; exact Hsaves|].
  split; [apply moment_data_uid|].
  split; [apply moment_data_verified|].
  rewrite F. exact Hdisplay.
Qed.

Lemma default_save_moment_scenario_witness :
  let r := run_loops 1 5 (fst (presented_once 5000)) (snd (presented_once 5000)) in
  saves (calls (snd r))
  = [("moment_5240", bytes_of_string (moment_data default_ritual "AABB" 5240))].
Proof.
  destruct (default_save_moment_scenario 5000 1 4 ltac:(lia))
    as (_ & _ & _ & _ & _ & _ & H & _).
  exact H.
Defined.

(** ** Touch debounce *)

Lemma loop_touch_ignored fuel now st w touch :
  fst (touch_read w) = Some touch -> touch_type touch = 0 ->
  u64 (now - last_touch_time st) <= 500 ->
  loop_touch fuel now st w = ((st, true), exec touch_read w).
Proof.
  intros Hr Ht Hd. unfold loop_touch, bind. cbv zeta.
  fold (exec touch_read w). rewrite Hr, Ht. cbn [Z.eqb].
  destruct (Z.ltb_spec 500 (u64 (now - last_touch_time st))) as [Hlt|_]; [lia|].
  reflexivity.
Qed.

Lemma loop_touch_processed fuel now st w touch :
  fst (touch_read w) = Some touch -> touch_type touch = 0 ->
  500 < u64 (now - last_touch_time st) ->
  fst (fst (loop_touch fuel now st w)) = set_last_touch_time now st.
Proof.
  intros Hr Ht Hd. unfold loop_touch, bind. cbv zeta.
  fold (exec touch_read w). rewrite Hr, Ht. cbn [Z.eqb].
  destruct (Z.ltb_spec 500 (u64 (now - last_touch_time st))) as [_|Hge]; [|lia].
  destruct (fst (long_press_detect long_press_rounds now _)) as [[|]|]; try reflexivity.
  destruct (fst (wait_touch_down fuel _)); reflexivity.
Qed.

(** C5 (as the code has it).  The debounce compares the start time [now]
    of the loop iteration that reads a touch-down with the time recorded for
    the last processed touch-down; the timestamp carried by the event is not
    used.  A touch-down read no more than 500 ms after the last processed
    one is ignored: the event is consumed, nothing else happens and
    [last_touch_time] keeps its value.  A touch-down read more than 500 ms
    after it is processed and [now] is recorded.  Hence a touch-down read
    within 500 ms after a processed one is ignored, and processed
    touch-downs are more than 500 ms apart. *)
Theorem touch_debounce_spacing (fuel : nat) (now : Z) (st : fw_state) (w : world)
    (touch : touch_event_t) :
  fst (touch_read w) = Some touch ->
  touch_type touch = 0 ->
  (u64 (now - last_touch_time st) <= 500 ->
   loop_touch fuel now st w = ((st, true), exec touch_read w)) /\
  (500 < u64 (now - last_touch_time st) ->
   let st1 := fst (fst (loop_touch fuel now st w)) in
   last_touch_time st1 = now /\
   forall fuel2 now2 w2 touch2,
     fst (touch_read w2) = Some touch2 -> touch_type touch2 = 0 ->
     0 <= now <= now2 -> now2 - now <= 500 ->
     loop_touch fuel2 now2 st1 w2 = ((st1, true), exec touch_read w2)).
Proof.
  intros Hr Ht. split.
  - intros Hd. apply (loop_touch_ignored _ _ _ _ touch Hr Ht Hd).
  - intros Hd st1. subst st1. rewrite (loop_touch_processed _ _ _ _ _ Hr Ht Hd).
    split; [reflexivity|].
    intros fuel2 now2 w2 touch2 Hr2 Ht2 Hnow Hclose.
    apply (loop_touch_ignored _ _ _ _ touch2 Hr2 Ht2).
    cbn [last_touch_time set_last_touch_time]. unfold u64.
    rewrite Z.mod_small by lia. lia.
Qed.

Lemma touch_debounce_spacing_witness :
  let w2 := set_touch_queue [mk_touch_event 20 20 0 1400] three_taps in
  let st1 := fst (fst (loop_touch 1 1000 running_node three_taps)) in
  last_touch_time st1 = 1000 /\
  loop_touch 1 1400 st1 w2 = ((st1, true), exec touch_read w2).
Proof.
  intros w2 st1.
  destruct (touch_debounce_spacing 1 1000 running_node three_taps
              (mk_touch_event 10 10 0 1000) eq_refl eq_refl) as (_ & H).
  destruct (H ltac:(vm_compute; reflexivity)) as (H1 & H2).
  split; [exact H1|].
  apply (H2 1%nat 1400 w2 (mk_touch_event 20 20 0 1400) eq_refl eq_refl); lia.
Defined.

(** C5, as stated, fails: of the touch-downs at 1400 ms and 1600 ms, which
    lie 200 ms apart, the first is ignored (it comes 400 ms after the
    processed one at 1000 ms) and the second is processed and recorded. *)
Lemma later_of_two_close_touch_downs_is_processed :
  let r := run_loops 3 70 running_node three_taps in
  snd (fst r) = true /\
  touch_lines (calls (snd r)) = ["Touch at (10, 10)"; "Touch at (30, 30)"]%string /\
  last_touch_time (fst (fst r)) = 1600 /\
  1600 - 1400 <= 500.
Proof. vm_compute. repeat split. discriminate. Qed.

(** ** Computations that only add calls *)

Lemma grows_ret {A} (a : A) : grows (ret a).
Proof. intros w. split; [exists []; reflexivity | reflexivity]. Qed.

Lemma grows_bind {A B} (c : M A) (k : A -> M B) :
  grows c -> (forall a, grows (k a)) -> grows (bind c k).
Proof.
  intros Hc Hk w. rewrite exec_bind.
  destruct (Hc w) as ((l1 & E1) & D1).
  destruct (Hk (fst (c w)) (exec c w)) as ((l2 & E2) & D2).
  split; [|congruence].
  exists (l2 ++ l1). rewrite E2, E1, app_assoc. reflexivity.
Qed.

Lemma grows_js c : grows (void (js c)).
Proof. intros w. split; [exists [c]; reflexivity | reflexivity]. Qed.

Lemma grows_display_clear : grows display_clear.
Proof.
  intros w. split; [|reflexivity]. unfold exec, display_clear, void, js_unless; cbn.
  destruct (negb (display_initialized w)); [exists [] | eexists [_]]; reflexivity.
Qed.

Lemma grows_display_draw_text x y text size : grows (display_draw_text x y text size).
Proof.
  intros w. split; [|reflexivity]. unfold exec, display_draw_text, void, js_unless; cbn.
  destruct (negb (display_initialized w)); [exists [] | eexists [_]]; reflexivity.
Qed.

Lemma grows_display_update partial : grows (display_update partial).
Proof.
  intros w. split; [|reflexivity]. unfold exec, display_update, void, js_unless; cbn.
  destruct (negb (display_initialized w)); [exists [] | eexists [_]]; reflexivity.
Qed.

Lemma grows_debug_printf m : grows (debug_printf m).
Proof. apply grows_js. Qed.

Lemma grows_system_delay ms : grows (system_delay ms).
Proof. intros w. split; [eexists [_]; reflexivity | reflexivity]. Qed.

Lemma grows_system_millis : grows system_millis.
Proof. intros w. split; [exists []; reflexivity | reflexivity]. Qed.

Lemma grows_touch_read : grows touch_read.
Proof.
  intros w. rewrite touch_read_exec.
  destruct (fst (touch_read w)); (split; [exists []; reflexivity | reflexivity]).
Qed.

Create HintDb grows discriminated.
#[local] Hint Resolve grows_ret grows_display_clear grows_display_draw_text
  grows_display_update grows_debug_printf grows_system_delay grows_system_millis
  grows_touch_read : grows.

Ltac grows :=
  repeat first [ apply grows_bind; [|intros ?] | solve [auto with grows] ].

Lemma grows_show_status_message cfg message : grows (show_status_message cfg message).
Proof. unfold show_status_message. grows. Qed.

Lemma grows_show_ready_screen cfg : grows (show_ready_screen cfg).
Proof. unfold show_ready_screen. grows. Qed.

Lemma grows_show_menu : grows show_menu.
Proof. unfold show_menu. grows. Qed.

Lemma grows_wait_touch_down fuel : grows (wait_touch_down fuel).
Proof.
  induction fuel as [|fuel IH]; cbn [wait_touch_down]; [apply grows_ret|].
  apply grows_bind; [apply grows_touch_read|]. intros [touch|].
  - destruct (touch_type touch =? 0); [apply grows_ret|].
    apply grows_bind; [apply grows_system_delay | intros _; exact IH].
  - apply grows_bind; [apply grows_system_delay | intros _; exact IH].
Qed.

#[local] Hint Resolve grows_show_status_message grows_show_ready_screen
  grows_show_menu grows_wait_touch_down : grows.

Lemma grows_handle_touch_menu fuel cfg x y : grows (handle_touch_menu fuel cfg x y).
Proof.
  unfold handle_touch_menu.
  repeat match goal with
         | |- grows (if ?b then _ else _) => destruct b
         end; grows.
  all: match goal with a : option touch_event_t |- _ => destruct a end; grows.
Qed.

Lemma grows_long_press_detect fuel start : grows (long_press_detect fuel start).
Proof.
  induction fuel as [|fuel IH]; cbn [long_press_detect]; [apply grows_ret|].
  apply grows_bind; [apply grows_system_millis|]. intros t.
  destruct (u64 (t - start) <? 1000); [|apply grows_ret].
  apply grows_bind; [apply grows_system_delay|]. intros _.
  apply grows_bind; [apply grows_touch_read|]. intros [touch|]; [|exact IH].
  destruct (touch_type touch =? 2); [apply grows_ret | exact IH].
Qed.

Lemma grows_entered_menu {A} (c : M A) w :
  grows c -> entered_menu w -> entered_menu (exec c w).
Proof.
  intros Hc Hw. destruct (Hc w) as ((l & E) & _). unfold entered_menu.
  rewrite E. apply in_or_app. right. exact Hw.
Qed.

(** ** The long-press window *)

Lemma long_press_detect_S fuel start w :
  long_press_detect (S fuel) start w =
  if u64 (u64 (clock w) - start) <? 1000 then
    let w1 := exec (system_delay 10) w in
    match fst (touch_read w1) with
    | Some check_touch =>
        if touch_type check_touch =? 2 then (Some false, exec touch_read w1)
        else long_press_detect fuel start (exec touch_read w1)
    | None => long_press_detect fuel start (exec touch_read w1)
    end
  else (Some true, w).
Proof.
  cbn [long_press_detect]. unfold bind. cbv zeta. cbn [system_millis fst snd].
  destruct (u64 (u64 (clock w) - start) <? 1000); [|reflexivity].
  fold (exec (system_delay 10) w). fold (exec touch_read (exec (system_delay 10) w)).
  destruct (fst (touch_read (exec (system_delay 10) w))) as [e|]; [|reflexivity].
  destruct (touch_type e =? 2); reflexivity.
Qed.

Lemma touch_read_frame w :
  clock (exec touch_read w) = clock w /\
  inbox (exec touch_read w) = inbox w /\
  calls (exec touch_read w) = calls w /\
  touch_initialized (exec touch_read w) = touch_initialized w /\
  display_initialized (exec touch_read w) = display_initialized w.
Proof. rewrite touch_read_exec. destruct (fst (touch_read w)); repeat split. Qed.

Lemma touch_read_some w e :
  fst (touch_read w) = Some e ->
  touch_initialized w = true /\ touch_queue w = e :: touch_queue (exec touch_read w).
Proof.
  rewrite touch_read_exec. unfold touch_read.
  destruct (touch_initialized w); cbn [negb]; [|discriminate].
  destruct (touch_queue w) as [|e' q]; cbn [fst]; [discriminate|].
  intros H. injection H as ->. split; reflexivity.
Qed.

Lemma touch_read_none w :
  touch_initialized w = true -> touch_queue w = [] -> fst (touch_read w) = None.
Proof. intros Hi Hq. unfold touch_read. rewrite Hi, Hq. reflexivity. Qed.

Lemma u64_elapsed_step c start :
  u64 (u64 c - start) < 1000 -> u64 (u64 (c + 10) - start) = u64 (u64 c - start) + 10.
Proof.
  unfold u64. intros H.
  rewrite Zminus_mod_idemp_l in H. rewrite !Zminus_mod_idemp_l.
  replace (c + 10 - start) with ((c - start) + 10) by lia.
  rewrite <- Zplus_mod_idemp_l.
  pose proof (Z.mod_pos_bound (c - start) (2 ^ 64) ltac:(lia)).
  apply Z.mod_small. lia.
Qed.

(** The window always closes: 101 rounds are enough whatever the clock. *)
Lemma long_press_detect_enough fuel start : forall w,
  1000 <= u64 (u64 (clock w) - start) + 10 * Z.of_nat fuel ->
  fst (long_press_detect (S fuel) start w) <> None.
Proof.
  induction fuel as [|fuel IH]; intros w Hf; rewrite long_press_detect_S.
  - destruct (Z.ltb_spec (u64 (u64 (clock w) - start)) 1000); [lia | discriminate].
  - destruct (Z.ltb_spec (u64 (u64 (clock w) - start)) 1000) as [Hlt|_]; [|discriminate].
    cbv zeta.
    assert (Hstep : forall w', clock w' = clock w + 10 ->
                      fst (long_press_detect (S fuel) start w') <> None).
    { intros w' Hc. apply IH. rewrite Hc, u64_elapsed_step by exact Hlt. lia. }
    assert (Hc : clock (exec touch_read (exec (system_delay 10) w)) = clock w + 10)
      by (destruct (touch_read_frame (exec (system_delay 10) w)) as (-> & _); reflexivity).
    destruct (fst (touch_read (exec (system_delay 10) w))) as [e|]; [|apply Hstep, Hc].
    destruct (touch_type e =? 2); [discriminate | apply Hstep, Hc].
Qed.

Lemma long_press_detect_total start w :
  fst (long_press_detect long_press_rounds start w) <> None.
Proof.
  apply long_press_detect_enough.
  pose proof (Z.mod_pos_bound (u64 (clock w) - start) (2 ^ 64) ltac:(lia)).
  unfold u64 at 1. lia.
Qed.

Lemma forallb_drop {A} (f : A -> bool) n : forall l,
  forallb f l = true -> forallb f (drop n l) = true.
Proof.
  induction n as [|n IH]; intros [|a l] H; try exact H.
  cbn [drop]. apply IH. cbn [forallb] in H. apply andb_true_iff in H. apply H.
Qed.

Lemma run_host_call_no_up c w :
  is_touch_up c = false -> no_up_queued w = true ->
  no_up_queued (run_host_call c w) = true.
Proof.
  intros Hc Hw. unfold no_up_queued in *. destruct c as [x y type ts|uid ul ndef nl|].
  - cbn [run_host_call]. rewrite wasm_touch_event_queue.
    destruct (touch_initialized w); [|exact Hw]. cbv zeta.
    apply forallb_drop. rewrite forallb_app, Hw. cbn [forallb touch_type].
    cbn [is_touch_up] in Hc. rewrite Hc. reflexivity.
  - cbn [run_host_call]. unfold wasm_nfc_tag.
    destruct (negb (nfc_initialized w)); exact Hw.
  - exact Hw.
Qed.

Lemma deliver_no_up target deadline pending : forall w,
  target < deadline ->
  forallb (fun p => negb (is_touch_up (snd p)) || (deadline <=? fst p)) pending = true ->
  no_up_queued w = true ->
  no_up_queued (deliver target pending w) = true /\
  no_up_due deadline (deliver target pending w) = true.
Proof.
  induction pending as [|[t c] rest IH]; intros w Ht Hp Hw; cbn [deliver].
  - split; [exact Hw | reflexivity].
  - cbn [forallb fst snd] in Hp. apply andb_true_iff in Hp as [Hc Hrest].
    destruct (Z.leb_spec t target) as [Hdue|Hlater].
    + apply IH; [exact Ht | exact Hrest |].
      apply run_host_call_no_up; [|exact Hw].
      destruct (is_touch_up c); [|reflexivity].
      cbn [negb orb] in Hc. apply Z.leb_le in Hc. lia.
    + split; [exact Hw|]. unfold no_up_due. cbn [inbox set_inbox forallb fst snd].
      rewrite Hc, Hrest. reflexivity.
Qed.

Lemma deliver_not_due target pending w :
  next_due_after target pending = true -> deliver target pending w = set_inbox pending w.
Proof.
  destruct pending as [|[t c] rest]; cbn [deliver next_due_after fst]; [reflexivity|].
  intros H. apply Z.ltb_lt in H. destruct (Z.leb_spec t target); [lia | reflexivity].
Qed.

(** As long as no touch-up is queued or delivered, the window runs to its
    end with [still_touching] set. *)
Lemma long_press_held start fuel : forall w,
  0 <= start <= clock w -> clock w < 2 ^ 64 -> start + 1020 < 2 ^ 64 ->
  no_up_queued w = true -> no_up_due (start + 1010) w = true ->
  fst (long_press_detect fuel start w) <> Some false.
Proof.
  induction fuel as [|fuel IH]; intros w Hs Hc Hr Hq Hd; [discriminate|].
  rewrite long_press_detect_S.
  assert (E : u64 (u64 (clock w) - start) = clock w - start).
  { unfold u64. rewrite (Z.mod_small (clock w)) by lia. apply Z.mod_small. lia. }
  rewrite E. destruct (Z.ltb_spec (clock w - start) 1000) as [Hlt|_]; [|discriminate].
  cbv zeta. set (w1 := exec (system_delay 10) w).
  destruct (deliver_no_up (clock w + 10) (start + 1010) (inbox w) w ltac:(lia) Hd Hq)
    as (Hq1 & Hd1).
  change (no_up_queued w1 = true) in Hq1. change (no_up_due (start + 1010) w1 = true) in Hd1.
  assert (Hc1 : clock w1 = clock w + 10) by reflexivity.
  destruct (touch_read_frame w1) as (Fc & Fi & _).
  destruct (fst (touch_read w1)) as [e|] eqn:Er.
  - destruct (touch_read_some w1 e Er) as (_ & Eq).
    unfold no_up_queued in Hq1. rewrite Eq in Hq1. cbn [forallb] in Hq1.
    apply andb_true_iff in Hq1 as [He Hq2]. apply negb_true_iff in He. rewrite He.
    apply IH; rewrite ?Fc, ?Hc1; try lia; [exact Hq2|].
    unfold no_up_due. rewrite Fi. exact Hd1.
  - rewrite touch_read_exec, Er. apply IH; rewrite ?Hc1; try lia; assumption.
Qed.

(** A touch-up that the host delivers, alone, before the window closes ends
    the window with [still_touching] cleared; until then the loop only
    sleeps. *)
Lemma long_press_released start t x y type ts rest fuel : forall w,
  touch_initialized w = true -> touch_queue w = [] ->
  inbox w = (t, call_wasm_touch_event x y type ts) :: rest ->
  u8 type = 2 -> next_due_after (start + 1010) rest = true ->
  0 <= start <= clock w -> clock w < start + 1000 -> start + 1020 < 2 ^ 64 ->
  t <= start + 1000 -> t - clock w <= 10 * Z.of_nat fuel -> (0 < fuel)%nat ->
  exists k w',
    long_press_detect fuel start w = (Some false, w') /\
    calls w' = repeat (emscripten_sleep 10) k ++ calls w.
Proof.
  induction fuel as [|fuel IH]; intros w Hi Hq Hb Hup Hnext Hs Hc Hr Ht Hf Hpos; [lia|].
  rewrite long_press_detect_S.
  assert (E : u64 (u64 (clock w) - start) = clock w - start).
  { unfold u64. rewrite (Z.mod_small (clock w)) by lia. apply Z.mod_small. lia. }
  rewrite E. destruct (Z.ltb_spec (clock w - start) 1000) as [_|Hge]; [|lia].
  cbv zeta. set (w1 := exec (system_delay 10) w).
  assert (Hcalls : calls w1 = emscripten_sleep 10 :: calls w) by reflexivity.
  assert (Hnext' : forall W, deliver (clock w + 10) rest W = set_inbox rest W).
  { intros W. apply deliver_not_due. destruct rest as [|p rest']; [reflexivity|].
    cbn [next_due_after] in *. apply Z.ltb_lt in Hnext. apply Z.ltb_lt. lia. }
  destruct (Z.le_gt_cases t (clock w + 10)) as [Hdue|Hlater].
  - assert (Hq1 : touch_queue w1
             = [mk_touch_event (u16 x) (u16 y) (u8 type) (u64 ts)]).
    { unfold w1, exec, system_delay, void. cbn [snd touch_queue]. rewrite Hb.
      cbn [deliver]. destruct (Z.leb_spec t (clock w + 10)); [|lia].
      rewrite Hnext'. cbn [touch_queue set_inbox run_host_call].
      rewrite wasm_touch_event_queue. cbn [touch_initialized set_clock touch_queue].
      rewrite Hi, Hq. reflexivity. }
    assert (Hr1 : fst (touch_read w1)
             = Some (mk_touch_event (u16 x) (u16 y) (u8 type) (u64 ts))).
    { unfold touch_read. change (touch_initialized w1) with (touch_initialized w).
      rewrite Hi, Hq1. reflexivity. }
    rewrite Hr1. cbn [touch_type]. rewrite Hup. cbn [Z.eqb Pos.eqb].
    exists 1%nat, (exec touch_read w1). split; [reflexivity|].
    destruct (touch_read_frame w1) as (_ & _ & -> & _). exact Hcalls.
  - assert (Hw1 : touch_queue w1 = [] /\ inbox w1 = inbox w).
    { unfold w1, exec, system_delay, void. cbn [snd touch_queue inbox]. rewrite Hb.
      cbn [deliver]. destruct (Z.leb_spec t (clock w + 10)); [lia|].
      cbn [touch_queue inbox set_inbox]. rewrite Hq. split; reflexivity. }
    destruct Hw1 as (Hq1 & Hb1).
    assert (Hr1 : fst (touch_read w1) = None) by (apply touch_read_none; [exact Hi | exact Hq1]).
    rewrite Hr1, touch_read_exec, Hr1.
    destruct fuel as [|fuel']; [lia|].
    destruct (IH w1 Hi Hq1 (eq_trans Hb1 Hb) Hup Hnext) as (k & w' & E1 & E2);
      try (change (clock w1) with (clock w + 10)); try lia.
    exists (S k), w'. split; [exact E1|].
    rewrite E2, Hcalls. cbn [repeat]. rewrite (repeat_cons k), <- app_assoc. reflexivity.
Qed.

(** ** The text of a uid *)

Lemma length_append_s (a b : string) :
  String.length (a +:+ b) = (String.length a + String.length b)%nat.
Proof.
  induction a as [|c a IH]; [reflexivity|].
  rewrite append_cons_s. cbn [String.length]. rewrite IH. reflexivity.
Qed.

Lemma length_hex_bytes (l : list Z) :
  String.length (fold_right (fun b out => hex2 (u8 b) +:+ out) "" l) = (2 * length l)%nat.
Proof.
  induction l as [|b l IH]; [reflexivity|].
  cbn [fold_right length]. rewrite length_append_s, IH. cbn [hex2 String.length]. lia.
Qed.

Lemma hex_digit_inj a b :
  0 <= a < 16 -> 0 <= b < 16 -> hex_digit a = hex_digit b -> a = b.
Proof.
  intros Ha Hb. unfold hex_digit.
  rewrite <- (Z2Nat.id a), <- (Z2Nat.id b) by lia.
  assert (Hna : (Z.to_nat a < 16)%nat) by lia.
  assert (Hnb : (Z.to_nat b < 16)%nat) by lia.
  rewrite !Nat2Z.id.
  generalize dependent (Z.to_nat b). generalize dependent (Z.to_nat a).
  intros n Hn m Hm.
  do 16 (destruct n as [|n]; [do 16 (destruct m as [|m]; [first [reflexivity | discriminate]|]); lia|]).
  lia.
Qed.

Lemma hex2_inj a b : 0 <= a < 256 -> 0 <= b < 256 -> hex2 a = hex2 b -> a = b.
Proof.
  intros Ha Hb H. unfold hex2 in H. injection H as H1 H2.
  apply hex_digit_inj in H1; [|split; [apply Z.div_pos; lia | apply Z.div_lt_upper_bound; lia]..].
  apply hex_digit_inj in H2; [|apply Z.mod_pos_bound; lia..].
  rewrite (Z.div_mod a 16), (Z.div_mod b 16) by lia. lia.
Qed.

Lemma hex_bytes_inj (l1 : list Z) : forall l2,
  Forall (fun b => 0 <= b < 256) l1 -> Forall (fun b => 0 <= b < 256) l2 ->
  fold_right (fun b out => hex2 (u8 b) +:+ out) "" l1
  = fold_right (fun b out => hex2 (u8 b) +:+ out) "" l2 ->
  l1 = l2.
Proof.
  induction l1 as [|a l1 IH]; intros [|b l2] H1 H2 H; try reflexivity; try discriminate H.
  inversion H1 as [|? ? Ha H1']; inversion H2 as [|? ? Hb H2']; subst.
  cbn [fold_right] in H. unfold u8 in H. rewrite !Z.mod_small in H by lia.
  unfold hex2 in H. rewrite !append_cons_s, !append_nil_s in H.
  injection H as Hh Hl Hrest.
  f_equal; [|apply IH; assumption].
  apply hex2_inj; [lia..|]. unfold hex2. congruence.
Qed.

(** ** Decimal texts *)

Lemma dec_inj a b : 0 <= a -> 0 <= b -> dec a = dec b -> a = b.
Proof.
  intros Ha Hb H. unfold dec in H.
  assert (Hnn : forall n, N.to_uint n <> Decimal.Nil).
  { intros [|p]; [discriminate|]. apply DecimalPos.Unsigned.to_uint_nonnil. }
  apply (f_equal NilZero.uint_of_string) in H.
  rewrite !NilZero.usu in H by apply Hnn.
  injection H as H. apply DecimalN.Unsigned.to_uint_inj in H. lia.
Qed.

(** X1.  The text that [loop] builds from the uid of a queued tag has two
    characters per byte that [nfc_get_uid] copied, and so at most fourteen:
    with its terminator it fits [char uid_str[16]] and [char last_uid[16]]. *)
Theorem uid_text_fits_its_buffer (w : world) :
  queues_ok w ->
  let got := fst (nfc_get_uid w) in
  String.length (uid_to_string (snd got) (fst got)) = (2 * length (snd got))%nat /\
  (String.length (uid_to_string (snd got) (fst got)) < 16)%nat.
Proof.
  intros (_ & _ & Hok). cbv zeta.
  assert (H : String.length (uid_to_string (snd (fst (nfc_get_uid w))) (fst (fst (nfc_get_uid w))))
              = (2 * length (snd (fst (nfc_get_uid w))))%nat
              /\ (length (snd (fst (nfc_get_uid w))) <= 7)%nat).
  { unfold nfc_get_uid. destruct (negb (nfc_initialized w)); [split; [reflexivity | simpl; lia]|].
    destruct (nfc_queue w) as [|tag q]; [split; [reflexivity | simpl; lia]|].
    inversion Hok as [|? ? (Hlen & _) _]; subst. cbn [fst snd].
    unfold uid_to_string. rewrite length_hex_bytes.
    unfold u8. rewrite Z.mod_small by lia.
    rewrite !length_take. split; lia. }
  destruct H as [H1 H2]. split; [exact H1 | lia].
Qed.

Lemma uid_text_fits_its_buffer_witness :
  let w := wasm_nfc_tag [1; 2; 3; 4; 5; 6; 7; 8; 9] 9 [] 0
             (exec (setup fw_boot) (fresh_world 0)) in
  String.length (uid_to_string (snd (fst (nfc_get_uid w))) (fst (fst (nfc_get_uid w))))
  = 14%nat.
Proof.
  intros w.
  assert (Hq : queues_ok w).
  { split; [|split]; [vm_compute; lia | vm_compute; lia |].
    vm_compute. constructor; [|constructor].
    repeat split; try discriminate; lia. }
  destruct (uid_text_fits_its_buffer w Hq) as [H _]. exact H.
Defined.

Lemma uid_to_string_injective_bytes (uid1 uid2 : list Z) :
  Forall (fun b => 0 <= b < 256) uid1 -> Forall (fun b => 0 <= b < 256) uid2 ->
  (length uid1 <= 7)%nat -> (length uid2 <= 7)%nat ->
  uid_to_string uid1 (Z.of_nat (length uid1)) = uid_to_string uid2 (Z.of_nat (length uid2)) ->
  uid1 = uid2.
Proof.
  intros H1 H2 L1 L2. unfold uid_to_string, u8.
  rewrite !Z.mod_small by lia. rewrite !Nat2Z.id, !firstn_all.
  apply hex_bytes_inj; assumption.
Qed.

(** X2.  Two uids of at most seven bytes have the same text only if they
    are the same bytes: comparing [uid_str] with [last_uid] by [strcmp]
    compares the uids themselves. *)
Theorem uid_to_string_injective (uid1 uid2 : list Z) :
  Forall (fun b => 0 <= b < 256) uid1 -> Forall (fun b => 0 <= b < 256) uid2 ->
  (length uid1 <= 7)%nat -> (length uid2 <= 7)%nat ->
  uid_to_string uid1 (Z.of_nat (length uid1)) = uid_to_string uid2 (Z.of_nat (length uid2)) ->
  uid1 = uid2.
Proof. apply uid_to_string_injective_bytes. Qed.

Lemma uid_to_string_injective_witness :
  String.eqb (uid_to_string [170; 187] 2) (uid_to_string [170; 188] 2) = false.
Proof.
  destruct (String.eqb_spec (uid_to_string [170; 187] 2) (uid_to_string [170; 188] 2))
    as [E|_]; [|reflexivity].
  apply (uid_to_string_injective [170; 187] [170; 188]) in E.
  - discriminate E.
  - repeat constructor; lia.
  - repeat constructor; lia.
  - simpl; lia.
  - simpl; lia.
Defined.

(** ** What SendTip and UnlockContent persist *)



Lemma unlock_data_pieces cfg uid_str t :
  unlock_data cfg uid_str t
  = join_quote [ "{"; "uid"; ":"; uid_str; ","; "content_id"; ":"; node_id cfg; ",";
                 "node"; ":"; node_id cfg; ","; "timestamp"; ":" +:+ dec t +:+ "}" ].
Proof.
  unfold unlock_data, quoted. cbn [join_quote].
  repeat (rewrite append_assoc_s || rewrite append_cons_s || rewrite append_nil_s).
  reflexivity.
Qed.


Lemma saves_execute_unlock_content cfg uid_str w :
  saves (calls (exec (execute_unlock_content cfg uid_str) w))
  = ("unlock_" +:+ dec (u64 (clock w + 120 + 120 + 2000)),
     bytes_of_string (unlock_data cfg uid_str (u64 (clock w + 120 + 120 + 2000))))
    :: saves (calls w).
Proof.
  rewrite !calls_observe, clock_observe. unfold execute_unlock_content.
  match goal with
  | |- context [observe (exec ?prog w)] =>
      obs_of ipattern:(H1) prog w; rewrite H1; clear H1
  end.
  destruct (observe w) as [cl ck sto ok di]. unfold o_shows.
  destruct di; cbn; rewrite ?saves_app, ?saves_blink_calls; reflexivity.
Qed.



(** X4.  UnlockContent makes exactly one save: under the key [unlock_<t>], where
    [t] is the clock after the success sound and the 2000 ms hold, it writes
    a text whose field names are uid, content_id, node and timestamp, and in
    which content_id and node carry the same value, the node id. *)
Theorem unlock_content_record cfg (uid_str : string) (w : world) :
  no_quote uid_str = true -> no_quote (node_id cfg) = true ->
  let t := u64 (clock w + 120 + 120 + 2000) in
  let text := unlock_data cfg uid_str t in
  saves (calls (exec (execute_unlock_content cfg uid_str) w))
  = ("unlock_" +:+ dec t, bytes_of_string text) :: saves (calls w) /\
  field_names text = ["uid"; "content_id"; "node"; "timestamp"] /\
  nth 7 (split_quote text) "" = node_id cfg /\
  nth 11 (split_quote text) "" = node_id cfg.
Proof.
  intros Hu Hn t text. split; [apply saves_execute_unlock_content|].
  unfold field_names, text. rewrite unlock_data_pieces.
  rewrite split_join_quote; [repeat split; reflexivity | discriminate |].
  cbn [forallb]. rewrite Hu, Hn, !no_quote_app, no_quote_dec. reflexivity.
Qed.

Lemma unlock_content_record_witness :
  nth 7 (split_quote (unlock_data default_ritual "AABB" (u64 (5000 + 120 + 120 + 2000)))) ""
  = "default-node".
Proof.
  destruct (unlock_content_record default_ritual "AABB" (snd (presented_once 5000))
              eq_refl eq_refl) as (_ & _ & H & _).
  exact H.
Defined.

(** ** Time, LED and display over a dispatch *)

Lemma dispatch_duration_bounds cfg : 1000 <= dispatch_duration cfg <= 4240.
Proof.
  unfold dispatch_duration. cbv zeta.
  repeat match goal with
         | |- context [if ?b then _ else _] => destruct b
         end; lia.
Qed.

Lemma blink_calls_S i n d :
  blink_calls i (S n) d
  = blink_calls (i + 1) n d ++ [emscripten_async_call_blink i d (i * d * 2)].
Proof. reflexivity. Qed.


Lemma display_calls_app l1 l2 :
  display_calls (l1 ++ l2) = display_calls l1 ++ display_calls l2.
Proof. apply List.filter_app. Qed.

Lemma display_calls_blink_calls n : forall i d, display_calls (blink_calls i n d) = [].
Proof.
  induction n as [|n IH]; intros i d; [reflexivity|].
  rewrite blink_calls_S, display_calls_app, IH. reflexivity.
Qed.

Lemma clock_execute_ritual_behavior cfg uid_str w :
  clock (exec (execute_ritual_behavior cfg uid_str) w) = clock w + dispatch_duration cfg.
Proof.
  rewrite !clock_observe. unfold dispatch_duration. behaviour_cases cfg.
  all: match goal with
       | |- context [observe (exec ?prog ?w0)] =>
           obs_of ipattern:(H1) prog w0; rewrite H1; clear H1
       end.
  all: destruct (observe w) as [cl ck sto ok di]; unfold o_shows.
  all: destruct di; cbn; lia.
Qed.

(** X5.  A dispatch advances the clock by exactly the sleeps on its path:
    2240 ms for SaveMoment and SendTip, 2000 ms for VoteA and
    IncrementCounter, 2100 ms for VoteB, 4240 ms for UnlockContent, 2500,
    1500 or 1000 ms for TriggerLight (rainbow, pulse, any other pattern) and
    1000 ms for any other behaviour; so always between 1000 and 4240 ms,
    during which [loop] polls neither the reader nor the touch queue. *)
Theorem dispatch_takes_its_sleeps cfg (uid_str : string) (w : world) :
  clock (exec (execute_ritual_behavior cfg uid_str) w) = clock w + dispatch_duration cfg /\
  1000 <= dispatch_duration cfg <= 4240.
Proof.
  split; [apply clock_execute_ritual_behavior | apply dispatch_duration_bounds].
Qed.


(** X7.  While the display is not initialised a dispatch draws nothing: it
    makes no display call at all, though it sleeps as long as ever. *)
Theorem dispatch_draws_nothing_before_display_init cfg (uid_str : string) (w : world) :
  display_initialized w = false ->
  let w' := exec (execute_ritual_behavior cfg uid_str) w in
  display_calls (calls w') = display_calls (calls w) /\
  clock w' = clock w + dispatch_duration cfg.
Proof.
  intros Hd. cbv zeta. split; [|apply clock_execute_ritual_behavior].
  rewrite !calls_observe. behaviour_cases cfg.
  all: match goal with
       | |- context [observe (exec ?prog ?w0)] =>
           obs_of ipattern:(H1) prog w0; rewrite H1; clear H1
       end.
  all: assert (Ho : o_display (observe w) = false) by exact Hd.
  all: destruct (observe w) as [cl ck sto ok di]; simpl in Ho; subst di.
  all: unfold o_shows; cbn; rewrite ?display_calls_app, ?display_calls_blink_calls;
    reflexivity.
Qed.

Lemma dispatch_draws_nothing_before_display_init_witness :
  display_calls (calls (exec (execute_ritual_behavior default_ritual "AABB") (fresh_world 0)))
  = [].
Proof.
  destruct (dispatch_draws_nothing_before_display_init default_ritual "AABB" (fresh_world 0)
              eq_refl) as [H _].
  exact H.
Defined.

(** ** The touch block leaves the store alone *)

Lemma storage_free_ret {A} (a : A) : storage_free (ret a).
Proof. intros w. split; reflexivity. Qed.

Lemma storage_free_bind {A B} (c : M A) (k : A -> M B) :
  storage_free c -> (forall a, storage_free (k a)) -> storage_free (bind c k).
Proof.
  intros Hc Hk w. rewrite exec_bind.
  destruct (Hc w) as [S1 C1]. destruct (Hk (fst (c w)) (exec c w)) as [S2 C2].
  split; congruence.
Qed.

Lemma storage_free_js c : is_storage_call c = false -> storage_free (void (js c)).
Proof.
  intros Hc w. split; [reflexivity|].
  change (calls (exec (void (js c)) w)) with (c :: calls w).
  unfold storage_calls. cbn [List.filter]. rewrite Hc. reflexivity.
Qed.

Lemma storage_free_js_unless c :
  is_storage_call c = false ->
  storage_free (void (fun w => js_unless (negb (display_initialized w)) c w)).
Proof.
  intros Hc w. split; [reflexivity|].
  unfold exec, void, js_unless. cbn [snd calls].
  destruct (negb (display_initialized w)); [reflexivity|].
  unfold storage_calls. cbn [List.filter]. rewrite Hc. reflexivity.
Qed.

Lemma storage_free_display_clear : storage_free display_clear.
Proof. apply storage_free_js_unless. reflexivity. Qed.

Lemma storage_free_display_draw_text x y text size :
  storage_free (display_draw_text x y text size).
Proof. apply storage_free_js_unless. reflexivity. Qed.

Lemma storage_free_display_update partial : storage_free (display_update partial).
Proof. apply storage_free_js_unless. reflexivity. Qed.

Lemma storage_free_debug_printf m : storage_free (debug_printf m).
Proof. apply storage_free_js. reflexivity. Qed.

Lemma storage_free_system_delay ms : storage_free (system_delay ms).
Proof. intros w. split; reflexivity. Qed.

Lemma storage_free_system_millis : storage_free system_millis.
Proof. intros w. split; reflexivity. Qed.

Lemma storage_free_touch_read : storage_free touch_read.
Proof.
  intros w. rewrite touch_read_exec. destruct (fst (touch_read w)); split; reflexivity.
Qed.

Create HintDb storage_free discriminated.
#[local] Hint Resolve storage_free_ret storage_free_display_clear
  storage_free_display_draw_text storage_free_display_update storage_free_debug_printf
  storage_free_system_delay storage_free_system_millis storage_free_touch_read
  : storage_free.

Ltac storage_free :=
  repeat first [ apply storage_free_bind; [|intros ?] | solve [auto with storage_free] ].

Lemma storage_free_show_status_message cfg message :
  storage_free (show_status_message cfg message).
Proof. unfold show_status_message. storage_free. Qed.

Lemma storage_free_show_ready_screen cfg : storage_free (show_ready_screen cfg).
Proof. unfold show_ready_screen. storage_free. Qed.

Lemma storage_free_show_menu : storage_free show_menu.
Proof. unfold show_menu. storage_free. Qed.

Lemma storage_free_wait_touch_down fuel : storage_free (wait_touch_down fuel).
Proof.
  induction fuel as [|fuel IH]; cbn [wait_touch_down]; [apply storage_free_ret|].
  apply storage_free_bind; [apply storage_free_touch_read|]. intros [touch|].
  - destruct (touch_type touch =? 0); [apply storage_free_ret|].
    apply storage_free_bind; [apply storage_free_system_delay | intros _; exact IH].
  - apply storage_free_bind; [apply storage_free_system_delay | intros _; exact IH].
Qed.

#[local] Hint Resolve storage_free_show_status_message storage_free_show_ready_screen
  storage_free_show_menu storage_free_wait_touch_down : storage_free.

Lemma storage_free_handle_touch_menu fuel cfg x y :
  storage_free (handle_touch_menu fuel cfg x y).
Proof.
  unfold handle_touch_menu.
  repeat match goal with
         | |- storage_free (if ?b then _ else _) => destruct b
         end; storage_free.
  all: match goal with a : option touch_event_t |- _ => destruct a end; storage_free.
Qed.

Lemma storage_free_long_press_detect fuel start :
  storage_free (long_press_detect fuel start).
Proof.
  induction fuel as [|fuel IH]; cbn [long_press_detect]; [apply storage_free_ret|].
  apply storage_free_bind; [apply storage_free_system_millis|]. intros t.
  destruct (u64 (t - start) <? 1000); [|apply storage_free_ret].
  apply storage_free_bind; [apply storage_free_system_delay|]. intros _.
  apply storage_free_bind; [apply storage_free_touch_read|]. intros [touch|]; [|exact IH].
  destruct (touch_type touch =? 2); [apply storage_free_ret | exact IH].
Qed.

#[local] Hint Resolve storage_free_handle_touch_menu storage_free_long_press_detect
  : storage_free.

Lemma storage_free_loop_touch fuel now st : storage_free (loop_touch fuel now st).
Proof.
  unfold loop_touch.
  apply storage_free_bind; [apply storage_free_touch_read|]. intros [touch|]; [|storage_free].
  destruct (touch_type touch =? 0); [|storage_free].
  destruct (500 <? u64 (now - last_touch_time st)); [|storage_free].
  cbv zeta. apply storage_free_bind; [apply storage_free_debug_printf|]. intros _.
  apply storage_free_bind; [apply storage_free_long_press_detect|].
  intros [[|]|]; storage_free.
  match goal with a : option touch_event_t |- _ => destruct a end; storage_free.
Qed.

(** X8.  The touch block of [loop] never touches the store, whatever is
    touched and for however long: neither the long-press window nor the
    menu nor any of its entries, [2. Clear Data] included, makes a storage
    call or changes a stored value. *)
Theorem touch_handling_never_touches_the_store (fuel : nat) (now : Z) (st : fw_state)
    (w : world) :
  let r := loop_touch fuel now st w in
  store (snd r) = store w /\
  storage_calls (calls (snd r)) = storage_calls (calls w) /\
  forall cfg x y,
    let m := handle_touch_menu fuel cfg x y w in
    store (snd m) = store w /\ storage_calls (calls (snd m)) = storage_calls (calls w).
Proof.
  cbv zeta. destruct (storage_free_loop_touch fuel now st w) as [S1 C1].
  repeat split; [exact S1 | exact C1 | |];
    destruct (storage_free_handle_touch_menu fuel cfg x y w) as [S2 C2]; assumption.
Qed.

(** ** The menu entries *)

Lemma bind_eq {A B} (c : M A) (k : A -> M B) w :
  bind c k w = k (fst (c w)) (exec c w).
Proof. reflexivity. Qed.

Lemma ready_screen_last cfg w :
  display_initialized w = true ->
  calls (exec (show_ready_screen cfg) w) = rev (ready_screen_calls cfg) ++ calls w.
Proof.
  intros Hd. rewrite !calls_observe, obs_show_ready_screen. unfold o_shows.
  change (o_display (observe w)) with (display_initialized w). rewrite Hd. reflexivity.
Qed.

Lemma message_entry cfg message ms w :
  display_initialized w = true ->
  exec (show_status_message cfg message ;; system_delay ms ;; show_ready_screen cfg ;; ret true) w
  = exec (show_ready_screen cfg) (exec (system_delay ms) (exec (show_status_message cfg message) w))
  /\ calls (exec (show_status_message cfg message ;; system_delay ms ;;
                  show_ready_screen cfg ;; ret true) w)
     = rev (status_calls cfg message ++ [emscripten_sleep ms] ++ ready_screen_calls cfg)
       ++ calls w
  /\ clock (exec (show_status_message cfg message ;; system_delay ms ;;
                  show_ready_screen cfg ;; ret true) w) = clock w + ms.
Proof.
  intros Hd. split; [reflexivity|].
  rewrite !calls_observe, !clock_observe.
  match goal with
  | |- context [observe (exec ?prog w)] =>
      obs_of ipattern:(H1) prog w; rewrite H1; clear H1
  end.
  assert (Ho : o_display (observe w) = true) by exact Hd.
  destruct (observe w) as [cl ck sto ok di]; simpl in Ho; subst di.
  unfold o_shows; cbn. split; reflexivity.
Qed.

(** X9.  What a menu selection does is decided by [y] alone.  The bands
    50-69, 70-89 and 90-109 show one message each ([Feature coming soon],
    [Data cleared], [Tap NFC tag to test]), sleep 1000, 1000 and 3000 ms and
    redraw the ready screen, and do nothing else; a touch with [y] below 50
    or from 130 on redraws the ready screen at once.  Whenever the selection
    returns, the last thing drawn is the ready screen. *)
Theorem menu_selection_by_band (fuel : nat) cfg (x y : Z) (w : world) :
  display_initialized w = true ->
  let r := handle_touch_menu fuel cfg x y w in
  let shows message ms :=
    calls (snd r)
    = rev (status_calls cfg message ++ [emscripten_sleep ms] ++ ready_screen_calls cfg)
      ++ calls w /\ clock (snd r) = clock w + ms in
  r = handle_touch_menu fuel cfg 0 y w /\
  (50 <= y < 70 -> shows "Feature coming soon"%string 1000) /\
  (70 <= y < 90 -> shows "Data cleared"%string 1000) /\
  (90 <= y < 110 -> shows "Tap NFC tag to test"%string 3000) /\
  (y < 50 \/ 130 <= y ->
   calls (snd r) = rev (ready_screen_calls cfg) ++ calls w /\ clock (snd r) = clock w) /\
  (fst r = true -> take 6 (calls (snd r)) = rev (ready_screen_calls cfg)).
Proof.
  intros Hd r shows. subst r shows. cbv beta.
  split; [reflexivity|].
  unfold handle_touch_menu.
  destruct (Z.leb_spec 50 y) as [H50|H50]; destruct (Z.ltb_spec y 70) as [H70|H70];
    cbn [andb].
  1: { destruct (message_entry cfg "Feature coming soon" 1000 w Hd) as (_ & Hc & Hk).
       fold (exec (show_status_message cfg "Feature coming soon" ;; system_delay 1000 ;;
                   show_ready_screen cfg ;; ret true) w).
       rewrite Hc, Hk. repeat split; try lia; reflexivity. }
  2, 3: destruct (Z.leb_spec 70 y); destruct (Z.ltb_spec y 90); cbn [andb]; try lia;
        destruct (Z.leb_spec 90 y); destruct (Z.ltb_spec y 110); cbn [andb]; try lia;
        destruct (Z.leb_spec 110 y); destruct (Z.ltb_spec y 130); cbn [andb]; try lia;
        fold (exec (show_ready_screen cfg ;; ret true) w);
        change (exec (show_ready_screen cfg ;; ret true) w)
          with (exec (show_ready_screen cfg) w);
        rewrite (ready_screen_last cfg w Hd); repeat split; try lia; reflexivity.
  destruct (Z.leb_spec 70 y) as [H70'|H70']; [|lia].
  destruct (Z.ltb_spec y 90) as [H90|H90]; cbn [andb].
  1: { destruct (message_entry cfg "Data cleared" 1000 w Hd) as (_ & Hc & Hk).
       fold (exec (show_status_message cfg "Data cleared" ;; system_delay 1000 ;;
                   show_ready_screen cfg ;; ret true) w).
       rewrite Hc, Hk. repeat split; try lia; reflexivity. }
  destruct (Z.leb_spec 90 y) as [H90'|H90']; [|lia].
  destruct (Z.ltb_spec y 110) as [H110|H110]; cbn [andb].
  1: { destruct (message_entry cfg "Tap NFC tag to test" 3000 w Hd) as (_ & Hc & Hk).
       fold (exec (show_status_message cfg "Tap NFC tag to test" ;; system_delay 3000 ;;
                   show_ready_screen cfg ;; ret true) w).
       rewrite Hc, Hk. repeat split; try lia; reflexivity. }
  destruct (Z.leb_spec 110 y) as [H110'|H110']; [|lia].
  destruct (Z.ltb_spec y 130) as [H130|H130]; cbn [andb].
  2: { fold (exec (show_ready_screen cfg ;; ret true) w).
       change (exec (show_ready_screen cfg ;; ret true) w)
         with (exec (show_ready_screen cfg) w).
       rewrite (ready_screen_last cfg w Hd). repeat split; try lia; reflexivity. }
  repeat split; try lia.
  repeat (rewrite bind_eq; cbv beta).
  match goal with
  | |- context [wait_touch_down fuel ?w0] => remember w0 as wi eqn:Ewi
  end.
  assert (Hdi : display_initialized wi = true).
  { subst wi.
    repeat match goal with
           | |- display_initialized (exec ?c ?w0) = true =>
               let G := fresh in
               assert (G : grows c) by grows;
               destruct (G w0) as (_ & ->); clear G
           end.
    exact Hd. }
  clear Ewi.
  destruct (grows_wait_touch_down fuel wi) as (_ & Hdw).
  rewrite Hdi in Hdw.
  destruct (fst (wait_touch_down fuel wi)) as [sel|]; [|discriminate].
  intros _. rewrite bind_eq. cbv beta. unfold ret. cbn [snd].
  rewrite (ready_screen_last cfg _ Hdw). reflexivity.
Qed.

Lemma menu_selection_by_band_witness :
  let w := exec (setup fw_boot) (fresh_world 0) in
  let r := handle_touch_menu 1 default_ritual 7 75 w in
  calls (snd r)
  = rev (status_calls default_ritual "Data cleared" ++ [emscripten_sleep 1000]
         ++ ready_screen_calls default_ritual) ++ calls w
  /\ clock (snd r) = clock w + 1000.
Proof.
  intros w r.
  destruct (menu_selection_by_band 1 default_ritual 7 75 w eq_refl)
    as (_ & _ & H & _).
  apply H. lia.
Defined.

(** ** The waits for a touch-down *)

Lemma system_delay_quiet ms w :
  inbox w = [] ->
  touch_queue (exec (system_delay ms) w) = touch_queue w /\
  inbox (exec (system_delay ms) w) = [] /\
  touch_initialized (exec (system_delay ms) w) = touch_initialized w /\
  clock (exec (system_delay ms) w) = clock w + ms.
Proof.
  intros Hi. unfold exec, system_delay, void. cbn [snd touch_queue inbox touch_initialized clock].
  rewrite Hi. repeat split.
Qed.

Lemma wait_touch_down_S fuel w :
  wait_touch_down (S fuel) w =
  match fst (touch_read w) with
  | Some touch =>
      if touch_type touch =? 0 then (Some touch, exec touch_read w)
      else wait_touch_down fuel (exec (system_delay 10) (exec touch_read w))
  | None => wait_touch_down fuel (exec (system_delay 10) (exec touch_read w))
  end.
Proof.
  cbn [wait_touch_down]. unfold bind. cbv zeta. fold (exec touch_read w).
  destruct (fst (touch_read w)) as [e|]; [|reflexivity].
  destruct (touch_type e =? 0); reflexivity.
Qed.

Lemma wait_touch_down_skips pre : forall fuel w e post,
  touch_initialized w = true -> inbox w = [] ->
  touch_queue w = pre ++ e :: post ->
  forallb (fun e' => negb (is_touch_down e')) pre = true ->
  is_touch_down e = true ->
  (length pre < fuel)%nat ->
  fst (wait_touch_down fuel w) = Some e /\
  touch_queue (snd (wait_touch_down fuel w)) = post /\
  clock (snd (wait_touch_down fuel w)) = clock w + 10 * Z.of_nat (length pre).
Proof.
  induction pre as [|p pre IH]; intros fuel w e post Hi Hb Hq Hpre He Hf;
    (destruct fuel as [|fuel]; [simpl in Hf; lia|]); rewrite wait_touch_down_S.
  - cbn [app] in Hq. rewrite touch_read_exec. unfold touch_read. rewrite Hi, Hq.
    cbn [negb fst snd]. unfold is_touch_down in He. rewrite He.
    cbn [fst snd touch_queue set_touch_queue clock length]. repeat split. lia.
  - cbn [app] in Hq. cbn [forallb] in Hpre. apply andb_true_iff in Hpre as [Hp Hpre].
    apply negb_true_iff in Hp. unfold is_touch_down in Hp.
    rewrite touch_read_exec. unfold touch_read. rewrite Hi, Hq. cbn [negb fst snd].
    rewrite Hp.
    destruct (system_delay_quiet 10 (set_touch_queue (pre ++ e :: post) w) Hb)
      as (Dq & Di & Dt & Dc).
    assert (Hi' : touch_initialized
                    (exec (system_delay 10) (set_touch_queue (pre ++ e :: post) w)) = true)
      by (rewrite Dt; exact Hi).
    assert (Hf' : (length pre < fuel)%nat) by (simpl in Hf; lia).
    destruct (IH fuel (exec (system_delay 10) (set_touch_queue (pre ++ e :: post) w)) e post
                Hi' Di Dq Hpre He Hf') as (R1 & R2 & R3).
    repeat split; [exact R1 | exact R2 |]. cbn [tail].
    rewrite R3, Dc. cbn [clock set_touch_queue length]. lia.
Qed.

Lemma wait_touch_down_starves fuel : forall w,
  inbox w = [] ->
  forallb (fun e' => negb (is_touch_down e')) (touch_queue w) = true ->
  fst (wait_touch_down fuel w) = None /\
  clock (snd (wait_touch_down fuel w)) = clock w + 10 * Z.of_nat fuel.
Proof.
  induction fuel as [|fuel IH]; intros w Hb Hq.
  - cbn [wait_touch_down ret fst snd]. split; [reflexivity | lia].
  - rewrite wait_touch_down_S.
    destruct (touch_read_frame w) as (Fc & Fi & _).
    assert (Hq' : forallb (fun e' => negb (is_touch_down e'))
                    (touch_queue (exec touch_read w)) = true).
    { destruct (fst (touch_read w)) as [e|] eqn:Er.
      - destruct (touch_read_some w e Er) as (_ & Eq). rewrite Eq in Hq.
        cbn [forallb] in Hq. apply andb_true_iff in Hq. apply Hq.
      - rewrite touch_read_exec, Er. exact Hq. }
    assert (Hb' : inbox (exec touch_read w) = []) by (rewrite Fi; exact Hb).
    destruct (system_delay_quiet 10 (exec touch_read w) Hb') as (Dq & Di & _ & Dc).
    assert (Hrec : fst (wait_touch_down fuel (exec (system_delay 10) (exec touch_read w)))
                   = None /\
                   clock (snd (wait_touch_down fuel
                                 (exec (system_delay 10) (exec touch_read w))))
                   = clock w + 10 * Z.of_nat (S fuel)).
    { destruct (IH (exec (system_delay 10) (exec touch_read w)) Di) as (R1 & R2).
      - rewrite Dq. exact Hq'.
      - split; [exact R1|]. rewrite R2, Dc, Fc. lia. }
    destruct (fst (touch_read w)) as [e|] eqn:Er; [|exact Hrec].
    destruct (touch_read_some w e Er) as (_ & Eq).
    rewrite Eq in Hq. cbn [forallb] in Hq. apply andb_true_iff in Hq as [He _].
    apply negb_true_iff in He. unfold is_touch_down in He. rewrite He. exact Hrec.
Qed.

(** X10.  The two waits of main.cpp for a touch-down (the menu selection in
    [loop], the end of the Node Info screen in [handle_touch_menu]) take
    the first touch-down of the queue: the moves and releases queued before
    it are read and dropped, each one followed by a 10 ms sleep, and what
    is queued behind it stays queued. *)
Theorem wait_takes_the_first_touch_down (fuel : nat) (w : world)
    (pre : list touch_event_t) (e : touch_event_t) (post : list touch_event_t) :
  touch_initialized w = true -> inbox w = [] ->
  touch_queue w = pre ++ e :: post ->
  forallb (fun e' => negb (is_touch_down e')) pre = true ->
  is_touch_down e = true ->
  (length pre < fuel)%nat ->
  let r := wait_touch_down fuel w in
  fst r = Some e /\ touch_queue (snd r) = post /\
  clock (snd r) = clock w + 10 * Z.of_nat (length pre).
Proof. intros. apply wait_touch_down_skips; assumption. Qed.

Lemma wait_takes_the_first_touch_down_witness :
  let w := mk_world [mk_touch_event 1 1 2 0; mk_touch_event 5 60 0 7;
                     mk_touch_event 9 9 0 9] [] true true true 100 ∅ true [] [] in
  fst (wait_touch_down 2 w) = Some (mk_touch_event 5 60 0 7) /\
  touch_queue (snd (wait_touch_down 2 w)) = [mk_touch_event 9 9 0 9] /\
  clock (snd (wait_touch_down 2 w)) = 100 + 10 * Z.of_nat 1.
Proof.
  intros w.
  apply (wait_takes_the_first_touch_down 2 w [mk_touch_event 1 1 2 0]
           (mk_touch_event 5 60 0 7) [mk_touch_event 9 9 0 9]);
    try reflexivity.
  simpl. lia.
Defined.

(** X11.  These waits have no time limit: as long as the queue holds no
    touch-down and the host delivers nothing, every read fails or is
    dropped, and the node stays in the wait, 10 ms per read. *)
Theorem wait_without_touch_down_never_ends (fuel : nat) (w : world) :
  inbox w = [] ->
  forallb (fun e' => negb (is_touch_down e')) (touch_queue w) = true ->
  fst (wait_touch_down fuel w) = None /\
  clock (snd (wait_touch_down fuel w)) = clock w + 10 * Z.of_nat fuel.
Proof. apply wait_touch_down_starves. Qed.

Lemma wait_without_touch_down_never_ends_witness :
  let w := mk_world [mk_touch_event 1 1 2 0; mk_touch_event 1 1 1 0] [] true true true
             100 ∅ true [] [] in
  fst (wait_touch_down 50 w) = None /\
  clock (snd (wait_touch_down 50 w)) = 100 + 10 * Z.of_nat 50.
Proof.
  intros w. apply (wait_without_touch_down_never_ends 50 w); reflexivity.
Defined.

(** ** Touch events from injection to read *)

Lemma drop_drop_app {A} (l : list A) (e : A) k :
  (k = length l - 10)%nat ->
  drop (length (drop k l ++ [e]) - 10) (drop k l ++ [e])
  = drop (length (l ++ [e]) - 10) (l ++ [e]).
Proof.
  intros Hk. assert (Hle : (k <= length l)%nat) by lia.
  rewrite <- (drop_app_le l [e] k Hle), drop_drop, length_drop, !length_app.
  cbn [length]. f_equal. lia.
Qed.

Lemma inject_touches_queue es : forall w,
  touch_initialized w = true ->
  (length (touch_queue w) <= 10)%nat ->
  touch_initialized (inject_touches es w) = true /\
  touch_queue (inject_touches es w)
  = drop (length (touch_queue w ++ map queued_event es) - 10)
         (touch_queue w ++ map queued_event es).
Proof.
  induction es as [|[[[x y] ty] ts] es IH]; intros w Hi Hlen.
  - cbn [inject_touches map]. rewrite app_nil_r. split; [exact Hi|].
    replace (length (touch_queue w) - 10)%nat with 0%nat by lia. reflexivity.
  - cbn [inject_touches map].
    assert (Hi' : touch_initialized (wasm_touch_event x y ty ts w) = true)
      by (unfold wasm_touch_event; rewrite Hi; exact Hi).
    pose proof (wasm_touch_event_queue x y ty ts w) as Hq. rewrite Hi in Hq. cbv zeta in Hq.
    assert (Hlen' : (length (touch_queue (wasm_touch_event x y ty ts w)) <= 10)%nat)
      by (rewrite Hq, length_drop, length_app; cbn [length]; lia).
    destruct (IH _ Hi' Hlen') as [I1 I2]. split; [exact I1|].
    rewrite I2, Hq.
    set (q := touch_queue w ++ [mk_touch_event (u16 x) (u16 y) (u8 ty) (u64 ts)]).
    change (queued_event (x, y, ty, ts) :: map queued_event es)
      with ([mk_touch_event (u16 x) (u16 y) (u8 ty) (u64 ts)] ++ map queued_event es).
    rewrite app_assoc. fold q.
    set (k := (length q - 10)%nat). set (m := map queued_event es).
    assert (Hk : (k <= length q)%nat) by (unfold k; lia).
    rewrite <- (drop_app_le q m k Hk), drop_drop, length_drop, !length_app.
    f_equal. unfold k. lia.
Qed.

Lemma touch_reads_queue n : forall w,
  touch_initialized w = true ->
  fst (touch_reads n w) = take n (touch_queue w) /\
  touch_queue (exec (touch_reads n) w) = drop n (touch_queue w).
Proof.
  induction n as [|n IH]; intros w Hi; [split; reflexivity|].
  cbn [touch_reads]. rewrite fst_bind, exec_bind.
  rewrite touch_read_exec. unfold touch_read. rewrite Hi. cbn [negb].
  destruct (touch_queue w) as [|e q] eqn:Eq; cbn [fst snd].
  - split; [reflexivity|]. rewrite exec_ret, Eq. reflexivity.
  - rewrite fst_bind, exec_bind, exec_ret. cbn [ret fst tail].
    destruct (IH (set_touch_queue q w) Hi) as [I1 I2].
    change (touch_queue (set_touch_queue q w)) with q in I1, I2.
    rewrite I1, I2. split; reflexivity.
Qed.

(** X12.  Touch events come out of [touch_read] in the order in which the
    host injected them, with their arguments cut to the widths of
    [touch_event_t]; of more than ten events injected between two reads
    only the last ten are there to be read. *)
Theorem touch_events_are_read_in_order (es : list (Z * Z * Z * Z)) (n : nat) (w : world) :
  touch_initialized w = true -> touch_queue w = [] ->
  let w' := inject_touches es w in
  let kept := drop (length es - 10) (map queued_event es) in
  fst (touch_reads n w') = take n kept /\
  touch_queue (exec (touch_reads n) w') = drop n kept.
Proof.
  intros Hi Hq w' kept.
  destruct (inject_touches_queue es w Hi) as [I1 I2]; [rewrite Hq; simpl; lia|].
  rewrite Hq in I2. cbn [app] in I2. rewrite length_map in I2.
  destruct (touch_reads_queue n w' I1) as [R1 R2].
  unfold w' in *. rewrite I2 in R1, R2. split; assumption.
Qed.

Lemma touch_events_are_read_in_order_witness :
  let w := exec (setup fw_boot) (fresh_world 0) in
  fst (touch_reads 3 (inject_touches [(1, 2, 0, 5); (65537, 2, 258, 6)] w))
  = take 3 (drop (2 - 10) (map queued_event [(1, 2, 0, 5); (65537, 2, 258, 6)])).
Proof.
  intros w.
  destruct (touch_events_are_read_in_order [(1, 2, 0, 5); (65537, 2, 258, 6)] 3 w
              eq_refl eq_refl) as [H _].
  exact H.
Defined.

(** ** Host events before initialisation *)

Lemma host_calls_uninitialised cs : forall w,
  touch_initialized w = false -> nfc_initialized w = false -> nfc_queue w = [] ->
  host_calls cs w = w.
Proof.
  induction cs as [|c cs IH]; intros w Ht Hn Hq; [reflexivity|].
  cbn [host_calls].
  assert (E : run_host_call c w = w).
  { destruct c as [x y ty ts|uid ul ndef nl|]; cbn [run_host_call].
    - unfold wasm_touch_event. rewrite Ht. reflexivity.
    - unfold wasm_nfc_tag. rewrite Hn. reflexivity.
    - unfold wasm_nfc_tag_removed. rewrite Hq. destruct w; cbn in *. subst. reflexivity. }
  rewrite E. apply IH; assumption.
Qed.

(** X13.  What the host injects before the backend is initialised is lost:
    calls of [wasm_touch_event] before [touch_init] and of [wasm_nfc_tag]
    before [nfc_init] change nothing, so a tag presented before [setup] is
    not there when [setup] has run, and nothing is dispatched for it. *)
Theorem events_before_init_are_lost (cs : list host_call) (st : fw_state) (w : world) :
  touch_initialized w = false -> nfc_initialized w = false -> nfc_queue w = [] ->
  host_calls cs w = w /\
  let r := setup st (host_calls cs w) in
  fst (nfc_tag_present (snd r)) = false /\
  nfc_poll (fst r) (snd r) = (set_last_uid "" (fst r), snd r).
Proof.
  intros Ht Hn Hq. rewrite (host_calls_uninitialised cs w Ht Hn Hq).
  split; [reflexivity|]. cbv zeta.
  assert (Hp : no_tag (snd (setup st w))).
  { unfold no_tag, nfc_tag_present. cbn [fst].
    change (nfc_queue (snd (setup st w))) with (nfc_queue w). rewrite Hq. reflexivity. }
  split; [exact Hp | apply nfc_poll_no_tag, Hp].
Qed.

Lemma events_before_init_are_lost_witness :
  let cs := [call_wasm_nfc_tag [170; 187] 2 [] 0; call_wasm_touch_event 10 10 0 0] in
  host_calls cs (fresh_world 0) = fresh_world 0 /\
  fst (nfc_tag_present (snd (setup fw_boot (host_calls cs (fresh_world 0))))) = false.
Proof.
  intros cs.
  destruct (events_before_init_are_lost cs fw_boot (fresh_world 0) eq_refl eq_refl eq_refl)
    as (H1 & H2 & _).
  split; [exact H1 | exact H2].
Defined.

(** ** The storage functions *)



(** ** Configuration and start-up *)



(** X16.  [setup] always installs the default configuration, so a
    configuration set before it is discarded; it switches the three
    backends on and draws the ready screen with the default label.  It
    resets nothing else: the debounce state, the queues, the clock and the
    store are as before. *)
Theorem setup_installs_the_default_ritual (st : fw_state) (w : world) :
  let r := setup st w in
  current_ritual (fst r) = default_ritual /\
  ritual_initialized (fst r) = true /\
  (last_uid (fst r), last_nfc_check (fst r), last_touch_time (fst r))
  = (last_uid st, last_nfc_check st, last_touch_time st) /\
  (display_initialized (snd r), nfc_initialized (snd r), touch_initialized (snd r))
  = (true, true, true) /\
  (touch_queue (snd r), nfc_queue (snd r), clock (snd r), store (snd r), inbox (snd r))
  = (touch_queue w, nfc_queue w, clock w, store w, inbox w) /\
  calls (snd r)
  = rev ([ js_debug_print "MELD Node starting...";
           js_display_clear;
           js_debug_print "Display initialized (WebAssembly)";
           js_debug_print "NFC initialized (WebAssembly)";
           js_debug_print "Touch initialized (WebAssembly)" ]
         ++ ready_screen_calls default_ritual
         ++ [ js_debug_print "MELD Node ready!" ])
    ++ calls w.
Proof.
  destruct st as [cfg ri lc lu lt]. destruct w as [tq nq di ni ti ck sto ok ib cl].
  cbv zeta. repeat split.
Qed.

(** ** The counter: what is read and what is fed back *)

Lemma overlay_take4 (data : list Z) :
  overlay (take (Z.to_nat 4) data) [0; 0; 0; 0] = take 4 (data ++ [0; 0; 0; 0]).
Proof.
  unfold overlay. change (Z.to_nat 4) with 4%nat.
  destruct data as [|a [|b [|c [|d data]]]]; reflexivity.
Qed.

Lemma length_blink_calls n : forall i d, length (blink_calls i n d) = n.
Proof.
  induction n as [|n IH]; intros i d; [reflexivity|].
  rewrite blink_calls_S, length_app, IH. cbn [length]. lia.
Qed.

(** X17.  IncrementCounter reads whatever is stored under [counter_name]
    as the first four bytes of the value followed by zeros: a value of
    fewer than four bytes counts as the high-order bytes of the counter
    (a single byte [b] reads as [b * 2^24]), and bytes beyond the fourth
    are ignored. *)
Theorem counter_pads_a_short_value cfg (w : world) (data : list Z) :
  store w !! counter_name cfg = Some data ->
  loaded_count cfg w = be32_decode (take 4 (data ++ [0; 0; 0; 0])) /\
  (forall b, data = [b] -> 0 <= b < 256 -> loaded_count cfg w = b * 2 ^ 24) /\
  (forall c extra, data = be32_encode c ++ extra -> 0 <= c < 2 ^ 32 ->
                   loaded_count cfg w = c).
Proof.
  intros Hs.
  assert (H : loaded_count cfg w = be32_decode (take 4 (data ++ [0; 0; 0; 0]))).
  { rewrite loaded_count_observe. unfold o_load_result.
    change (o_store (observe w)) with (store w). rewrite Hs. cbn [snd].
    rewrite overlay_take4. reflexivity. }
  split; [exact H|]. split.
  - intros b -> Hb. rewrite H. cbn [app take]. unfold be32_decode, u32. cbn [nth].
    rewrite !Z.shiftl_0_l, !Z.lor_0_r, Z.shiftl_mul_pow2 by lia.
    apply Z.mod_small. lia.
  - intros c extra -> Hc. rewrite H.
    transitivity (be32_decode (be32_encode c)); [reflexivity | apply be32_roundtrip, Hc].
Qed.

Lemma counter_pads_a_short_value_witness :
  let w := set_store (<["default_counter" := [1]]> ∅) (fresh_world 0) in
  loaded_count default_ritual w = 1 * 2 ^ 24.
Proof.
  intros w.
  destruct (counter_pads_a_short_value default_ritual w [1] eq_refl) as (_ & H & _).
  apply (H 1); [reflexivity | lia].
Defined.

(** X18.  The calls of one IncrementCounter activation, in full: the
    status, one load and one save of [counter_name], as many scheduled
    blinks as the last decimal digit of the new count (none at every tenth
    count), one tone of [1000 + count mod 500] Hz, which is below 1500 and
    so is not cut by [uint16_t], the count on the display, 2000 ms, the
    ready screen. *)
Theorem counter_feedback cfg (uid_str : string) (w : world) :
  display_initialized w = true ->
  let n := u32 (loaded_count cfg w + 1) in
  calls (exec (execute_increment_counter cfg uid_str) w)
  = rev ([ js_debug_print (String.substring 0 511
             ("Incrementing counter: " +:+ counter_name cfg +:+ " for UID: " +:+ uid_str)) ]
         ++ status_calls cfg "Updating counter..."
         ++ [ js_storage_load (counter_name cfg) 4;
              js_storage_save (counter_name cfg) (be32_encode n) ]
         ++ rev (blink_calls 0 (Z.to_nat (n mod 10)) 150)
         ++ [ js_buzzer_tone (1000 + n mod 500) 200 ]
         ++ status_calls cfg (counter_name cfg +:+ ": " +:+ dec n)
         ++ [ emscripten_sleep 2000 ]
         ++ ready_screen_calls cfg)
    ++ calls w /\
  Z.of_nat (length (blink_calls 0 (Z.to_nat (n mod 10)) 150)) = n mod 10 /\
  0 <= n mod 10 <= 9 /\
  1000 <= 1000 + n mod 500 < 1500.
Proof.
  intros Hd n.
  assert (H10 : 0 <= n mod 10 < 10) by (apply Z.mod_pos_bound; lia).
  assert (H500 : 0 <= n mod 500 < 500) by (apply Z.mod_pos_bound; lia).
  split; [|rewrite length_blink_calls; lia].
  assert (Hn : n = u32 (be32_decode
                          (overlay (snd (o_load_result (counter_name cfg) 4 (observe w)))
                                   [0; 0; 0; 0]) + 1))
    by (unfold n; rewrite loaded_count_observe; reflexivity).
  assert (Ht : u16 (1000 + n mod 500) = 1000 + n mod 500)
    by (unfold u16; apply Z.mod_small; lia).
  rewrite !calls_observe. unfold execute_increment_counter.
  match goal with
  | |- context [observe (exec ?prog w)] =>
      obs_of ipattern:(H1) prog w; rewrite H1; clear H1
  end.
  cbv zeta. clearbody n.
  assert (Ho : o_display (observe w) = true) by exact Hd.
  destruct (observe w) as [cl ck sto ok di]; simpl in Ho; subst di.
  unfold o_shows, o_load_result in *; cbn in Hn |- *. rewrite <- Hn, Ht.
  rewrite !rev_app_distr, rev_involutive. cbn. rewrite <- !app_assoc. reflexivity.
Qed.

Lemma counter_feedback_witness :
  let w := exec (setup fw_boot) (fresh_world 0) in
  let n := u32 (loaded_count default_ritual w + 1) in
  Z.of_nat (length (blink_calls 0 (Z.to_nat (n mod 10)) 150)) = n mod 10.
Proof.
  intros w n.
  destruct (counter_feedback default_ritual "AABB" w eq_refl) as (_ & H & _).
  exact H.
Defined.

(** ** Records accumulate *)

Lemma execute_vote_effect cfg uid_str option_a w :
  let w' := exec (execute_vote cfg uid_str option_a) w in
  let t := u64 (clock w + (if option_a then 0 else 100)) in
  let opt : string := if option_a then "A" else "B" in
  store w' = (if store_ok w
              then <["vote_" +:+ dec t := bytes_of_string (vote_data cfg uid_str opt t)]>
                     (store w)
              else store w) /\
  store_ok w' = store_ok w /\
  clock w' = clock w + (if option_a then 0 else 100) + 2000.
Proof.
  cbv zeta. rewrite !store_observe, !store_ok_observe, !clock_observe. unfold execute_vote.
  destruct option_a; cbv zeta beta iota.
  all: match goal with
       | |- context [observe (exec ?prog ?w0)] =>
           obs_of ipattern:(H1) prog w0; rewrite H1; clear H1
       end.
  all: destruct (observe w) as [cl ck sto ok di]; unfold o_shows.
  all: destruct di; cbn; rewrite ?Z.add_0_r; repeat split; reflexivity.
Qed.

Lemma vote_key_inj a b :
  0 <= a -> 0 <= b -> "vote_" +:+ dec a = "vote_" +:+ dec b -> a = b.
Proof.
  intros Ha Hb H. repeat rewrite append_cons_s in H. rewrite !append_nil_s in H.
  injection H as H. apply dec_inj; assumption.
Qed.

(** X19.  A VoteA and then a VoteB for the same uid leave two records in a
    writable store, under the keys [vote_<t>] and [vote_<t + 2100>]: the
    second dispatch starts 2000 ms after the first save and saves 100 ms
    later, so its key is another one and the first record is not
    overwritten.  The two texts differ in the option and in the
    timestamp. *)
Theorem vote_records_accumulate cfg (uid_str : string) (w : world) :
  store_ok w = true -> 0 <= clock w -> clock w + 2100 < 2 ^ 64 ->
  let wa := exec (execute_vote cfg uid_str true) w in
  let wb := exec (execute_vote cfg uid_str false) wa in
  let ta := clock w in
  let tb := clock w + 2100 in
  "vote_" +:+ dec ta <> "vote_" +:+ dec tb /\
  store wb !! ("vote_" +:+ dec ta) = Some (bytes_of_string (vote_data cfg uid_str "A" ta)) /\
  store wb !! ("vote_" +:+ dec tb) = Some (bytes_of_string (vote_data cfg uid_str "B" tb)) /\
  forall key, key <> "vote_" +:+ dec ta -> key <> "vote_" +:+ dec tb ->
              store wb !! key = store w !! key.
Proof.
  intros Hok Hc Hr wa wb ta tb.
  destruct (execute_vote_effect cfg uid_str true w) as (Sa & Oa & Ca).
  destruct (execute_vote_effect cfg uid_str false wa) as (Sb & Ob & Cb).
  fold wa in Sa, Oa, Ca. fold wb in Sb, Ob, Cb.
  rewrite Oa, Hok in Sb. rewrite Hok in Sa. rewrite Ca in Sb.
  assert (Ea : u64 (clock w + 0) = ta)
    by (unfold u64, ta; rewrite Z.add_0_r; apply Z.mod_small; lia).
  assert (Eb : u64 (clock w + 0 + 2000 + 100) = tb)
    by (unfold u64, tb; rewrite Z.mod_small by lia; lia).
  rewrite Ea in Sa. rewrite Eb in Sb.
  assert (Hne : "vote_" +:+ dec ta <> "vote_" +:+ dec tb).
  { intros H. apply vote_key_inj in H; unfold ta, tb in *; lia. }
  split; [exact Hne|]. rewrite Sb, Sa. split; [|split].
  - rewrite lookup_insert_ne by congruence. apply lookup_insert_eq.
  - apply lookup_insert_eq.
  - intros key H1 H2. rewrite !lookup_insert_ne by congruence. reflexivity.
Qed.

Lemma vote_records_accumulate_witness :
  let w := exec (setup fw_boot) (fresh_world 5000) in
  let wb := exec (execute_vote default_ritual "AABB" false)
                 (exec (execute_vote default_ritual "AABB" true) w) in
  store wb !! ("vote_" +:+ dec 5000)
  = Some (bytes_of_string (vote_data default_ritual "AABB" "A" 5000)).
Proof.
  intros w wb.
  destruct (vote_records_accumulate default_ritual "AABB" w eq_refl) as (_ & H & _).
  - simpl. lia.
  - simpl. lia.
  - exact H.
Defined.

(** ** Iterations of [loop] between two polls *)

Lemma loop_touch_state fuel now st w :
  let st' := fst (fst (loop_touch fuel now st w)) in
  st' = st \/ st' = set_last_touch_time now st.
Proof.
  cbv zeta. unfold loop_touch. rewrite bind_eq. cbv beta.
  destruct (fst (touch_read w)) as [touch|]; [|left; reflexivity].
  destruct (touch_type touch =? 0); [|left; reflexivity].
  destruct (500 <? u64 (now - last_touch_time st)); [|left; reflexivity].
  right. cbv zeta. rewrite bind_eq. cbv beta. rewrite bind_eq. cbv beta.
  destruct (fst (long_press_detect long_press_rounds now _)) as [[|]|]; try reflexivity.
  rewrite bind_eq. cbv beta. rewrite bind_eq. cbv beta.
  destruct (fst (wait_touch_down fuel _)); [|reflexivity].
  rewrite bind_eq. reflexivity.
Qed.

Lemma nfc_poll_state st w :
  last_nfc_check (fst (nfc_poll st w)) = last_nfc_check st.
Proof.
  unfold nfc_poll. rewrite bind_eq. cbv beta.
  destruct (fst (nfc_tag_present w)); [|reflexivity].
  rewrite bind_eq. cbv beta zeta.
  destruct (0 <? _); [|reflexivity].
  destruct (negb _); [|reflexivity].
  rewrite bind_eq. cbv beta. rewrite bind_eq. reflexivity.
Qed.

(** X20.  [loop] looks at the tag reader only when more than 100 ms have
    passed, by the clock read at the start of the iteration, since the
    iteration that polled last.  An earlier iteration with no touch event
    waiting does nothing but sleep 10 ms, whatever tag is present; an
    iteration that polls remembers its own start time as the time of the
    last poll, however long a dispatch then takes. *)
Theorem tag_reader_is_polled_every_100_ms (fuel : nat) (st : fw_state) (w : world) :
  let now := u64 (clock w) in
  (u64 (now - last_nfc_check st) <= 100 -> fst (touch_read w) = None ->
   loop fuel st w = ((st, true), exec (system_delay 10) w)) /\
  (100 < u64 (now - last_nfc_check st) ->
   last_nfc_check (fst (fst (loop fuel st w))) = now).
Proof.
  cbv zeta. rewrite loop_eq. cbv zeta. unfold loop_nfc. split.
  - intros Hle Hr. destruct (Z.ltb_spec 100 (u64 (u64 (clock w) - last_nfc_check st)));
      [lia|].
    cbn [ret fst snd]. rewrite (loop_touch_no_event _ _ _ _ Hr). reflexivity.
  - intros Hlt. destruct (Z.ltb_spec 100 (u64 (u64 (clock w) - last_nfc_check st)));
      [|lia].
    pose proof (nfc_poll_state (set_last_nfc_check (u64 (clock w)) st) w) as Hp.
    cbn [last_nfc_check set_last_nfc_check] in Hp.
    remember (nfc_poll (set_last_nfc_check (u64 (clock w)) st) w) as p eqn:Ep. clear Ep.
    pose proof (loop_touch_state fuel (u64 (clock w)) (fst p) (snd p)) as Ht.
    cbv zeta in Ht.
    remember (loop_touch fuel (u64 (clock w)) (fst p) (snd p)) as q eqn:Eq. clear Eq.
    assert (Hq : last_nfc_check (fst (fst q)) = u64 (clock w))
      by (destruct Ht as [-> | ->]; exact Hp).
    destruct (snd (fst q)); exact Hq.
Qed.

Lemma tag_reader_is_polled_every_100_ms_witness :
  let st := set_last_nfc_check 4950 (fst (presented_once 5000)) in
  let w := snd (presented_once 5000) in
  loop 1 st w = ((st, true), exec (system_delay 10) w).
Proof.
  intros st w.
  destruct (tag_reader_is_polled_every_100_ms 1 st w) as [H _].
  apply H; [vm_compute; discriminate | reflexivity].
Defined.

(** ** The long-press window, seen from [loop] *)

Lemma long_press_detect_bounded fuel start : forall w,
  1000 <= u64 (u64 (clock w) - start) + 10 * Z.of_nat fuel ->
  exists b w', long_press_detect (S fuel) start w = (Some b, w') /\
               clock w <= clock w' <= clock w + 10 * Z.of_nat fuel.
Proof.
  induction fuel as [|fuel IH]; intros w Hf; rewrite long_press_detect_S.
  - destruct (Z.ltb_spec (u64 (u64 (clock w) - start)) 1000); [lia|].
    exists true, w. split; [reflexivity | lia].
  - destruct (Z.ltb_spec (u64 (u64 (clock w) - start)) 1000) as [Hlt|_];
      [|exists true, w; split; [reflexivity | lia]].
    cbv zeta.
    destruct (touch_read_frame (exec (system_delay 10) w)) as (Fc & _).
    assert (Hc : clock (exec touch_read (exec (system_delay 10) w)) = clock w + 10)
      by (rewrite Fc; reflexivity).
    assert (Hrec : exists b w',
               long_press_detect (S fuel) start (exec touch_read (exec (system_delay 10) w))
               = (Some b, w') /\
               clock w <= clock w' <= clock w + 10 * Z.of_nat (S fuel)).
    { destruct (IH (exec touch_read (exec (system_delay 10) w))) as (b & w' & E & Hb).
      - rewrite Hc, u64_elapsed_step by exact Hlt. lia.
      - exists b, w'. split; [exact E | lia]. }
    destruct (fst (touch_read (exec (system_delay 10) w))) as [e|]; [|exact Hrec].
    destruct (touch_type e =? 2); [|exact Hrec].
    exists false, (exec touch_read (exec (system_delay 10) w)).
    split; [reflexivity | lia].
Qed.

(** X21.  The wait for the release of a touch always ends, and within 1000
    ms: whatever the clock reads, whatever start time it is given and
    whatever the host delivers meanwhile, [long_press_rounds] rounds of the
    [while] loop are never used up. *)
Theorem long_press_window_closes (start : Z) (w : world) :
  exists still_touching w',
    long_press_detect long_press_rounds start w = (Some still_touching, w') /\
    clock w <= clock w' <= clock w + 1000.
Proof.
  destruct (long_press_detect_bounded 100 start w) as (b & w' & E & Hb).
  - pose proof (Z.mod_pos_bound (u64 (clock w) - start) (2 ^ 64) ltac:(lia)).
    unfold u64 at 1. lia.
  - exists b, w'. split; [exact E | lia].
Qed.

Lemma exec_snd {A} (c : M A) w : exec c w = snd (c w).
Proof. reflexivity. Qed.

Lemma loop_touch_processed_eq fuel now st w touch :
  fst (touch_read w) = Some touch -> touch_type touch = 0 ->
  500 < u64 (now - last_touch_time st) ->
  loop_touch fuel now st w =
  let st' := set_last_touch_time now st in
  let wd := exec (debug_printf ("Touch at (" +:+ dec (touch_x touch) +:+ ", "
                                +:+ dec (touch_y touch) +:+ ")"))
                 (exec touch_read w) in
  let r := long_press_detect long_press_rounds now wd in
  match fst r with
  | Some true =>
      let s := wait_touch_down fuel (exec show_menu (snd r)) in
      match fst s with
      | Some sel =>
          let h := handle_touch_menu fuel (current_ritual st')
                     (touch_x sel) (touch_y sel) (snd s) in
          ((st', fst h), snd h)
      | None => ((st', false), snd s)
      end
  | Some false => ((st', true), snd r)
  | None => ((st', false), snd r)
  end.
Proof.
  intros Hr Ht Hd. unfold loop_touch, bind. cbv zeta.
  fold (exec touch_read w). rewrite Hr, Ht. cbn [Z.eqb].
  destruct (Z.ltb_spec 500 (u64 (now - last_touch_time st))) as [_|Hge]; [|lia].
  unfold exec.
  destruct (fst (long_press_detect long_press_rounds now _)) as [[|]|]; try reflexivity.
  destruct (fst (wait_touch_down fuel _)); reflexivity.
Qed.

Lemma show_menu_entered w :
  display_initialized w = true -> entered_menu (exec show_menu w).
Proof.
  intros Hd. unfold entered_menu. rewrite calls_observe, obs_show_menu.
  unfold o_shows. change (o_display (observe w)) with (display_initialized w).
  rewrite Hd. cbn. auto 10.
Qed.

Lemma after_touch_debug w touch msg :
  fst (touch_read w) = Some touch ->
  let wd := exec (debug_printf msg) (exec touch_read w) in
  clock wd = clock w /\ inbox wd = inbox w /\
  touch_initialized wd = true /\ display_initialized wd = display_initialized w /\
  touch_queue wd = touch_queue (exec touch_read w) /\
  calls wd = js_debug_print (String.substring 0 511 msg) :: calls w.
Proof.
  intros Hr wd. destruct (touch_read_frame w) as (Fc & Fi & Fl & Ft & Fd).
  destruct (touch_read_some w touch Hr) as (Hinit & _).
  repeat split.
  - exact Fc.
  - exact Fi.
  - change (touch_initialized wd) with (touch_initialized (exec touch_read w)).
    rewrite Ft. exact Hinit.
  - exact Fd.
  - change (calls wd)
      with (js_debug_print (String.substring 0 511 msg) :: calls (exec touch_read w)).
    rewrite Fl. reflexivity.
Qed.

Lemma menu_after_long_press fuel cfg (r : option bool * world) :
  fst r = Some true -> display_initialized (snd r) = true ->
  let s := wait_touch_down fuel (exec show_menu (snd r)) in
  entered_menu (snd s) /\
  forall sel, entered_menu (snd (handle_touch_menu fuel cfg (touch_x sel) (touch_y sel) (snd s))).
Proof.
  intros _ Hd s.
  assert (Hm : entered_menu (snd s)).
  { apply (grows_entered_menu (wait_touch_down fuel) _ (grows_wait_touch_down fuel)).
    apply show_menu_entered, Hd. }
  split; [exact Hm|]. intros sel.
  apply (grows_entered_menu (handle_touch_menu fuel _ _ _) _
           (grows_handle_touch_menu fuel _ _ _) Hm).
Qed.

(** X22.  The long-press window of a processed touch-down is 1000 ms from
    the start time [now] of the loop iteration, and it is sampled: while
    less than 1000 ms have passed, the loop sleeps 10 ms and then reads one
    touch event.  (A) If no touch-up is queued and none arrives before the
    last such read (none before [now + 1010]), the menu is shown; this
    includes the case in which the window has already passed when the
    touch-down is processed.  (B) If the window starts at [now], the queue
    is otherwise empty and the touch-up is the next thing the host
    delivers, alone and no later than [now + 1000], then the loop only
    sleeps until it reads the touch-up, and the menu is not shown. *)
Theorem long_press_window (fuel : nat) (now : Z) (st : fw_state) (w : world)
    (touch : touch_event_t) :
  fst (touch_read w) = Some touch ->
  touch_type touch = 0 ->
  500 < u64 (now - last_touch_time st) ->
  0 <= now -> now + 1020 < 2 ^ 64 ->
  (display_initialized w = true -> now <= clock w < 2 ^ 64 ->
   no_up_queued (exec touch_read w) = true ->
   no_up_due (now + 1010) w = true ->
   entered_menu (snd (loop_touch fuel now st w))) /\
  (forall t x y type ts rest,
     clock w = now -> touch_queue (exec touch_read w) = [] ->
     inbox w = (t, call_wasm_touch_event x y type ts) :: rest ->
     u8 type = 2 -> t <= now + 1000 -> next_due_after (now + 1010) rest = true ->
     exists k w',
       loop_touch fuel now st w = ((set_last_touch_time now st, true), w') /\
       calls w' = repeat (emscripten_sleep 10) k
                  ++ js_debug_print
                       (String.substring 0 511
                          ("Touch at (" +:+ dec (touch_x touch) +:+ ", "
                           +:+ dec (touch_y touch) +:+ ")"))
                  :: calls w /\
       (~ entered_menu w -> ~ entered_menu w')).
Proof.
  intros Hr Ht Hd Hnow Hrange.
  rewrite (loop_touch_processed_eq _ _ _ _ _ Hr Ht Hd). cbv zeta.
  destruct (after_touch_debug w touch
              ("Touch at (" +:+ dec (touch_x touch) +:+ ", "
               +:+ dec (touch_y touch) +:+ ")") Hr)
    as (Wc & Wi & Wt & Wd & Wq & Wl).
  remember (exec (debug_printf ("Touch at (" +:+ dec (touch_x touch) +:+ ", "
                                +:+ dec (touch_y touch) +:+ ")"))
                 (exec touch_read w)) as wd eqn:Ewd.
  clear Ewd. split.
  - intros Hdisp Hclock Hq Hdue.
    assert (Hheld : fst (long_press_detect long_press_rounds now wd) <> Some false).
    { apply long_press_held; rewrite ?Wc; try lia.
      all: try (unfold no_up_queued; rewrite Wq; exact Hq).
      all: unfold no_up_due; rewrite Wi; exact Hdue. }
    pose proof (long_press_detect_total now wd) as Htotal.
    destruct (grows_long_press_detect long_press_rounds now wd) as (_ & Hdr).
    rewrite exec_snd, Wd, Hdisp in Hdr.
    remember (long_press_detect long_press_rounds now wd) as r eqn:Er. clear Er.
    destruct (menu_after_long_press fuel (current_ritual (set_last_touch_time now st)) r)
      as (Hm1 & Hm2); [| exact Hdr | ].
    + destruct (fst r) as [[|]|]; congruence.
    + cbv zeta in Hm1, Hm2.
      destruct (fst r) as [[|]|]; [|congruence|congruence].
      remember (wait_touch_down fuel (exec show_menu (snd r))) as s eqn:Es. clear Es.
      destruct (fst s) as [sel|]; cbn [snd]; [apply Hm2 | exact Hm1].
  - intros t x y type ts rest Hclock Hq Hb Hup Hin Hnext.
    destruct (long_press_released now t x y type ts rest long_press_rounds wd)
      as (k & w' & E1 & E2); rewrite ?Wc, ?Wq, ?Wi;
      try assumption; try lia; try (unfold long_press_rounds; lia).
    exists k, w'. rewrite E1. cbn [fst snd].
    split; [reflexivity|].
    rewrite Wl in E2. split; [exact E2|].
    intros Hno Hyes. unfold entered_menu in *. rewrite E2 in Hyes.
    apply in_app_or in Hyes as [Hs|[Hdbg|Hold]].
    + apply repeat_spec in Hs. discriminate Hs.
    + discriminate Hdbg.
    + exact (Hno Hold).
Qed.

Lemma long_press_window_witness :
  let w := mk_world [mk_touch_event 100 100 0 1000] [] true true true 1000 ∅ true [] [] in
  entered_menu (snd (loop_touch 1 1000 running_node w)).
Proof.
  intros w.
  destruct (long_press_window 1 1000 running_node w (mk_touch_event 100 100 0 1000))
    as [H _].
  - reflexivity.
  - reflexivity.
  - vm_compute. reflexivity.
  - lia.
  - lia.
  - apply H; [reflexivity | simpl; lia | reflexivity | reflexivity].
Defined.

(** ** Nothing is queued before initialisation *)

Lemma run_host_call_filled c w :
  filled_only_after_init w -> filled_only_after_init (run_host_call c w).
Proof.
  intros [Hn Ht]. destruct c as [x y ty ts|uid ul ndef nl|]; cbn [run_host_call].
  - unfold wasm_touch_event. destruct (touch_initialized w) eqn:E; cbn [negb].
    + split; [exact Hn | cbn; congruence].
    + split; [exact Hn | intros _; auto].
  - unfold wasm_nfc_tag. destruct (nfc_initialized w) eqn:E; cbn [negb].
    + split; [cbn; congruence | exact Ht].
    + split; [intros _; auto | exact Ht].
  - unfold wasm_nfc_tag_removed. split; [intros _; cbn; apply drain_nil | exact Ht].
Qed.

Lemma deliver_filled target pending : forall w,
  filled_only_after_init w -> filled_only_after_init (deliver target pending w).
Proof.
  induction pending as [|[t c] rest IH]; intros w Hw; cbn [deliver].
  - exact Hw.
  - destruct (t <=? target); [|exact Hw].
    apply IH, run_host_call_filled. exact Hw.
Qed.

Lemma run_host_call_init_flags c w :
  nfc_initialized (run_host_call c w) = nfc_initialized w /\
  touch_initialized (run_host_call c w) = touch_initialized w.
Proof.
  destruct c as [x y ty ts|uid ul ndef nl|]; cbn [run_host_call].
  - unfold wasm_touch_event. destruct (negb (touch_initialized w)); split; reflexivity.
  - unfold wasm_nfc_tag. destruct (negb (nfc_initialized w)); split; reflexivity.
  - split; reflexivity.
Qed.

Lemma deliver_init_flags target pending : forall w,
  nfc_initialized (deliver target pending w) = nfc_initialized w /\
  touch_initialized (deliver target pending w) = touch_initialized w.
Proof.
  induction pending as [|[t c] rest IH]; intros w; cbn [deliver].
  - split; reflexivity.
  - destruct (t <=? target); [|split; reflexivity].
    destruct (IH (run_host_call c (set_clock (Z.max t (clock w)) w))) as [I1 I2].
    destruct (run_host_call_init_flags c (set_clock (Z.max t (clock w)) w)) as [R1 R2].
    rewrite I1, I2, R1, R2. split; reflexivity.
Qed.

Lemma run_op_filled o w :
  filled_only_after_init w -> filled_only_after_init (run_op o w).
Proof.
  intros Hw. pose proof Hw as [Hn Ht]. destruct o; cbn [run_op].
  - split; assumption.
  - split; [cbn; discriminate | exact Ht].
  - split; [exact Hn | cbn; discriminate].
  - exact Hw.
  - rewrite nfc_get_uid_exec. exact Hw.
  - rewrite nfc_read_ndef_exec. exact Hw.
  - rewrite touch_read_exec. destruct (fst (touch_read w)) as [e|] eqn:Er; [|exact Hw].
    destruct (touch_read_some w e Er) as (Hi & _).
    split; [exact Hn | cbn; congruence].
  - destruct (deliver_filled (clock w + ms) (inbox w) w Hw) as [Dn Dt].
    destruct (deliver_init_flags (clock w + ms) (inbox w) w) as [Fn Ft].
    rewrite Fn in Dn. rewrite Ft in Dt. split; [exact Dn | exact Dt].
  - apply run_host_call_filled, Hw.
Qed.

Lemma run_ops_filled ops : forall w,
  filled_only_after_init w -> filled_only_after_init (run_ops ops w).
Proof.
  induction ops as [|o ops IH]; intros w Hw; [exact Hw|].
  cbn [run_ops fold_left]. apply IH, run_op_filled, Hw.
Qed.

(** X23.  From a freshly loaded module on, a queue is filled only after
    its backend was initialised: through every sequence of backend
    operations, a reader that is not initialised has an empty queue.  So
    [nfc_tag_present], which does not look at [nfc_initialized], returns
    true only when [nfc_get_uid] reports the front tag's own length. *)
Theorem queues_are_filled_only_after_init (t : Z) (ops : list backend_op) :
  let w := run_ops ops (fresh_world t) in
  filled_only_after_init w /\
  (fst (nfc_tag_present w) = true ->
   exists tag rest, nfc_queue w = tag :: rest /\
                    fst (fst (nfc_get_uid w)) = tag_uid_length tag).
Proof.
  cbv zeta.
  assert (H : filled_only_after_init (run_ops ops (fresh_world t)))
    by (apply run_ops_filled; split; reflexivity).
  split; [exact H|]. destruct H as [Hn _].
  unfold nfc_tag_present, nfc_get_uid. cbn [fst].
  destruct (nfc_queue (run_ops ops (fresh_world t))) as [|tag rest] eqn:Eq;
    [discriminate|].
  intros _. exists tag, rest. split; [reflexivity|].
  destruct (nfc_initialized (run_ops ops (fresh_world t))); [reflexivity|].
  discriminate (Hn eq_refl).
Qed.

(** ** Debounce by identity *)

(** X24.  The debounce compares uids, nothing else.  (A) A tag whose uid
    differs from the remembered one is dispatched at its first poll even
    when the other tag was never seen to leave.  (B) A tag that reports a
    uid of length 0 is no absence: polls that find it neither dispatch nor
    forget the remembered uid, so the remembered tag, presented again right
    after it, is not dispatched. *)
Theorem debounce_is_by_uid (uid1 uid2 : list Z) (st : fw_state)
    (w : world) (ws : list world) (ws0 : list world) :
  Forall (fun b => 0 <= b < 256) uid1 -> Forall (fun b => 0 <= b < 256) uid2 ->
  (1 <= length uid1 <= 7)%nat -> (1 <= length uid2 <= 7)%nat ->
  last_uid st = uid_to_string uid1 (Z.of_nat (length uid1)) ->
  (uid1 <> uid2 -> Forall (tag_held uid2) (w :: ws) ->
   polls st (w :: ws)
   = (set_last_uid (uid_to_string uid2 (Z.of_nat (length uid2))) st, 1%nat)) /\
  (Forall (tag_held []) ws0 -> Forall (tag_held uid1) (w :: ws) ->
   polls st (ws0 ++ w :: ws) = (st, 0%nat)).
Proof.
  intros B1 B2 L1 L2 Hst. split.
  - intros Hne Hheld. apply polls_new_tag; [exact L2 | exact Hheld |].
    rewrite Hst. intros E. apply Hne.
    apply uid_to_string_injective_bytes; try assumption; lia.
  - intros H0 H1. rewrite polls_app, (polls_empty_uid ws0 st H0). cbn [fst snd].
    rewrite (polls_same_tag uid1 (w :: ws) st L1 H1 Hst). reflexivity.
Qed.

Lemma debounce_is_by_uid_witness :
  let st := set_last_uid "AABB" (fst (presented_once 5000)) in
  let w0 := wasm_nfc_tag [] 0 [] 0 (snd (presented_once 5000)) in
  let w := snd (presented_once 5000) in
  polls st ([w0; w0] ++ [w; w]) = (st, 0%nat).
Proof.
  intros st w0 w.
  destruct (debounce_is_by_uid [170; 187] [1] st w [w] [w0; w0]) as [_ H].
  - repeat constructor; lia.
  - repeat constructor; lia.
  - simpl; lia.
  - simpl; lia.
  - reflexivity.
  - apply H; repeat constructor; reflexivity.
Defined.

(** ** The light patterns *)

Lemma tone_frequencies_app l1 l2 :
  tone_frequencies (l1 ++ l2) = tone_frequencies l1 ++ tone_frequencies l2.
Proof. apply flat_map_app. Qed.

Lemma tone_frequencies_blink_calls n : forall i d, tone_frequencies (blink_calls i n d) = [].
Proof.
  induction n as [|n IH]; intros i d; [reflexivity|].
  rewrite blink_calls_S, tone_frequencies_app, IH. reflexivity.
Qed.

Lemma led_switch_ons_app l1 l2 :
  led_switch_ons (l1 ++ l2) = (led_switch_ons l1 + led_switch_ons l2)%nat.
Proof. unfold led_switch_ons. rewrite List.filter_app, length_app. reflexivity. Qed.

Lemma led_switch_ons_blink_calls n : forall i d, led_switch_ons (blink_calls i n d) = 0%nat.
Proof.
  induction n as [|n IH]; intros i d; [reflexivity|].
  rewrite blink_calls_S, led_switch_ons_app, IH. reflexivity.
Qed.

Lemma scheduled_blinks_app l1 l2 :
  scheduled_blinks (l1 ++ l2) = (scheduled_blinks l1 + scheduled_blinks l2)%nat.
Proof. unfold scheduled_blinks. rewrite List.filter_app, length_app. reflexivity. Qed.

Lemma scheduled_blinks_blink_calls n : forall i d, scheduled_blinks (blink_calls i n d) = n.
Proof.
  induction n as [|n IH]; intros i d; [reflexivity|].
  rewrite blink_calls_S, scheduled_blinks_app, IH. cbn. lia.
Qed.

Lemma storage_calls_app l1 l2 :
  storage_calls (l1 ++ l2) = storage_calls l1 ++ storage_calls l2.
Proof. apply List.filter_app. Qed.

Lemma storage_calls_blink_calls n : forall i d, storage_calls (blink_calls i n d) = [].
Proof.
  induction n as [|n IH]; intros i d; [reflexivity|].
  rewrite blink_calls_S, storage_calls_app, IH. reflexivity.
Qed.

(** X25.  TriggerLight chooses by exact comparison of [light_pattern]:
    [rainbow] switches the LED on ten times, each time with a tone, from
    500 Hz up to 1400 Hz in steps of 100; [pulse] switches it on five
    times without a tone; every other text, the empty one included,
    schedules ten blinks and switches nothing itself.  No pattern makes a
    storage call or changes the store. *)
Theorem trigger_light_patterns cfg (uid_str : string) (w : world) :
  let w' := exec (execute_trigger_light cfg uid_str) w in
  let made (tones : list Z) (ons blinks : nat) :=
    tone_frequencies (calls w') = rev tones ++ tone_frequencies (calls w) /\
    led_switch_ons (calls w') = (ons + led_switch_ons (calls w))%nat /\
    scheduled_blinks (calls w') = (blinks + scheduled_blinks (calls w))%nat in
  (if String.eqb (light_pattern cfg) "rainbow"
   then made [500; 600; 700; 800; 900; 1000; 1100; 1200; 1300; 1400] 10%nat 0%nat
   else if String.eqb (light_pattern cfg) "pulse"
        then made [] 5%nat 0%nat
        else made [] 0%nat 10%nat) /\
  store w' = store w /\
  storage_calls (calls w') = storage_calls (calls w).
Proof.
  cbv zeta. rewrite !calls_observe, !store_observe.
  unfold execute_trigger_light, for_upto.
  change (Z.to_nat 10) with 10%nat; change (Z.to_nat 5) with 5%nat.
  destruct (String.eqb (light_pattern cfg) "rainbow");
    [|destruct (String.eqb (light_pattern cfg) "pulse")].
  all: match goal with
       | |- context [observe (exec ?prog ?w0)] =>
           obs_of ipattern:(H1) prog w0; rewrite H1; clear H1
       end.
  all: destruct (observe w) as [cl ck sto ok di]; unfold o_shows.
  all: destruct di; cbn.
  all: rewrite ?tone_frequencies_app, ?tone_frequencies_blink_calls,
         ?led_switch_ons_app, ?led_switch_ons_blink_calls,
         ?scheduled_blinks_app, ?scheduled_blinks_blink_calls,
         ?storage_calls_app, ?storage_calls_blink_calls.
  all: repeat split; reflexivity.
Qed.
